(** * TrumpProof: receipt ledger core and cross-domain loop

    A shallow embedding of [src/core.py], [src/constants.py],
    [src/loop/cycle.py], [src/loop/cross_domain.py] and
    [src/loop/pif_tracker.py], with the properties of the receipt emitter,
    the dual hash, the Merkle aggregator, the stop rules and the correlator,
    and of three callers of the emitter: [harvest_violations] of
    [src/loop/harvest.py], [flag_violation] of [src/gulf/fara.py] and
    [assess_emolument] of [src/golf/emoluments.py].

    Python values are modelled as the interpreter has them: a [str] is a
    sequence of Unicode code points, [bytes] a sequence of octets, a [dict]
    an insertion-ordered association list, an exception a constructor of
    [exn] carried by [result].

    The values covered are those that [json.dumps] serialises: [None],
    booleans, integers, floats, texts, lists, and dicts keyed by texts.
    The libraries outside the repository ([blake3], [float.__repr__],
    [str] of a container, [str.lower] beyond ASCII, the clock) are the
    fields of [Runtime]; SHA-256, UTF-8 and [json.dumps] are written out.
    The limits of an interpreter (recursion depth, memory, the length of
    an integer's decimal text) are not part of the model. *)

From Stdlib Require Import String Ascii DecimalString.
From Stdlib.Strings Require Import Byte.
From Stdlib Require Import ZArith NArith Bool Lia SpecFloat.
From Stdlib Require Import List Permutation.
From Equations Require Import Equations.
Import ListNotations.

(* ================================================================== *)
(** * The Python runtime: strings, bytes, exceptions                   *)
(* ================================================================== *)

Module Py.

(** A Python [str]: its code points, each at most [0x10FFFF]. *)
Definition pystr := list N.

(** A Python [bytes] object. *)
Definition bytes := list byte.

Definition of_ascii (s : string) : pystr :=
  map N_of_ascii (list_ascii_of_string s).

(** A string literal of the source. *)
Definition lit (s : string) : pystr := of_ascii s.

(** A bytes literal of the source, [b"..."]. *)
Definition blit (s : string) : bytes := list_byte_of_string s.

Definition byte_of_N (n : N) : byte := byte_of_ascii (ascii_of_N n).

(** The exceptions the modelled code can raise. *)
Inductive exn : Type :=
| StopRule (msg : pystr)
| UnicodeEncodeError
| AttributeError
| TypeError
| IndexError
| OverflowError.

Inductive result (A : Type) : Type :=
| Ok (a : A)
| Raise (e : exn).

Arguments Ok {A} a.
Arguments Raise {A} e.

Definition rbind {A B} (r : result A) (k : A -> result B) : result B :=
  match r with
  | Ok a => k a
  | Raise e => Raise e
  end.

(** [a == b] on [str]. *)
Fixpoint str_eqb (a b : pystr) : bool :=
  match a, b with
  | [], [] => true
  | x :: a', y :: b' => N.eqb x y && str_eqb a' b'
  | _, _ => false
  end.

(** [a < b] on [str]: lexicographic on code points. *)
Fixpoint str_ltb (a b : pystr) : bool :=
  match a, b with
  | _, [] => false
  | [], _ :: _ => true
  | x :: a', y :: b' =>
      if N.ltb x y then true
      else if N.ltb y x then false
      else str_ltb a' b'
  end.

Definition str_leb (a b : pystr) : bool := negb (str_ltb b a).

Fixpoint starts_with (p s : pystr) : bool :=
  match p, s with
  | [], _ => true
  | _ :: _, [] => false
  | x :: p', y :: s' => N.eqb x y && starts_with p' s'
  end.

(** [p in s] for two [str]: [p] occurs in [s] as a substring. *)
Fixpoint contains (p s : pystr) : bool :=
  starts_with p s ||
  match s with
  | [] => false
  | _ :: s' => contains p s'
  end.

(** [x in xs] for a list of [str]. *)
Definition str_in (x : pystr) (xs : list pystr) : bool :=
  existsb (str_eqb x) xs.

(** [sep.join(parts)]. *)
Fixpoint join (sep : pystr) (parts : list pystr) : pystr :=
  match parts with
  | [] => []
  | [p] => p
  | p :: rest => p ++ sep ++ join sep rest
  end.

Definition is_surrogate (c : N) : bool :=
  (N.leb 0xD800 c && N.leb c 0xDFFF)%N.

(** The UTF-8 codec, strict: one code point. A surrogate has no encoding. *)
Definition utf8_encode_cp (c : N) : option bytes :=
  (if c <? 0x80 then Some [byte_of_N c]
   else if c <? 0x800 then
     Some [byte_of_N (0xC0 + c / 64); byte_of_N (0x80 + c mod 64)]
   else if is_surrogate c then None
   else if c <? 0x10000 then
     Some [byte_of_N (0xE0 + c / 4096);
           byte_of_N (0x80 + (c / 64) mod 64);
           byte_of_N (0x80 + c mod 64)]
   else
     Some [byte_of_N (0xF0 + c / 262144);
           byte_of_N (0x80 + (c / 4096) mod 64);
           byte_of_N (0x80 + (c / 64) mod 64);
           byte_of_N (0x80 + c mod 64)])%N.

(** [s.encode()]: UTF-8, errors="strict". *)
Fixpoint encode (s : pystr) : result bytes :=
  match s with
  | [] => Ok []
  | c :: s' =>
      match utf8_encode_cp c with
      | None => Raise UnicodeEncodeError
      | Some bs => rbind (encode s') (fun rest => Ok (bs ++ rest))
      end
  end.

Definition hex_digit (n : N) : N :=
  (if n <? 10 then 48 + n else 87 + n)%N.

(** [bytes.hex()]: two lower-case hexadecimal digits per octet. *)
Definition hex_of_byte (b : byte) : pystr :=
  let n := Byte.to_N b in [hex_digit (n / 16); hex_digit (n mod 16)]%N.

Definition hex (bs : bytes) : pystr := flat_map hex_of_byte bs.

Definition is_lower_hex (c : N) : bool :=
  ((48 <=? c) && (c <=? 57) || (97 <=? c) && (c <=? 102))%N.

Definition colon : N := 58%N.

(** ** Values

    The JSON-shaped values that receipts and payloads hold. A [dict] keeps
    its insertion order; its keys are [str]. A [float] is an IEEE 754
    binary64 number. *)
#[local] Unset Elimination Schemes.
Inductive pyval : Type :=
| PNone
| PBool (b : bool)
| PInt (n : Z)
| PFloat (f : spec_float)
| PStr (s : pystr)
| PList (xs : list pyval)
| PDict (kvs : list (pystr * pyval)).
#[local] Set Elimination Schemes.

Definition pydict := list (pystr * pyval).

Section PyvalInduction.
Variable P : pyval -> Prop.
Hypothesis Hnone : P PNone.
Hypothesis Hbool : forall b, P (PBool b).
Hypothesis Hint : forall n, P (PInt n).
Hypothesis Hfloat : forall f, P (PFloat f).
Hypothesis Hstr : forall s, P (PStr s).
Hypothesis Hlist : forall xs, Forall P xs -> P (PList xs).
Hypothesis Hdict :
  forall kvs, Forall (fun kv => P (snd kv)) kvs -> P (PDict kvs).

(** Induction on a value, with the hypothesis on every element of a list
    and on every value of a dict. *)
Fixpoint pyval_ind (v : pyval) : P v :=
  match v with
  | PNone => Hnone
  | PBool b => Hbool b
  | PInt n => Hint n
  | PFloat f => Hfloat f
  | PStr s => Hstr s
  | PList xs =>
      Hlist xs ((fix go (l : list pyval) : Forall P l :=
                match l with
                | [] => Forall_nil _
                | x :: l' => Forall_cons x (pyval_ind x) (go l')
                end) xs)
  | PDict kvs =>
      Hdict kvs ((fix go (l : list (pystr * pyval))
                : Forall (fun kv => P (snd kv)) l :=
                match l with
                | [] => Forall_nil _
                | kv :: l' =>
                    Forall_cons kv (pyval_ind (snd kv)) (go l')
                end) kvs)
  end.

End PyvalInduction.

(** [bool(v)]. *)
Definition truthy (v : pyval) : bool :=
  match v with
  | PNone => false
  | PBool b => b
  | PInt n => negb (Z.eqb n 0)
  | PFloat (S754_zero _) => false
  | PFloat _ => true
  | PStr [] => false
  | PStr _ => true
  | PList [] => false
  | PList _ => true
  | PDict [] => false
  | PDict _ => true
  end.

(** [a or b]. *)
Definition por (a b : pyval) : pyval := if truthy a then a else b.

(** [d.get(k)] as an option; the first binding of [k]. *)
Fixpoint lookup {A} (d : list (pystr * A)) (k : pystr) : option A :=
  match d with
  | [] => None
  | (k', v) :: d' => if str_eqb k k' then Some v else lookup d' k
  end.

(** [k in d]. *)
Definition has_key {A} (d : list (pystr * A)) (k : pystr) : bool :=
  match lookup d k with Some _ => true | None => false end.

(** [d.get(k, default)]. *)
Definition get (d : pydict) (k : pystr) (default : pyval) : pyval :=
  match lookup d k with Some v => v | None => default end.

(** [d[k] = v]: an existing key keeps its place, a new one goes last. *)
Fixpoint set_item {A} (d : list (pystr * A)) (k : pystr) (v : A)
  : list (pystr * A) :=
  match d with
  | [] => [(k, v)]
  | (k', v') :: d' =>
      if str_eqb k k' then (k, v) :: d' else (k', v') :: set_item d' k v
  end.

(** A dict display [{k1: v1, ..., **more}]: the items are stored from left
    to right. *)
Definition dict_of (items : list (pystr * pyval)) : pydict :=
  fold_left (fun d kv => set_item d (fst kv) (snd kv)) items [].

Definition keys {A} (d : list (pystr * A)) : list pystr := map fst d.

(** ** [str.lower], [str()] and the clock

    What the interpreter and its libraries supply and the repository does
    not define: the optional [blake3] package, [float.__repr__] on finite
    non-zero numbers (an ASCII text), [repr] of containers, the Unicode
    case tables beyond ASCII, and the two clocks, read by call number. *)
Class Runtime : Type := {
  HAS_BLAKE3 : bool;
  blake3_digest : bytes -> bytes;
  float_repr : spec_float -> string;
  container_repr : pyval -> pystr;
  unicode_lower : pystr -> pystr;
  time_time : nat -> spec_float;
  utcnow_isoformat : nat -> pystr
}.

Definition is_ascii (c : N) : bool := (c <? 128)%N.

Definition ascii_lower (c : N) : N :=
  (if (65 <=? c) && (c <=? 90) then c + 32 else c)%N.

(** [s.lower()]. *)
Definition lower `{Runtime} (s : pystr) : pystr :=
  if forallb is_ascii s then map ascii_lower s else unicode_lower s.

(** [str(n)] for an [int]. *)
Definition int_str (n : Z) : pystr :=
  of_ascii (NilZero.string_of_int (Z.to_int n)).

(** [repr(f)] for a [float]. *)
Definition float_str `{Runtime} (f : spec_float) : pystr :=
  match f with
  | S754_nan => lit "nan"
  | S754_infinity false => lit "inf"
  | S754_infinity true => lit "-inf"
  | S754_zero false => lit "0.0"
  | S754_zero true => lit "-0.0"
  | S754_finite _ _ _ => of_ascii (float_repr f)
  end.

(** [str(v)]. *)
Definition str `{Runtime} (v : pyval) : pystr :=
  match v with
  | PNone => lit "None"
  | PBool true => lit "True"
  | PBool false => lit "False"
  | PInt n => int_str n
  | PFloat f => float_str f
  | PStr s => s
  | PList _ | PDict _ => container_repr v
  end.

(** ** Numbers *)

Definition float_zero : spec_float := S754_zero false.

(** [float(n)] for an [int]: rounded to nearest even, [OverflowError]
    beyond the binary64 range. *)
Definition float_of_int (n : Z) : result spec_float :=
  match binary_normalize 53 1024 n 0 false with
  | S754_infinity _ => Raise OverflowError
  | f => Ok f
  end.

(** [v > 0]. *)
Definition gt_zero (v : pyval) : result bool :=
  match v with
  | PBool b => Ok b
  | PInt n => Ok (Z.ltb 0 n)
  | PFloat f => Ok (SFltb float_zero f)
  | PNone | PStr _ | PList _ | PDict _ => Raise TypeError
  end.

(** An [int], a [bool] or a [float]. *)
Definition numeric (v : pyval) : bool :=
  match v with
  | PInt _ | PBool _ | PFloat _ => true
  | _ => false
  end.

(** [a + b] and [a - b] where [a] is a number: on two [int]s (a [bool]
    counts as one) the exact result, with a [float] the rounded one, and
    [TypeError] when [b] is no number. *)
Definition arith (zop : Z -> Z -> Z)
           (fop : spec_float -> spec_float -> spec_float)
           (a b : pyval) : result pyval :=
  let as_int v :=
    match v with
    | PBool c => Some (Z.b2z c)
    | PInt n => Some n
    | _ => None
    end in
  let as_float v :=
    match v with
    | PFloat f => Ok f
    | PBool c => float_of_int (Z.b2z c)
    | PInt n => float_of_int n
    | _ => Raise TypeError
    end in
  match as_int a, as_int b with
  | Some x, Some y => Ok (PInt (zop x y))
  | _, _ =>
      if numeric a && numeric b then
        rbind (as_float a) (fun x =>
        rbind (as_float b) (fun y => Ok (PFloat (fop x y))))
      else Raise TypeError
  end.

Definition add : pyval -> pyval -> result pyval :=
  arith Z.add (SFadd 53 1024).
Definition sub : pyval -> pyval -> result pyval :=
  arith Z.sub (SFsub 53 1024).

(** ** json.dumps *)

Definition hex4 (n : N) : pystr :=
  [hex_digit ((n / 4096) mod 16); hex_digit ((n / 256) mod 16);
   hex_digit ((n / 16) mod 16); hex_digit (n mod 16)]%N.

Definition backslash : N := 92%N.
Definition quote : N := 34%N.

Definition u_escape (n : N) : pystr := [backslash; 117%N] ++ hex4 n.

(** One character of a JSON string with [ensure_ascii=True]. *)
Definition escape_cp (c : N) : pystr :=
  (if c =? quote then [backslash; quote]
   else if c =? backslash then [backslash; backslash]
   else if c =? 10 then [backslash; 110]
   else if c =? 13 then [backslash; 114]
   else if c =? 9 then [backslash; 116]
   else if c =? 8 then [backslash; 98]
   else if c =? 12 then [backslash; 102]
   else if (32 <=? c) && (c <=? 126) then [c]
   else if c <? 0x10000 then u_escape c
   else
     let n := c - 0x10000 in
     u_escape (N.lor 0xD800 (N.land (N.shiftr n 10) 0x3FF))
     ++ u_escape (N.lor 0xDC00 (N.land n 0x3FF)))%N.

Definition json_str (s : pystr) : pystr :=
  [quote] ++ flat_map escape_cp s ++ [quote].

Definition json_float `{Runtime} (f : spec_float) : pystr :=
  match f with
  | S754_nan => lit "NaN"
  | S754_infinity false => lit "Infinity"
  | S754_infinity true => lit "-Infinity"
  | _ => float_str f
  end.

(** [sorted(items)] on the items of a dict: by key. *)
Fixpoint insert_item {A} (kv : pystr * A) (l : list (pystr * A))
  : list (pystr * A) :=
  match l with
  | [] => [kv]
  | kv' :: l' =>
      if str_leb (fst kv) (fst kv') then kv :: l
      else kv' :: insert_item kv l'
  end.

Definition sort_items {A} (l : list (pystr * A)) : list (pystr * A) :=
  fold_right insert_item [] l.

Definition json_item (kv : pystr * pystr) : pystr :=
  json_str (fst kv) ++ lit ": " ++ snd kv.

(** [json.dumps(v, sort_keys=sort_keys)], default separators. The items
    of a dict are ordered by key alone, so the values are serialized
    before the items are sorted. *)
Fixpoint dumps `{Runtime} (sort_keys : bool) (v : pyval) : pystr :=
  match v with
  | PNone => lit "null"
  | PBool true => lit "true"
  | PBool false => lit "false"
  | PInt n => int_str n
  | PFloat f => json_float f
  | PStr s => json_str s
  | PList xs =>
      lit "[" ++ join (lit ", ") (map (dumps sort_keys) xs) ++ lit "]"
  | PDict kvs =>
      let items := map (fun kv => (fst kv, dumps sort_keys (snd kv))) kvs in
      let items := if sort_keys then sort_items items else items in
      lit "{" ++ join (lit ", ") (map json_item items) ++ lit "}"
  end.

(** ** Effects

    The ledger is standard output; the clocks advance with every reading.
    A computation threads the world and ends in a value or an exception. *)
Record World : Type := mkWorld {
  clock : nat;
  stdout : list pystr
}.

Definition M (A : Type) : Type := World -> World * result A.

Definition ret {A} (a : A) : M A := fun w => (w, Ok a).

Definition bind {A B} (m : M A) (k : A -> M B) : M B :=
  fun w =>
    match m w with
    | (w', Ok a) => k a w'
    | (w', Raise e) => (w', Raise e)
    end.

Definition raise {A} (e : exn) : M A := fun w => (w, Raise e).

Definition lift {A} (r : result A) : M A := fun w => (w, r).

(** [print(line, flush=True)]. *)
Definition print (line : pystr) : M unit :=
  fun w => (mkWorld (clock w) (stdout w ++ [line]), Ok tt).

Definition read_clock {A} (oracle : nat -> A) : M A :=
  fun w => (mkWorld (S (clock w)) (stdout w), Ok (oracle (clock w))).

(** [for x in xs: acc = body(acc, x)], stopping at the first exception. *)
Fixpoint for_each {A S} (xs : list A) (body : S -> A -> result S) (acc : S)
  : result S :=
  match xs with
  | [] => Ok acc
  | x :: xs' => rbind (body acc x) (for_each xs' body)
  end.

(** [[f(x) for x in xs]]. *)
Fixpoint map_r {A B} (f : A -> result B) (xs : list A) : result (list B) :=
  match xs with
  | [] => Ok []
  | x :: xs' =>
      rbind (f x) (fun y => rbind (map_r f xs') (fun ys => Ok (y :: ys)))
  end.

End Py.

Declare Scope py_scope.
Delimit Scope py_scope with py.
Notation "x <- m ;; k" := (Py.bind m (fun x => k))
  (at level 61, m at next level, right associativity) : py_scope.
Notation "m ;; k" := (Py.bind m (fun _ => k))
  (at level 61, right associativity) : py_scope.
Notation "x <-- r ;; k" := (Py.rbind r (fun x => k))
  (at level 61, r at next level, right associativity) : py_scope.

(* ================================================================== *)
(** * hashlib.sha256                                                   *)
(* ================================================================== *)

Module Sha256.
Import Py.
Local Open Scope Z_scope.

Definition mask32 : Z := 0xFFFFFFFF.
Definition add32 (x y : Z) : Z := Z.land (x + y) mask32.
Definition rotr (x n : Z) : Z :=
  Z.lor (Z.shiftr x n) (Z.land (Z.shiftl x (32 - n)) mask32).
Definition not32 (x : Z) : Z := Z.lxor x mask32.
Definition xor3 (x y z : Z) : Z := Z.lxor (Z.lxor x y) z.

Definition Ch (x y z : Z) : Z := Z.lxor (Z.land x y) (Z.land (not32 x) z).
Definition Maj (x y z : Z) : Z :=
  xor3 (Z.land x y) (Z.land x z) (Z.land y z).
Definition Sigma0 (x : Z) : Z := xor3 (rotr x 2) (rotr x 13) (rotr x 22).
Definition Sigma1 (x : Z) : Z := xor3 (rotr x 6) (rotr x 11) (rotr x 25).
Definition sigma0 (x : Z) : Z := xor3 (rotr x 7) (rotr x 18) (Z.shiftr x 3).
Definition sigma1 (x : Z) : Z :=
  xor3 (rotr x 17) (rotr x 19) (Z.shiftr x 10).

(** The first sixty-four primes. *)
Definition is_prime (p : Z) : bool :=
  forallb (fun d => negb (p mod Z.of_nat d =? 0))
          (seq 2 (Z.to_nat p - 2)).

Definition primes : list Z :=
  Eval vm_compute in filter is_prime (map Z.of_nat (seq 2 310)).

(** The integer cube root of a number below [2 ^ 108]. *)
Definition cube_root (n : Z) : Z :=
  fold_left (fun r i =>
               let r' := r + 2 ^ Z.of_nat i in
               if r' * r' * r' <=? n then r' else r)
            (rev (seq 0 36)) 0.

(** The round constants: the first 32 bits of the fractional parts of the
    cube roots of the first sixty-four primes. *)
Definition K : list Z :=
  Eval vm_compute in
    map (fun p => cube_root (p * 2 ^ 96) mod 2 ^ 32) primes.

(** The eight working words. *)
Record regs : Type := Regs {
  ra : Z; rb : Z; rc : Z; rd : Z; re : Z; rf : Z; rg : Z; rh : Z
}.

(** The initial hash value: the first 32 bits of the fractional parts of
    the square roots of the first eight primes. *)
Definition H0 : regs :=
  Eval vm_compute in
    let h i := Z.sqrt (nth i primes 0 * 2 ^ 64) mod 2 ^ 32 in
    Regs (h 0%nat) (h 1%nat) (h 2%nat) (h 3%nat)
         (h 4%nat) (h 5%nat) (h 6%nat) (h 7%nat).

(** Padding: a 1 bit, zeros up to 56 mod 64 octets, the bit length on
    64 bits, big-endian. *)
Definition be_bytes (k : nat) (x : Z) : list Z :=
  map (fun i => Z.land (Z.shiftr x (8 * Z.of_nat i)) 0xFF) (rev (seq 0 k)).

Definition pad (msg : list Z) : list Z :=
  let len := Z.of_nat (length msg) in
  msg ++ [0x80] ++ repeat 0 (Z.to_nat ((55 - len) mod 64))
      ++ be_bytes 8 (8 * len).

Fixpoint words (bs : list Z) : list Z :=
  match bs with
  | a :: b :: c :: d :: rest =>
      Z.lor (Z.lor (Z.shiftl a 24) (Z.shiftl b 16)) (Z.lor (Z.shiftl c 8) d)
      :: words rest
  | _ => []
  end.

(** The message schedule: sixteen block words extended to sixty-four. *)
Fixpoint schedule (n : nat) (w : list Z) : list Z :=
  match n with
  | O => w
  | S n' =>
      let t := length w in
      let at_ k := nth (t - k) w 0 in
      schedule n'
        (w ++ [add32 (add32 (sigma1 (at_ 2%nat)) (at_ 7%nat))
                     (add32 (sigma0 (at_ 15%nat)) (at_ 16%nat))])
  end.

Definition round (s : regs) (kw : Z * Z) : regs :=
  let (k, w) := kw in
  let t1 :=
    add32 (add32 (add32 (rh s) (Sigma1 (re s)))
                 (add32 (Ch (re s) (rf s) (rg s)) k)) w in
  let t2 := add32 (Sigma0 (ra s)) (Maj (ra s) (rb s) (rc s)) in
  Regs (add32 t1 t2) (ra s) (rb s) (rc s)
       (add32 (rd s) t1) (re s) (rf s) (rg s).

Definition compress (h : regs) (block : list Z) : regs :=
  let s := fold_left round (combine K (schedule 48 block)) h in
  Regs (add32 (ra h) (ra s)) (add32 (rb h) (rb s))
       (add32 (rc h) (rc s)) (add32 (rd h) (rd s))
       (add32 (re h) (re s)) (add32 (rf h) (rf s))
       (add32 (rg h) (rg s)) (add32 (rh h) (rh s)).

Definition blocks (ws : list Z) : list (list Z) :=
  map (fun i => firstn 16 (skipn (16 * i) ws)) (seq 0 (length ws / 16)).

Definition state_bytes (s : regs) : list Z :=
  flat_map (be_bytes 4)
    [ra s; rb s; rc s; rd s; re s; rf s; rg s; rh s].

(** [hashlib.sha256(data).digest()]. *)
Definition digest (data : bytes) : bytes :=
  let msg := map (fun b => Z.of_N (Byte.to_N b)) data in
  let final := fold_left compress (blocks (words (pad msg))) H0 in
  map (fun z => byte_of_N (Z.to_N z)) (state_bytes final).

(** [hashlib.sha256(data).hexdigest()]. *)
Definition hexdigest (data : bytes) : pystr := hex (digest data).

End Sha256.

(* ================================================================== *)
(** * src/core.py                                                      *)
(* ================================================================== *)

Module Core.
Import Py.
Local Open Scope py_scope.

Section WithRuntime.
Context `{Runtime}.

Definition TENANT_ID : pystr := lit "trumpproof".

(** The argument of [dual_hash]: [bytes | str]. *)
Inductive data : Type :=
| OfBytes (b : bytes)
| OfStr (s : pystr).

Definition dual_hash (d : data) : result pystr :=
  raw <-- match d with
          | OfStr s => encode s
          | OfBytes b => Ok b
          end ;;
  let sha := Sha256.hexdigest raw in
  let b3 := if HAS_BLAKE3 then hex (blake3_digest raw) else sha in
  Ok (sha ++ [colon] ++ b3).

Definition emit_receipt (receipt_type : pystr) (payload : pydict)
  : M pydict :=
  now <- read_clock utcnow_isoformat ;;
  let tenant := get payload (lit "tenant_id") (PStr TENANT_ID) in
  h <- lift (dual_hash (OfStr (dumps true (PDict payload)))) ;;
  let receipt :=
    dict_of ([(lit "receipt_type", PStr receipt_type);
              (lit "ts", PStr (now ++ lit "Z"));
              (lit "tenant_id", tenant);
              (lit "payload_hash", PStr h)]
             ++ payload) in
  print (dumps false (PDict receipt)) ;;
  ret receipt.

(** [hashes[i]]. *)
Definition item (hashes : list pystr) (i : nat) : result pystr :=
  match nth_error hashes i with
  | Some h => Ok h
  | None => Raise IndexError
  end.

(** [range(0, n, 2)]. *)
Definition range2 (n : nat) : list nat :=
  map (fun k => 2 * k)%nat (seq 0 ((n + 1) / 2)).

(** One turn of the [while] loop of [merkle]. *)
Definition merkle_level (hashes : list pystr) : result (list pystr) :=
  hashes <-- (if Nat.odd (List.length hashes)
              then last <-- item hashes (List.length hashes - 1) ;;
                   Ok (hashes ++ [last])
              else Ok hashes) ;;
  map_r (fun i =>
           l <-- item hashes i ;;
           r <-- item hashes (i + 1) ;;
           dual_hash (OfStr (l ++ r)))
        (range2 (List.length hashes)).

(** The [while len(hashes) > 1] loop, then [hashes[0]]; [None] when the
    turns allowed are used up. *)
Fixpoint merkle_loop (turns : nat) (hashes : list pystr)
  : option (result pystr) :=
  if (1 <? List.length hashes)%nat then
    match turns with
    | O => None
    | S turns' =>
        match merkle_level hashes with
        | Ok hashes' => merkle_loop turns' hashes'
        | Raise e => Some (Raise e)
        end
    end
  else Some (item hashes 0).

Definition merkle (items : list pyval) : option (result pystr) :=
  match items with
  | [] => Some (dual_hash (OfBytes (blit "empty")))
  | _ =>
      match map_r (fun i => dual_hash (OfStr (dumps true i))) items with
      | Ok hashes => merkle_loop (List.length hashes) hashes
      | Raise e => Some (Raise e)
      end
  end.

Definition stoprule_hash_mismatch (expected actual : pystr) : M unit :=
  emit_receipt (lit "anomaly")
    (dict_of [(lit "metric", PStr (lit "hash_mismatch"));
              (lit "expected", PStr expected);
              (lit "actual", PStr actual);
              (lit "delta", PInt (-1));
              (lit "action", PStr (lit "halt"));
              (lit "tenant_id", PStr TENANT_ID)]) ;;
  raise (StopRule (lit "Hash mismatch: expected " ++ firstn 16 expected
                   ++ lit "..., got " ++ firstn 16 actual ++ lit "...")).

Definition stoprule_unverified_claim (claim : pydict) : M unit :=
  emit_receipt (lit "anomaly")
    (dict_of [(lit "metric", PStr (lit "unverified_claim"));
              (lit "claim", PDict claim);
              (lit "delta", PInt (-1));
              (lit "action", PStr (lit "escalate"));
              (lit "tenant_id", PStr TENANT_ID)]) ;;
  raise (StopRule (lit "Unverified claim: "
                   ++ str (get claim (lit "type") (PStr (lit "unknown"))))).

Definition emit_anomaly (metric : pystr) (baseline delta : pyval)
           (classification action : pystr) : M pydict :=
  emit_receipt (lit "anomaly")
    (dict_of [(lit "metric", PStr metric);
              (lit "baseline", baseline);
              (lit "delta", delta);
              (lit "classification", PStr classification);
              (lit "action", PStr action);
              (lit "tenant_id", PStr TENANT_ID)]).

End WithRuntime.
End Core.

(* ================================================================== *)
(** * src/constants.py                                                 *)
(* ================================================================== *)

Module Constants.
Import Py.
Local Open Scope Z_scope.

Definition GULF_PIF_INVESTMENT : Z := 2000000000.
Definition GULF_AFFINITY_AUM : Z := 5400000000.
Definition GULF_FEES_COLLECTED : Z := 157000000.
Definition GOLF_LIV_PIF_INVESTMENT : Z := 4580000000.

Definition LOOP_CYCLE_SECONDS : Z := 60.

Definition MODULE_PRIORITY : list pystr :=
  [lit "border"; lit "tariff"; lit "gulf"; lit "golf"; lit "license"].

Definition PIF_TOTAL_EXPOSURE : Z :=
  GULF_PIF_INVESTMENT + GOLF_LIV_PIF_INVESTMENT.

Definition EMOLUMENTS_DISCLOSURE_THRESHOLD : Z := 10000.
Definition HARVEST_PERIOD_DAYS : Z := 30.

End Constants.

(* ================================================================== *)
(** * src/loop/cycle.py                                                *)
(* ================================================================== *)

Module Cycle.
Import Py Core Constants.
Local Open Scope py_scope.

(** [state["by_module"][module]]. *)
Record module_data : Type := ModuleData {
  count : Z;
  receipts : list pydict
}.

(** The dict that [sense] returns. *)
Record state : Type := State {
  by_module : list (pystr * module_data);
  by_type : list (pystr * Z);
  anomalies : list pydict;
  total_receipts : Z
}.

(** The dict that [analyze] returns. *)
Record analysis : Type := Analysis {
  modules_active : list pystr;
  anomaly_count : Z;
  cross_domain_patterns : list pyval;
  priority_violations : list pydict
}.

(** The [metrics] dict that [run_cycle] hands to [emit_cycle_receipt];
    every key that the latter reads is present. *)
Record metrics : Type := Metrics {
  receipts_processed : Z;
  metrics_state : state;
  metrics_analysis : analysis;
  cycle_time_ms : spec_float;
  target_cycle_seconds : Z
}.

(** A constant [int] as a [float]. *)
Definition float_const (n : Z) : spec_float :=
  binary_normalize 53 1024 n 0 false.

Section WithRuntime.
Context `{Runtime}.

(** The [str] methods of a value: a value that is not a [str] has no
    attribute [lower]. *)
Definition as_str (v : pyval) : result pystr :=
  match v with
  | PStr s => Ok s
  | _ => Raise AttributeError
  end.

Definition infer_module (receipt_type : pystr) : pystr :=
  let type_lower := lower receipt_type in
  if contains (lit "tariff") type_lower
     || contains (lit "exemption") type_lower
     || contains (lit "refund") type_lower
  then lit "tariff"
  else if contains (lit "detention") type_lower
          || contains (lit "border") type_lower
          || contains (lit "citizenship") type_lower
  then lit "border"
  else if contains (lit "swf") type_lower
          || contains (lit "fara") type_lower
          || contains (lit "investment") type_lower
  then lit "gulf"
  else if contains (lit "golf") type_lower
          || contains (lit "liv") type_lower
          || contains (lit "emolument") type_lower
  then lit "golf"
  else if contains (lit "license") type_lower
          || contains (lit "ownership") type_lower
          || contains (lit "partner") type_lower
  then lit "license"
  else if contains (lit "pif") type_lower
          || contains (lit "cross") type_lower
          || contains (lit "loop") type_lower
  then lit "loop"
  else lit "unknown".

(** The body of the [for r in receipts] loop of [sense]. *)
Definition sense_step (st : state) (r : pydict) : result state :=
  receipt_type <-- as_str (get r (lit "receipt_type")
                               (PStr (lit "unknown"))) ;;
  let module := infer_module receipt_type in
  let bm :=
    if has_key (by_module st) module then by_module st
    else set_item (by_module st) module (ModuleData 0 []) in
  let md :=
    match lookup bm module with
    | Some md => md
    | None => ModuleData 0 []
    end in
  let bm := set_item bm module
              (ModuleData (count md + 1) (receipts md ++ [r])) in
  let bt :=
    if has_key (by_type st) receipt_type then by_type st
    else set_item (by_type st) receipt_type 0%Z in
  let n := match lookup bt receipt_type with
           | Some n => n
           | None => 0%Z
           end in
  let bt := set_item bt receipt_type (n + 1)%Z in
  let an :=
    if str_eqb receipt_type (lit "anomaly") then anomalies st ++ [r]
    else anomalies st in
  Ok (State bm bt an (total_receipts st)).

Definition sense (rs : list pydict) : result state :=
  for_each rs sense_step
    (State [] [] [] (Z.of_nat (List.length rs))).

(** [r.get("violation") or r.get("exceeds_threshold") or ...]. *)
Definition flagged (r : pydict) : bool :=
  truthy (por (get r (lit "violation") PNone)
         (por (get r (lit "exceeds_threshold") PNone)
         (por (get r (lit "excessive") PNone)
              (get r (lit "favoritism_detected") PNone)))).

Definition analyze (st : state) : analysis :=
  let violations :=
    flat_map
      (fun module =>
         match lookup (by_module st) module with
         | Some md =>
             map (fun r =>
                    dict_of [(lit "module", PStr module);
                             (lit "receipt_type",
                              get r (lit "receipt_type") PNone);
                             (lit "details", PDict r)])
                 (filter flagged (receipts md))
         | None => []
         end)
      MODULE_PRIORITY in
  Analysis (keys (by_module st))
           (Z.of_nat (List.length (anomalies st)))
           []
           violations.

Definition emit_cycle_receipt (cycle_id : pystr) (m : metrics)
  : M pydict :=
  emit_receipt (lit "loop_cycle")
    (dict_of
       [(lit "tenant_id", PStr TENANT_ID);
        (lit "cycle_id", PStr cycle_id);
        (lit "receipts_processed", PInt (receipts_processed m));
        (lit "modules_active",
         PList (map PStr (modules_active (metrics_analysis m))));
        (lit "anomalies_detected",
         PInt (anomaly_count (metrics_analysis m)));
        (lit "priority_violations",
         PInt (Z.of_nat
                 (List.length (priority_violations (metrics_analysis m)))));
        (lit "cycle_time_ms", PFloat (cycle_time_ms m));
        (lit "target_cycle_seconds", PInt (target_cycle_seconds m));
        (lit "within_target",
         PBool (SFltb (cycle_time_ms m)
                      (float_const (LOOP_CYCLE_SECONDS * 1000))))]).

Definition run_cycle (rs : option (list pydict))
           (cycle_id : option pystr) : M pydict :=
  let rs := match rs with
            | Some ((_ :: _) as l) => l
            | _ => []
            end in
  cycle_id <- match cycle_id with
              | Some ((_ :: _) as c) => ret c
              | _ =>
                  t <- read_clock time_time ;;
                  h <- lift (dual_hash (OfStr (str (PFloat t)))) ;;
                  ret (firstn 16 h)
              end ;;
  start_time <- read_clock time_time ;;
  st <- lift (sense rs) ;;
  let an := analyze st in
  end_time <- read_clock time_time ;;
  let cycle_time_ms :=
    SFmul 53 1024 (SFsub 53 1024 end_time start_time)
          (float_const 1000) in
  emit_cycle_receipt cycle_id
    (Metrics (Z.of_nat (List.length rs)) st an cycle_time_ms
             LOOP_CYCLE_SECONDS).

End WithRuntime.
End Cycle.

(* ================================================================== *)
(** * src/loop/cross_domain.py                                         *)
(* ================================================================== *)

Module CrossDomain.
Import Py Core Constants.
Local Open Scope py_scope.

(** The locals that the loop of [trace_money_flow] updates. *)
Record trace : Type := Trace {
  flows : list pydict;
  total_inflow : pyval;
  total_outflow : pyval
}.

Section WithRuntime.
Context `{Runtime}.

Definition entity_fields : list pystr :=
  map lit
    ["entity_id"; "entity_name"; "applicant"; "contractor_id";
     "contractor_name"; "partner_id"; "partner_name"; "source_name";
     "recipient_name"; "fund_id"; "fund_name"; "licensor_name";
     "licensee_name"]%string.

Definition extract_entities (receipt : pydict) : list pystr :=
  flat_map
    (fun field =>
       match lookup receipt field with
       | Some v => if truthy v then [lower (str v)] else []
       | None => []
       end)
    entity_fields.

Definition determine_flow_direction (receipt : pydict) (entity : pystr)
  : pystr :=
  let recipient :=
    lower (str (get receipt (lit "recipient_name") (PStr (lit "")))) in
  if contains entity recipient then lit "inflow" else lit "outflow".

Definition get_counterparty (receipt : pydict) (entity : pystr)
  : pystr :=
  let source :=
    lower (str (get receipt (lit "source_name") (PStr (lit "")))) in
  let recipient :=
    lower (str (get receipt (lit "recipient_name") (PStr (lit "")))) in
  if contains entity recipient then source else recipient.

Definition infer_module (receipt_type : pystr) : pystr :=
  let type_lower := lower receipt_type in
  if contains (lit "tariff") type_lower then lit "tariff"
  else if contains (lit "detention") type_lower
          || contains (lit "border") type_lower
  then lit "border"
  else if contains (lit "swf") type_lower
          || contains (lit "fara") type_lower
  then lit "gulf"
  else if contains (lit "golf") type_lower
          || contains (lit "emolument") type_lower
  then lit "golf"
  else if contains (lit "license") type_lower then lit "license"
  else lit "unknown".

(** [r.get("amount", 0) or r.get("payment_amount", 0) or
    r.get("fee_amount", 0) or r.get("contract_value", 0) or 0]. *)
Definition flow_amount (r : pydict) : pyval :=
  por (get r (lit "amount") (PInt 0))
 (por (get r (lit "payment_amount") (PInt 0))
 (por (get r (lit "fee_amount") (PInt 0))
 (por (get r (lit "contract_value") (PInt 0))
      (PInt 0)))).

(** The body of the [for r in receipts] loop of [trace_money_flow]. *)
Definition trace_step (entity_lower : pystr) (t : trace) (r : pydict)
  : result trace :=
  let entities := extract_entities r in
  if negb (str_in entity_lower entities) then Ok t
  else
    let amount := flow_amount r in
    positive <-- gt_zero amount ;;
    if positive then
      let direction := determine_flow_direction r entity_lower in
      let counterparty := get_counterparty r entity_lower in
      receipt_type <-- Cycle.as_str (get r (lit "receipt_type")
                                         (PStr (lit ""))) ;;
      let flow :=
        dict_of [(lit "receipt_type", get r (lit "receipt_type") PNone);
                 (lit "amount", amount);
                 (lit "direction", PStr direction);
                 (lit "counterparty", PStr counterparty);
                 (lit "module", PStr (infer_module receipt_type))] in
      if str_eqb direction (lit "inflow") then
        total <-- add (total_inflow t) amount ;;
        Ok (Trace (flows t ++ [flow]) total (total_outflow t))
      else
        total <-- add (total_outflow t) amount ;;
        Ok (Trace (flows t ++ [flow]) (total_inflow t) total)
    else Ok t.

Definition trace_money_flow (entity_id : pystr) (rs : list pydict)
  : M pydict :=
  let entity_lower := lower entity_id in
  t <- lift (for_each rs (trace_step entity_lower)
                      (Trace [] (PInt 0) (PInt 0))) ;;
  net <- lift (sub (total_inflow t) (total_outflow t)) ;;
  emit_receipt (lit "money_flow")
    (dict_of [(lit "tenant_id", PStr TENANT_ID);
              (lit "entity_id", PStr entity_id);
              (lit "total_inflow", total_inflow t);
              (lit "total_outflow", total_outflow t);
              (lit "net_flow", net);
              (lit "flow_count", PInt (Z.of_nat (List.length (flows t))));
              (lit "flows", PList (map PDict (flows t)))]).

(** [v.lower()] on a value read off a dict. *)
Definition lower_of (v : pyval) : result pystr :=
  s <-- Cycle.as_str v ;; Ok (lower s).

(** The [pif_entities] list of [flag_pif_connection]. *)
Definition pif_entities : list pystr :=
  map lit ["affinity"; "liv golf"; "dar global"; "dar al arkan"]%string.

Definition flag_pif_connection (entity : pydict) : M pydict :=
  entity_name <-
    lift (lower_of (get entity (lit "name") (PStr (lit "")))) ;;
  entity_country <-
    lift (lower_of (get entity (lit "country") (PStr (lit "")))) ;;
  let pif_indicators :=
    (if contains (lit "pif") entity_name
        || contains (lit "public investment fund") entity_name
     then [lit "direct_pif_entity"] else [])
    ++ (if str_eqb entity_country (lit "saudi arabia")
           && truthy (por (get entity (lit "is_government") PNone)
                          (get entity (lit "government_ties") PNone))
        then [lit "saudi_government"] else [])
    ++ flat_map
         (fun pif_entity =>
            if contains pif_entity entity_name
            then [lit "known_pif_connected:" ++ pif_entity] else [])
         pif_entities in
  let is_pif_connected := (0 <? List.length pif_indicators)%nat in
  emit_receipt (lit "pif_connection")
    (dict_of
       [(lit "tenant_id", PStr TENANT_ID);
        (lit "entity_id", get entity (lit "id") (PStr (lit "unknown")));
        (lit "entity_name",
         get entity (lit "name") (PStr (lit "unknown")));
        (lit "pif_indicators", PList (map PStr pif_indicators));
        (lit "is_pif_connected", PBool is_pif_connected);
        (lit "pif_total_exposure", PInt PIF_TOTAL_EXPOSURE);
        (lit "domains",
         PList (if is_pif_connected
                then map PStr [lit "gulf"; lit "golf"; lit "license"]
                else []))]).

End WithRuntime.
End CrossDomain.

(* ================================================================== *)
(** * src/loop/pif_tracker.py                                          *)
(* ================================================================== *)

Module PifTracker.
Import Py Core Constants.
Local Open Scope py_scope.

Section WithRuntime.
Context `{Runtime}.

(** The [by_domain] table of [aggregate_pif_exposure]. *)
Definition by_domain : pydict :=
  dict_of
    [(lit "gulf",
      PDict (dict_of
        [(lit "entities", PList [PStr (lit "Affinity Partners")]);
         (lit "direct_investment", PInt GULF_PIF_INVESTMENT);
         (lit "aum_managed", PInt GULF_AFFINITY_AUM);
         (lit "fees_paid", PInt GULF_FEES_COLLECTED);
         (lit "relationship", PStr (lit "LP investment"))]));
     (lit "golf",
      PDict (dict_of
        [(lit "entities", PList [PStr (lit "LIV Golf")]);
         (lit "direct_investment", PInt GOLF_LIV_PIF_INVESTMENT);
         (lit "ownership_percentage", PInt 93);
         (lit "relationship", PStr (lit "93% ownership"))]));
     (lit "license",
      PDict (dict_of
        [(lit "entities",
          PList [PStr (lit "Dar Global"); PStr (lit "Dar Al Arkan")]);
         (lit "direct_investment", PInt 0);
         (lit "project_value", PInt 2033000000);
         (lit "relationship", PStr (lit "Development partnerships"))]));
     (lit "tariff",
      PDict (dict_of
        [(lit "entities", PList [PStr (lit "EA (Electronic Arts)")]);
         (lit "direct_investment", PInt 0);
         (lit "cfius_exposure", PBool true);
         (lit "relationship", PStr (lit "Trade policy affected"))]))].

(** The methods of a dict: [d.get] on a value of [by_domain]. *)
Definition as_dict (v : pyval) : result pydict :=
  match v with
  | PDict d => Ok d
  | _ => Raise AttributeError
  end.

(** [d.get("direct_investment", 0) > 0 or d.get("project_value", 0) > 0
    or d.get("cfius_exposure")], as the filter reads it. *)
Definition has_exposure (d : pydict) : result bool :=
  a <-- gt_zero (get d (lit "direct_investment") (PInt 0)) ;;
  if a then Ok true
  else
    b <-- gt_zero (get d (lit "project_value") (PInt 0)) ;;
    if b then Ok true
    else Ok (truthy (get d (lit "cfius_exposure") PNone)).

Definition aggregate_pif_exposure : M pydict :=
  domains <- lift (map_r as_dict (map snd by_domain)) ;;
  total_direct <-
    lift (for_each domains
            (fun acc d => add acc (get d (lit "direct_investment")
                                       (PInt 0)))
            (PInt 0)) ;;
  exposed <-
    lift (for_each domains
            (fun acc d => e <-- has_exposure d ;;
                          Ok (if e then acc ++ [d] else acc))
            []) ;;
  let domains_with_exposure := Z.of_nat (List.length exposed) in
  emit_receipt (lit "pif_aggregate")
    (dict_of
       [(lit "tenant_id", PStr TENANT_ID);
        (lit "by_domain", PDict by_domain);
        (lit "domain_count", PInt domains_with_exposure);
        (lit "total_direct_investment", total_direct);
        (lit "total_exposure", PInt PIF_TOTAL_EXPOSURE);
        (lit "cross_domain_verified",
         PBool (Z.leb 4 domains_with_exposure))]).

(** A value of [PIF_CONNECTED_ENTITIES]: a dict of three fixed keys. *)
Record connection : Type := Connection {
  domain : pystr;
  investment : Z;
  relationship : pystr
}.

Definition PIF_CONNECTED_ENTITIES : list (pystr * connection) :=
  [(lit "affinity partners",
    Connection (lit "gulf") GULF_PIF_INVESTMENT (lit "direct_investment"));
   (lit "liv golf",
    Connection (lit "golf") GOLF_LIV_PIF_INVESTMENT (lit "93%_ownership"));
   (lit "dar global",
    Connection (lit "license") 0 (lit "development_partner"));
   (lit "dar al arkan",
    Connection (lit "license") 0 (lit "parent_of_dar_global"))].

(** The loop of [track_pif_entity]: the first known entity, in the order
    of the table, that occurs in the name. *)
Definition known_connection (entity_name : pystr)
  : option (pystr * connection) :=
  find (fun kd => contains (fst kd) entity_name) PIF_CONNECTED_ENTITIES.

Definition track_pif_entity (entity : pydict) (domain : pyval)
  : M pydict :=
  entity_name <-
    lift (CrossDomain.lower_of
            (get entity (lit "name") (PStr (lit "")))) ;;
  let known := known_connection entity_name in
  emit_receipt (lit "pif_entity")
    (dict_of
       [(lit "tenant_id", PStr TENANT_ID);
        (lit "entity_id", get entity (lit "id") (PStr (lit "unknown")));
        (lit "entity_name",
         get entity (lit "name") (PStr (lit "unknown")));
        (lit "domain", domain);
        (lit "known_connection",
         match known with
         | Some (known_entity, Connection d i r) =>
             PDict (dict_of [(lit "known_entity", PStr known_entity);
                             (lit "domain", PStr d);
                             (lit "investment", PInt i);
                             (lit "relationship", PStr r)])
         | None => PNone
         end);
        (lit "is_known_pif_entity",
         PBool (match known with Some _ => true | None => false end));
        (lit "pif_investment",
         match known with
         | Some (_, Connection _ i _) => PInt i
         | None => PInt 0
         end)]).

Definition infer_domain (receipt_type : pystr) : pystr :=
  if contains (lit "tariff") receipt_type
     || contains (lit "exemption") receipt_type
  then lit "tariff"
  else if contains (lit "detention") receipt_type
          || contains (lit "border") receipt_type
  then lit "border"
  else if contains (lit "swf") receipt_type
          || contains (lit "fara") receipt_type
          || contains (lit "investment") receipt_type
  then lit "gulf"
  else if contains (lit "golf") receipt_type
          || contains (lit "liv") receipt_type
          || contains (lit "emolument") receipt_type
  then lit "golf"
  else if contains (lit "license") receipt_type
          || contains (lit "ownership") receipt_type
  then lit "license"
  else lit "unknown".

End WithRuntime.
End PifTracker.

(* ================================================================== *)
(** * Comparisons with the literals of the source                      *)
(* ================================================================== *)

Module Compare.
Import Py.

(** [v > k] and [v >= k] for an [int] literal [k]. Python compares an
    [int] and a [float] by their values; the literals compared against
    are below [2 ^ 53], so that the [float] of [k] is [k] itself. *)
Definition gt_int (v : pyval) (k : Z) : result bool :=
  match v with
  | PBool b => Ok (Z.ltb k (Z.b2z b))
  | PInt n => Ok (Z.ltb k n)
  | PFloat f => Ok (SFltb (Cycle.float_const k) f)
  | PNone | PStr _ | PList _ | PDict _ => Raise TypeError
  end.

Definition ge_int (v : pyval) (k : Z) : result bool :=
  match v with
  | PBool b => Ok (Z.leb k (Z.b2z b))
  | PInt n => Ok (Z.leb k n)
  | PFloat f => Ok (SFleb (Cycle.float_const k) f)
  | PNone | PStr _ | PList _ | PDict _ => Raise TypeError
  end.

End Compare.

(* ================================================================== *)
(** * src/loop/harvest.py                                              *)
(* ================================================================== *)

Module Harvest.
Import Py Core Constants.
Local Open Scope py_scope.

Section WithRuntime.
Context `{Runtime}.

Definition infer_module_from_receipt (receipt : pydict) : result pystr :=
  receipt_type <--
    CrossDomain.lower_of (get receipt (lit "receipt_type") (PStr (lit ""))) ;;
  Ok (if contains (lit "tariff") receipt_type
         || contains (lit "exemption") receipt_type
      then lit "tariff"
      else if contains (lit "detention") receipt_type
              || contains (lit "border") receipt_type
      then lit "border"
      else if contains (lit "swf") receipt_type
              || contains (lit "fara") receipt_type
              || contains (lit "fee") receipt_type
      then lit "gulf"
      else if contains (lit "golf") receipt_type
              || contains (lit "liv") receipt_type
              || contains (lit "emolument") receipt_type
      then lit "golf"
      else if contains (lit "license") receipt_type
              || contains (lit "ownership") receipt_type
      then lit "license"
      else lit "unknown").

(** The [if]/[elif] chain of [harvest_violations]: whether a receipt is
    appended to [violations]. *)
Definition is_violation (r : pydict) : bool :=
  match get r (lit "receipt_type") PNone with
  | PStr s => str_eqb s (lit "anomaly")
  | _ => false
  end
  || truthy (por (get r (lit "violation") PNone)
                 (get r (lit "is_violation") PNone))
  || truthy (por (get r (lit "exceeds_threshold") PNone)
                 (get r (lit "excessive") PNone))
  || truthy (get r (lit "favoritism_detected") PNone)
  || truthy (get r (lit "is_emolument") PNone)
  || truthy (get r (lit "fara_violation") PNone).

(** The body of the [for v in violations] loop. *)
Definition group_step (by_module : list (pystr * list pydict))
           (v : pydict) : result (list (pystr * list pydict)) :=
  module <-- infer_module_from_receipt v ;;
  let bm :=
    if has_key by_module module then by_module
    else set_item by_module module [] in
  let vs := match lookup bm module with
            | Some vs => vs
            | None => []
            end in
  Ok (set_item bm module (vs ++ [v])).

Definition harvest_violations (receipts : list pydict)
           (period : option pystr) : M pydict :=
  let period :=
    match period with
    | Some ((_ :: _) as p) => p
    | _ => lit "last_" ++ int_str HARVEST_PERIOD_DAYS ++ lit "_days"
    end in
  let violations := filter is_violation receipts in
  by_module <- lift (for_each violations group_step []) ;;
  emit_receipt (lit "harvest")
    (dict_of
       [(lit "tenant_id", PStr TENANT_ID);
        (lit "period", PStr period);
        (lit "total_violations",
         PInt (Z.of_nat (List.length violations)));
        (lit "by_module",
         PDict (map (fun kv =>
                       (fst kv, PInt (Z.of_nat (List.length (snd kv)))))
                    by_module));
        (lit "violations", PList (map PDict violations));
        (lit "harvest_period_days", PInt HARVEST_PERIOD_DAYS)]).

End WithRuntime.
End Harvest.

(* ================================================================== *)
(** * src/gulf/fara.py                                                 *)
(* ================================================================== *)

Module Fara.
Import Py Core Constants Compare.
Local Open Scope py_scope.

Section WithRuntime.
Context `{Runtime}.

(** The conditional expression that [flag_violation] binds to
    [severity]. *)
Definition severity (evidence : pydict) : result pystr :=
  critical <-- gt_int (get evidence (lit "government_payments") (PInt 0))
                      10000000 ;;
  if critical then Ok (lit "critical")
  else
    high <-- gt_int (get evidence (lit "government_payments") (PInt 0))
                    1000000 ;;
    Ok (if high then lit "high" else lit "medium").

Definition flag_violation (entity_id : pystr) (evidence : pydict)
  : M pydict :=
  emit_anomaly (lit "fara_violation") (PInt 0) (PInt 1)
               (lit "violation") (lit "escalate") ;;
  severity <- lift (severity evidence) ;;
  emit_receipt (lit "fara_violation")
    (dict_of
       [(lit "tenant_id", PStr TENANT_ID);
        (lit "entity_id", PStr entity_id);
        (lit "evidence", PDict evidence);
        (lit "foreign_payments",
         get evidence (lit "government_payments") (PInt 0));
        (lit "registration_status", PStr (lit "unregistered"));
        (lit "activities", get evidence (lit "activities") (PList []));
        (lit "severity", PStr severity);
        (lit "special_counsel_requested",
         get evidence (lit "special_counsel_requested") (PBool false));
        (lit "requesters", get evidence (lit "requesters") (PList []))]).

End WithRuntime.
End Fara.

(* ================================================================== *)
(** * src/golf/emoluments.py                                           *)
(* ================================================================== *)

Module Emoluments.
Import Py Core Constants Compare.
Local Open Scope py_scope.

Section WithRuntime.
Context `{Runtime}.

(** [is_foreign and is_government and amount > 0]: the first operand
    that is false, or the comparison. *)
Definition is_emolument (is_foreign : bool) (is_government amount : pyval)
  : result pyval :=
  if is_foreign then
    if truthy is_government then
      positive <-- gt_zero amount ;; Ok (PBool positive)
    else Ok is_government
  else Ok (PBool false).

Definition assess_emolument (payment source : pydict) : M pydict :=
  country <-
    lift (CrossDomain.lower_of
            (get source (lit "country") (PStr (lit "")))) ;;
  let is_foreign :=
    negb (str_in country [lit "us"; lit "usa"; lit "united states"]) in
  let is_government :=
    por (get source (lit "is_government") (PBool false))
   (por (get source (lit "is_state_owned") (PBool false))
        (get source (lit "is_sovereign") (PBool false))) in
  let amount := get payment (lit "amount") (PInt 0) in
  is_emolument <- lift (is_emolument is_foreign is_government amount) ;;
  reportable <-
    lift (if truthy is_emolument
          then ge_int amount EMOLUMENTS_DISCLOSURE_THRESHOLD
          else Ok false) ;;
  (if reportable then
     delta <- lift (sub amount (PInt EMOLUMENTS_DISCLOSURE_THRESHOLD)) ;;
     emit_anomaly (lit "emolument_detected")
                  (PInt EMOLUMENTS_DISCLOSURE_THRESHOLD) delta
                  (lit "violation") (lit "alert") ;;
     ret tt
   else ret tt) ;;
  exceeds_threshold <-
    lift (ge_int amount EMOLUMENTS_DISCLOSURE_THRESHOLD) ;;
  emit_receipt (lit "emolument_assessment")
    (dict_of
       [(lit "tenant_id", PStr TENANT_ID);
        (lit "payment_id", get payment (lit "id") (PStr (lit "unknown")));
        (lit "amount", amount);
        (lit "source_name",
         get source (lit "name") (PStr (lit "unknown")));
        (lit "source_country",
         get source (lit "country") (PStr (lit "unknown")));
        (lit "is_foreign", PBool is_foreign);
        (lit "is_government", is_government);
        (lit "is_emolument", is_emolument);
        (lit "disclosure_threshold",
         PInt EMOLUMENTS_DISCLOSURE_THRESHOLD);
        (lit "exceeds_threshold", PBool exceeds_threshold);
        (lit "messitte_standard",
         PStr (lit "almost anything of value from foreign governments"))]).

End WithRuntime.
End Emoluments.

(* ================================================================== *)
(** * The properties' vocabulary                                       *)
(* ================================================================== *)

Module Reading.
Import Py Core.

(** A text with a UTF-8 encoding: no lone surrogate code point. *)
Definition no_surrogate (s : pystr) : bool :=
  forallb (fun c => negb (is_surrogate c)) s.

(** An argument that [dual_hash] can bring to bytes. *)
Definition encodable (d : data) : bool :=
  match d with
  | OfBytes _ => true
  | OfStr s => no_surrogate s
  end.

(** A text of code points below 256. *)
Definition narrow (s : pystr) : Prop := Forall (fun c => (c < 256)%N) s.

(** The number of colons in a text. *)
Definition colons (s : pystr) : nat := count_occ N.eq_dec s colon.

(** The three envelope keys that a payload can shadow. *)
Definition reserved_keys : list pystr :=
  [lit "receipt_type"; lit "ts"; lit "payload_hash"].

Definition avoids_reserved (d : pydict) : bool :=
  forallb (fun k => negb (has_key d k)) reserved_keys.

(** The four fields that [emit_receipt] sets before it merges the
    payload. *)
Definition envelope (receipt_type ts : pystr) (tenant : pyval)
           (payload_hash : pystr) : pydict :=
  [(lit "receipt_type", PStr receipt_type);
   (lit "ts", PStr ts);
   (lit "tenant_id", tenant);
   (lit "payload_hash", PStr payload_hash)].

(** Two payloads that are the same mapping: the same keys bound to the
    same values, whatever the order in which the keys were inserted, at
    every depth. Values are compared as JSON values: [1], [1.0] and [True]
    are three values. *)
#[local] Unset Elimination Schemes.
Inductive same_value : pyval -> pyval -> Prop :=
| same_none : same_value PNone PNone
| same_bool b : same_value (PBool b) (PBool b)
| same_int n : same_value (PInt n) (PInt n)
| same_float f : same_value (PFloat f) (PFloat f)
| same_str s : same_value (PStr s) (PStr s)
| same_list xs ys :
    Forall2 same_value xs ys -> same_value (PList xs) (PList ys)
| same_dict kvs kvs' reordered :
    NoDup (keys kvs) ->
    Permutation kvs' reordered ->
    Forall2 (fun a b => fst a = fst b /\ same_value (snd a) (snd b))
            kvs reordered ->
    same_value (PDict kvs) (PDict kvs').
#[local] Set Elimination Schemes.

(** The classifications and actions that the docstring of [emit_anomaly]
    lists. *)
Definition classifications : list pystr :=
  map lit ["drift"; "degradation"; "violation"; "deviation";
           "anti_pattern"]%string.

Definition actions : list pystr :=
  map lit ["alert"; "escalate"; "halt"; "auto_fix"]%string.

(** The keywords of the two domain tables, ["investment"] apart. *)
Definition other_keywords : list pystr :=
  map lit ["tariff"; "exemption"; "refund"; "detention"; "border";
           "citizenship"; "swf"; "fara"; "golf"; "liv"; "emolument";
           "license"; "ownership"; "partner"; "pif"; "cross";
           "loop"]%string.

(** A number other than zero. *)
Definition nonzero (v : pyval) : bool :=
  match v with
  | PInt n => negb (Z.eqb n 0)
  | PBool b => b
  | PFloat (S754_zero _) => false
  | PFloat _ => true
  | _ => false
  end.

(** The first non-zero number of a list, the [int] 0 when there is
    none. *)
Fixpoint first_nonzero (l : list pyval) : pyval :=
  match l with
  | [] => PInt 0
  | v :: l' => if nonzero v then v else first_nonzero l'
  end.

(** The amount-like fields, in their priority order. *)
Definition amount_fields : list pystr :=
  map lit ["amount"; "payment_amount"; "fee_amount";
           "contract_value"]%string.

(** The amount-like fields of a receipt, an absent one read as 0. *)
Definition amounts (r : pydict) : list pyval :=
  map (fun k => get r k (PInt 0)) amount_fields.

(** A total that has become a [float]. *)
Definition is_float (v : pyval) : bool :=
  match v with
  | PFloat _ => true
  | _ => false
  end.

(** The receipts that [run_cycle] works on: the list it was passed, and
    no receipt when it was passed none. *)
Definition passed (receipts : option (list pydict)) : list pydict :=
  match receipts with
  | Some rs => rs
  | None => []
  end.

(** A receipt whose [receipt_type], when present, is a [str]. *)
Definition typed_receipt (r : pydict) : bool :=
  match lookup r (lit "receipt_type") with
  | None | Some (PStr _) => true
  | Some _ => false
  end.

Section Merkle.
Context `{Runtime}.

(** [dual_hash] of a text, as a text. *)
Definition dual_hash_text (s : pystr) : pystr :=
  match dual_hash (OfStr s) with
  | Ok h => h
  | Raise _ => []
  end.

(** Adjacent hashes paired; the last one of an odd level is paired with
    itself. *)
Fixpoint pairs (hs : list pystr) : list (pystr * pystr) :=
  match hs with
  | [] => []
  | [h] => [(h, h)]
  | l :: r :: rest => (l, r) :: pairs rest
  end.

Definition combine_pair (p : pystr * pystr) : pystr :=
  dual_hash_text (fst p ++ snd p).

(** The levels reduced until a single hash remains. *)
Equations? reduce (hs : list pystr) : pystr by wf (List.length hs) lt :=
  reduce [] := [];
  reduce [h] := h;
  reduce (l :: r :: rest) := reduce (map combine_pair (pairs (l :: r :: rest))).
Proof.
  rewrite length_map.
  assert (G : forall n hs, (List.length hs <= n)%nat ->
              (List.length (pairs hs) <= List.length hs)%nat).
  { induction n as [|n IH]; intros [|a [|b hs]] Hn; simpl in *; try lia.
    specialize (IH hs). lia. }
  specialize (G _ rest (Nat.le_refl _)). simpl. lia.
Qed.

(** The Merkle root as the specification words it. *)
Definition merkle_root (items : list pyval) : pystr :=
  match items with
  | [] => match dual_hash (OfBytes (blit "empty")) with
          | Ok h => h
          | Raise _ => []
          end
  | _ => reduce (map (fun i => dual_hash_text (dumps true i)) items)
  end.

End Merkle.

(** [float.__repr__] on the whole numbers below [10 ^ 16]: the integer,
    then [.0]. *)
Definition whole_repr (f : spec_float) : string :=
  match f with
  | S754_finite s m e =>
      let v := if (0 <=? e)%Z then (Z.pos m * 2 ^ e)%Z
               else (Z.pos m / 2 ^ (- e))%Z in
      ((if s then "-" else "")
       ++ NilZero.string_of_int (Z.to_int v) ++ ".0")%string
  | _ => "0.0"%string
  end.

(** A sample interpreter: no [blake3] package, a clock that reads 0.0,
    1.0, 2.0 and so on, a fixed date, and no text beyond ASCII to
    lower-case. *)
Definition plain_runtime : Runtime :=
  {| HAS_BLAKE3 := false;
     blake3_digest := fun _ => [];
     float_repr := whole_repr;
     container_repr := fun _ => lit "[]";
     unicode_lower := fun s => s;
     time_time := fun n => Cycle.float_const (Z.of_nat n);
     utcnow_isoformat := fun _ => lit "2025-01-20T12:00:00.000000" |}.

Definition world0 : World := mkWorld 0 [].

(** ** The ledger line *)

(** A printable ASCII character: from the space to the tilde. *)
Definition printable_cp (c : N) : bool := ((32 <=? c) && (c <=? 126))%N.

(** A text of printable ASCII characters: one line, no control
    character. *)
Definition printable (s : pystr) : Prop :=
  Forall (fun c => printable_cp c = true) s.

(** ** The receipts that [sense] files *)

(** The type under which [sense] files a receipt whose [receipt_type],
    when present, is a text. *)
Definition type_of (r : pydict) : pystr :=
  match get r (lit "receipt_type") (PStr (lit "unknown")) with
  | PStr s => s
  | _ => []
  end.

(** The texts of a list in the order of their first occurrence. *)
Definition first_seen (xs : list pystr) : list pystr :=
  fold_left (fun seen x => if str_in x seen then seen else seen ++ [x])
            xs [].

(** The number of elements that pass a test. *)
Definition count_if {A} (f : A -> bool) (l : list A) : Z :=
  Z.of_nat (List.length (filter f l)).

(** The entry of [by_module] for the receipts of one module: none when
    there is no such receipt. *)
Definition module_group (l : list pydict) : option Cycle.module_data :=
  match l with
  | [] => None
  | _ => Some (Cycle.ModuleData (Z.of_nat (List.length l)) l)
  end.

(** The entry of [by_type] for the receipts of one type. *)
Definition type_tally (l : list pydict) : option Z :=
  match l with
  | [] => None
  | _ => Some (Z.of_nat (List.length l))
  end.

(** The sum of a measure over the values of a dict. *)
Definition sum_of {A} (f : A -> Z) (d : list (pystr * A)) : Z :=
  fold_right (fun kv s => (f (snd kv) + s)%Z) 0%Z d.

(** The violations that [harvest_violations] has grouped. *)
Definition grouped_count (by_module : list (pystr * list pydict)) : Z :=
  sum_of (fun vs : list pydict => Z.of_nat (List.length vs)) by_module.

(** ** Money flows *)

(** The [direction] of a flow record. *)
Definition flow_direction (f : pyval) : pystr :=
  match f with
  | PDict d => match lookup d (lit "direction") with
               | Some (PStr s) => s
               | _ => []
               end
  | _ => []
  end.

(** The amounts of the flow records of one direction, in their order. *)
Definition flow_amounts (direction : pystr) (flows : list pyval)
  : list pyval :=
  flat_map (fun f =>
              if str_eqb (flow_direction f) direction
              then match f with
                   | PDict d => [get d (lit "amount") PNone]
                   | _ => []
                   end
              else [])
           flows.

(** [total = 0], then [total += amount] for each amount. *)
Definition running_total (amounts : list pyval) : result pyval :=
  for_each amounts add (PInt 0).

(** ** Saudi PIF connections *)

(** The names that make [flag_pif_connection] report a connection. *)
Definition pif_names : list pystr :=
  map lit ["pif"; "public investment fund"; "affinity"; "liv golf";
           "dar global"; "dar al arkan"]%string.

(** One of the names occurs in the text. *)
Definition occurs_any (names : list pystr) (s : pystr) : bool :=
  existsb (fun k => contains k s) names.

(** The countries that [assess_emolument] does not take for foreign. *)
Definition domestic : list pystr :=
  [lit "us"; lit "usa"; lit "united states"].

Section Invariants.
Context `{Runtime}.

(** The module under which [sense] files a receipt. *)
Definition module_of (r : pydict) : pystr :=
  Cycle.infer_module (type_of r).

(** The receipt names the entity: one of its entity fields, lower-cased,
    is the lower-cased identifier. *)
Definition names_entity (entity_id : pystr) (r : pydict) : bool :=
  str_in (lower entity_id) (CrossDomain.extract_entities r).

(** The state of [sense] once the receipts [done] have been filed. *)
Record filed (st : Cycle.state) (done : list pydict) : Prop := {
  filed_module :
    forall m, lookup (Cycle.by_module st) m
              = module_group
                  (filter (fun r => str_eqb (module_of r) m) done);
  filed_type :
    forall t, lookup (Cycle.by_type st) t
              = type_tally (filter (fun r => str_eqb (type_of r) t) done);
  filed_anomalies :
    Cycle.anomalies st
    = filter (fun r => str_eqb (type_of r) (lit "anomaly")) done;
  filed_keys :
    keys (Cycle.by_module st) = first_seen (map module_of done);
  filed_module_sum :
    sum_of Cycle.count (Cycle.by_module st) = Z.of_nat (List.length done);
  filed_type_sum :
    sum_of (fun n => n) (Cycle.by_type st) = Z.of_nat (List.length done)
}.

(** The totals of a trace are the running totals of the amounts of its
    flows, each of which has a direction and a positive amount. *)
Definition reconciled (t : CrossDomain.trace) : Prop :=
  running_total
    (flow_amounts (lit "inflow") (map PDict (CrossDomain.flows t)))
  = Ok (CrossDomain.total_inflow t)
  /\ running_total
       (flow_amounts (lit "outflow") (map PDict (CrossDomain.flows t)))
     = Ok (CrossDomain.total_outflow t)
  /\ Forall (fun f => (flow_direction (PDict f) = lit "inflow"
                       \/ flow_direction (PDict f) = lit "outflow")
                      /\ gt_zero (get f (lit "amount") PNone) = Ok true)
            (CrossDomain.flows t).

End Invariants.

End Reading.

(* ================================================================== *)
(** * Strings, codecs and digests                                      *)
(* ================================================================== *)

Import Py Core Reading.

(** Closes [NoDup] and [In] goals over literal keys. *)
Ltac distinct_keys :=
  cbv [keys map fst];
  repeat match goal with
         | |- NoDup [] => constructor
         | |- NoDup (_ :: _) => constructor
         | |- ~ In _ _ => let E := fresh in intros E; vm_compute in E
         | E : _ \/ _ |- _ => destruct E as [E | E]
         | E : False |- _ => destruct E
         | E : _ :: _ = _ :: _ |- _ => discriminate E
         | E : _ = _ |- False => discriminate E
         end.

Lemma str_eqb_eq (a b : pystr) : str_eqb a b = true <-> a = b.
Proof.
  revert b; induction a as [|x a IH]; intros [|y b]; simpl; split;
    try easy.
  - intros E. apply andb_true_iff in E as [E1 E2].
    apply N.eqb_eq in E1. apply IH in E2. congruence.
  - intros [= -> ->]. rewrite N.eqb_refl. now apply IH.
Qed.

Lemma str_eqb_refl (a : pystr) : str_eqb a a = true.
Proof. now apply str_eqb_eq. Qed.

Lemma str_eqb_neq (a b : pystr) : str_eqb a b = false <-> a <> b.
Proof.
  split.
  - intros E ->. rewrite str_eqb_refl in E. discriminate.
  - intros N. destruct (str_eqb a b) eqn:E; [|reflexivity].
    apply str_eqb_eq in E. contradiction.
Qed.

Lemma str_eqb_sym (a b : pystr) : str_eqb a b = str_eqb b a.
Proof.
  destruct (str_eqb b a) eqn:E.
  - apply str_eqb_eq in E as ->. apply str_eqb_refl.
  - apply str_eqb_neq. apply str_eqb_neq in E. congruence.
Qed.

Lemma narrow_app (a b : pystr) : narrow a -> narrow b -> narrow (a ++ b).
Proof. intros Ha Hb. apply Forall_app. now split. Qed.

Lemma narrow_of_ascii (s : string) : narrow (of_ascii s).
Proof.
  unfold narrow, of_ascii. apply Forall_forall. intros c Hc.
  apply in_map_iff in Hc as (a & <- & _). apply N_ascii_bounded.
Qed.

Lemma narrow_lit (s : string) : narrow (lit s).
Proof. apply narrow_of_ascii. Qed.

Lemma narrow_no_surrogate (s : pystr) : narrow s -> no_surrogate s = true.
Proof.
  intros Hs. unfold no_surrogate. apply forallb_forall. intros c Hc.
  unfold narrow in Hs. rewrite Forall_forall in Hs. specialize (Hs c Hc).
  unfold is_surrogate. apply negb_true_iff, andb_false_iff. left.
  apply N.leb_gt. lia.
Qed.

Lemma utf8_encode_cp_some (c : N) :
  is_surrogate c = false -> exists bs, utf8_encode_cp c = Some bs.
Proof.
  intros Hc. unfold utf8_encode_cp. rewrite Hc.
  repeat match goal with
         | |- context [if ?b then _ else _] => destruct b
         end; eauto.
Qed.

Lemma utf8_encode_cp_surrogate (c : N) :
  is_surrogate c = true -> utf8_encode_cp c = None.
Proof.
  intros Hc. unfold utf8_encode_cp. rewrite Hc.
  unfold is_surrogate in Hc. apply andb_true_iff in Hc as [H1 H2].
  apply N.leb_le in H1.
  destruct (N.ltb_spec c 0x80); [lia|].
  destruct (N.ltb_spec c 0x800); [lia|]. reflexivity.
Qed.

(** [str.encode] succeeds exactly on the texts without a surrogate. *)
Lemma encode_no_surrogate (s : pystr) :
  no_surrogate s = true -> exists raw, encode s = Ok raw.
Proof.
  induction s as [|c s IH]; simpl; intros Hs; [eauto|].
  apply andb_true_iff in Hs as [Hc Hs]. apply negb_true_iff in Hc.
  destruct (utf8_encode_cp_some c Hc) as [bs ->].
  destruct (IH Hs) as [rest ->]. simpl. eauto.
Qed.

Lemma encode_surrogate (s : pystr) :
  no_surrogate s = false -> encode s = Raise UnicodeEncodeError.
Proof.
  induction s as [|c s IH]; simpl; intros Hs; [discriminate|].
  apply andb_false_iff in Hs as [Hc | Hs].
  - apply negb_false_iff in Hc. now rewrite utf8_encode_cp_surrogate.
  - destruct (utf8_encode_cp c); [|reflexivity]. now rewrite IH.
Qed.

Lemma hex_digit_lower (n : N) :
  (n < 16)%N -> is_lower_hex (hex_digit n) = true.
Proof.
  intros Hn. unfold hex_digit, is_lower_hex.
  destruct (N.ltb_spec n 10).
  - apply orb_true_iff. left. apply andb_true_iff.
    split; apply N.leb_le; lia.
  - apply orb_true_iff. right. apply andb_true_iff.
    split; apply N.leb_le; lia.
Qed.

Lemma hex_lower (bs : bytes) : forallb is_lower_hex (hex bs) = true.
Proof.
  induction bs as [|b bs IH]; [reflexivity|].
  pose proof (Byte.to_N_bounded b) as Hb.
  unfold hex in *. cbn [flat_map hex_of_byte app forallb].
  rewrite IH, andb_true_r, !hex_digit_lower; [reflexivity| |].
  - apply N.mod_lt. discriminate.
  - apply N.Div0.div_lt_upper_bound. lia.
Qed.

Lemma length_hex (bs : bytes) :
  List.length (hex bs) = (2 * List.length bs)%nat.
Proof.
  induction bs as [|b bs IH]; [reflexivity|].
  unfold hex in *. simpl. rewrite IH. lia.
Qed.

Lemma lower_hex_facts (c : N) :
  is_lower_hex c = true -> c <> colon /\ (c < 256)%N.
Proof.
  unfold is_lower_hex, colon. intros Hc.
  apply orb_true_iff in Hc as [Hc | Hc];
    apply andb_true_iff in Hc as [H1 H2];
    apply N.leb_le in H1; apply N.leb_le in H2; lia.
Qed.

Lemma lower_hex_narrow (s : pystr) :
  forallb is_lower_hex s = true -> narrow s.
Proof.
  intros Hs. apply Forall_forall. intros c Hc.
  rewrite forallb_forall in Hs. now apply lower_hex_facts, Hs.
Qed.

Lemma lower_hex_no_colon (s : pystr) :
  forallb is_lower_hex s = true -> colons s = 0%nat.
Proof.
  intros Hs. apply count_occ_not_In. intros Hin.
  rewrite forallb_forall in Hs.
  now destruct (lower_hex_facts _ (Hs _ Hin)).
Qed.

Lemma colons_app (a b : pystr) : colons (a ++ b) = (colons a + colons b)%nat.
Proof. apply count_occ_app. Qed.

Lemma sha256_hexdigest_lower (raw : bytes) :
  forallb is_lower_hex (Sha256.hexdigest raw) = true.
Proof. apply hex_lower. Qed.

Lemma sha256_hexdigest_length (raw : bytes) :
  List.length (Sha256.hexdigest raw) = 64%nat.
Proof.
  unfold Sha256.hexdigest. rewrite length_hex.
  unfold Sha256.digest. rewrite length_map.
  generalize (fold_left Sha256.compress
                (Sha256.blocks (Sha256.words (Sha256.pad
                   (map (fun b => Z.of_N (Byte.to_N b)) raw))))
                Sha256.H0).
  intros final. reflexivity.
Qed.

(* ================================================================== *)
(** * dual_hash                                                        *)
(* ================================================================== *)

Section DualHash.
Context `{Runtime}.

(** The second digest of [dual_hash]. *)
Lemma dual_hash_bytes (raw : bytes) :
  dual_hash (OfBytes raw)
  = Ok (Sha256.hexdigest raw ++ colon ::
        (if HAS_BLAKE3 then hex (blake3_digest raw)
         else Sha256.hexdigest raw)).
Proof. reflexivity. Qed.

Lemma dual_hash_str (s : pystr) (raw : bytes) :
  encode s = Ok raw -> dual_hash (OfStr s) = dual_hash (OfBytes raw).
Proof. intros E. unfold dual_hash. now rewrite E. Qed.

Lemma dual_hash_shape (raw : bytes) :
  exists primary secondary,
    dual_hash (OfBytes raw) = Ok (primary ++ colon :: secondary)
    /\ primary = Sha256.hexdigest raw
    /\ forallb is_lower_hex primary = true
    /\ forallb is_lower_hex secondary = true
    /\ (HAS_BLAKE3 = false -> secondary = primary).
Proof.
  exists (Sha256.hexdigest raw).
  exists (if HAS_BLAKE3 then hex (blake3_digest raw)
          else Sha256.hexdigest raw).
  split; [apply dual_hash_bytes|]. split; [reflexivity|].
  split; [apply sha256_hexdigest_lower|]. split.
  - destruct HAS_BLAKE3; [apply hex_lower | apply sha256_hexdigest_lower].
  - now intros ->.
Qed.

(** A dual hash is a text of code points below 256. *)
Lemma dual_hash_narrow (d : data) (h : pystr) :
  dual_hash d = Ok h -> narrow h.
Proof.
  intros E.
  assert (G : forall raw, dual_hash (OfBytes raw) = Ok h -> narrow h).
  { intros raw Eb.
    destruct (dual_hash_shape raw) as (p & q & E' & _ & Hp & Hq & _).
    rewrite E' in Eb. injection Eb as <-.
    apply narrow_app; [now apply lower_hex_narrow|].
    constructor; [reflexivity | now apply lower_hex_narrow]. }
  destruct d as [raw | s]; [now apply (G raw)|].
  unfold dual_hash in E. destruct (encode s) as [raw|e] eqn:Es;
    [|discriminate].
  now apply (G raw).
Qed.

(** [dual_hash] of a text of code points below 256 returns. *)
Lemma dual_hash_text_ok (s : pystr) :
  narrow s -> dual_hash (OfStr s) = Ok (dual_hash_text s).
Proof.
  intros Hs. unfold dual_hash_text.
  destruct (encode_no_surrogate s (narrow_no_surrogate _ Hs)) as [raw E].
  rewrite (dual_hash_str _ _ E), dual_hash_bytes. reflexivity.
Qed.

Lemma dual_hash_text_narrow (s : pystr) : narrow (dual_hash_text s).
Proof.
  unfold dual_hash_text.
  destruct (dual_hash (OfStr s)) as [h|e] eqn:E; [|constructor].
  now apply (dual_hash_narrow _ _ E).
Qed.

End DualHash.

(** C2, as the code has it. [dual_hash] is a function of its argument
    alone. On [bytes], and on every [str] that has a UTF-8 encoding (no
    lone surrogate), the empty ones included, it returns
    [primary:secondary]: the primary side is the SHA-256 hex digest of the
    bytes, 64 characters long, both sides are lower-case hexadecimal, the
    text holds exactly one colon, a [str] hashes as its encoding does, and
    without [blake3] the secondary side is a copy of the primary one. *)
Theorem dual_hash_on_encodable `{Runtime} (d : data) :
  encodable d = true ->
  exists raw primary secondary,
    match d with
    | OfStr s => encode s = Ok raw
    | OfBytes b => raw = b
    end
    /\ dual_hash d = Ok (primary ++ colon :: secondary)
    /\ dual_hash d = dual_hash (OfBytes raw)
    /\ primary = Sha256.hexdigest raw
    /\ List.length primary = 64%nat
    /\ forallb is_lower_hex primary = true
    /\ forallb is_lower_hex secondary = true
    /\ colons (primary ++ colon :: secondary) = 1%nat
    /\ (HAS_BLAKE3 = false -> secondary = primary).
Proof.
  intros Hd.
  assert (E : exists raw,
             match d with
             | OfStr s => encode s = Ok raw
             | OfBytes b => raw = b
             end /\ dual_hash d = dual_hash (OfBytes raw)).
  { destruct d as [b | s].
    - exists b. now split.
    - destruct (encode_no_surrogate s Hd) as [raw E].
      exists raw. split; [exact E | now apply dual_hash_str]. }
  destruct E as (raw & Eraw & Ed).
  destruct (dual_hash_shape raw) as (p & q & E' & Hp & Hlp & Hlq & Hq).
  exists raw, p, q. rewrite Ed.
  repeat split; try assumption.
  - subst p. apply sha256_hexdigest_length.
  - change (p ++ colon :: q) with (p ++ [colon] ++ q).
    rewrite !colons_app, (lower_hex_no_colon _ Hlp),
      (lower_hex_no_colon _ Hlq).
    reflexivity.
Qed.

(** C2 at the empty text, on an interpreter without [blake3]. *)
Lemma dual_hash_on_encodable_witness :
  exists raw primary secondary,
    encode [] = Ok raw
    /\ @dual_hash plain_runtime (OfStr [])
       = Ok (primary ++ colon :: secondary)
    /\ @dual_hash plain_runtime (OfStr [])
       = @dual_hash plain_runtime (OfBytes raw)
    /\ primary = Sha256.hexdigest raw
    /\ List.length primary = 64%nat
    /\ forallb is_lower_hex primary = true
    /\ forallb is_lower_hex secondary = true
    /\ colons (primary ++ colon :: secondary) = 1%nat
    /\ (@HAS_BLAKE3 plain_runtime = false -> secondary = primary).
Proof.
  apply (@dual_hash_on_encodable plain_runtime (OfStr [])). reflexivity.
Defined.

(** C2 as stated fails: a [str] that holds a lone surrogate, such as
    ["\ud800"], has no UTF-8 encoding, and [dual_hash] raises
    [UnicodeEncodeError] on it whatever the interpreter provides. *)
Lemma dual_hash_raises_on_lone_surrogate :
  exists s : pystr,
    s = [0xD800%N]
    /\ forall R : Runtime,
         @dual_hash R (OfStr s) = Raise UnicodeEncodeError.
Proof.
  exists [0xD800%N]. split; [reflexivity|]. intros R. reflexivity.
Qed.

(** The digest agrees with the published SHA-256 test vectors. *)
Example sha256_abc :
  Sha256.hexdigest (blit "abc")
  = lit "ba7816bf8f01cfea414140de5dae2223b00361a396177a9cb410ff61f20015ad".
Proof. vm_compute. reflexivity. Qed.

Example sha256_two_blocks :
  Sha256.hexdigest
    (blit "abcdbcdecdefdefgefghfghighijhijkijkljklmklmnlmnomnopnopq")
  = lit "248d6a61d20638b8e5c026930c3e6039a33ce45964ff2167f6ecedd419db06c1".
Proof. vm_compute. reflexivity. Qed.

(* ================================================================== *)
(** * Dicts                                                            *)
(* ================================================================== *)

Section DictFacts.
Variable A : Type.
Implicit Types (d : list (pystr * A)) (k : pystr) (v : A).

Lemma lookup_set_item d k v k' :
  lookup (set_item d k v) k'
  = if str_eqb k' k then Some v else lookup d k'.
Proof.
  induction d as [|[k0 v0] d IH]; simpl.
  - reflexivity.
  - destruct (str_eqb k k0) eqn:E; simpl.
    + apply str_eqb_eq in E as <-. now destruct (str_eqb k' k).
    + rewrite IH. destruct (str_eqb k' k0) eqn:E0; [|reflexivity].
      apply str_eqb_eq in E0 as ->.
      now rewrite str_eqb_sym, E.
Qed.

Lemma lookup_app d d' k :
  lookup (d ++ d') k
  = match lookup d k with
    | Some v => Some v
    | None => lookup d' k
    end.
Proof.
  induction d as [|[k0 v0] d IH]; simpl; [reflexivity|].
  now destruct (str_eqb k k0).
Qed.

Lemma lookup_none d k : lookup d k = None <-> ~ In k (keys d).
Proof.
  induction d as [|[k0 v0] d IH]; simpl; [tauto|].
  destruct (str_eqb k k0) eqn:E.
  - apply str_eqb_eq in E as ->. split; [discriminate | tauto].
  - apply str_eqb_neq in E. rewrite IH. split.
    + intros Hn [H1 | H1]; [congruence | tauto].
    + tauto.
Qed.

Lemma lookup_in d k v : lookup d k = Some v -> In (k, v) d.
Proof.
  induction d as [|[k0 v0] d IH]; simpl; [discriminate|].
  destruct (str_eqb k k0) eqn:E.
  - apply str_eqb_eq in E as ->. intros [= ->]. now left.
  - intros Hl. right. now apply IH.
Qed.

(** In a dict, where no key occurs twice, the first and the last binding
    of a key are one. *)
Lemma lookup_rev d k : NoDup (keys d) -> lookup (rev d) k = lookup d k.
Proof.
  induction d as [|[k0 v0] d IH]; simpl; [reflexivity|].
  intros Hd. inversion Hd as [|? ? Hk0 Hd']; subst.
  rewrite lookup_app, (IH Hd'). simpl.
  destruct (str_eqb k k0) eqn:E; [|now destruct (lookup d k)].
  apply str_eqb_eq in E as ->.
  apply lookup_none in Hk0. now rewrite Hk0.
Qed.

Lemma lookup_store (items : list (pystr * A)) d k :
  lookup (fold_left (fun d kv => set_item d (fst kv) (snd kv)) items d) k
  = match lookup (rev items) k with
    | Some v => Some v
    | None => lookup d k
    end.
Proof.
  revert d. induction items as [|[k0 v0] items IH]; intros d; simpl;
    [reflexivity|].
  rewrite IH, lookup_app, lookup_set_item. simpl.
  destruct (lookup (rev items) k); [reflexivity|].
  now destruct (str_eqb k k0).
Qed.

End DictFacts.

(** A dict display that ends in [**payload]: the payload's bindings win. *)
Lemma lookup_dict_of_app (env payload : pydict) (k : pystr) :
  NoDup (keys payload) ->
  lookup (dict_of (env ++ payload)) k
  = match lookup payload k with
    | Some v => Some v
    | None => lookup (dict_of env) k
    end.
Proof.
  intros Hp. unfold dict_of. rewrite !lookup_store, rev_app_distr.
  rewrite lookup_app, (lookup_rev _ _ _ Hp). simpl.
  destruct (lookup payload k); [reflexivity|].
  now destruct (lookup (rev env) k).
Qed.

(* ================================================================== *)
(** * json.dumps                                                       *)
(* ================================================================== *)

Lemma narrow_join (sep : pystr) (parts : list pystr) :
  narrow sep -> Forall narrow parts -> narrow (join sep parts).
Proof.
  intros Hsep Hparts. induction Hparts as [|p rest Hp Hrest IH].
  - constructor.
  - simpl. destruct rest as [|q rest]; [exact Hp|].
    apply narrow_app; [exact Hp|]. now apply narrow_app.
Qed.

Lemma narrow_hex4 (n : N) : narrow (hex4 n).
Proof.
  apply lower_hex_narrow. unfold hex4. simpl.
  rewrite !hex_digit_lower; [reflexivity| | | |];
    apply N.mod_lt; discriminate.
Qed.

Lemma narrow_escape_cp (c : N) : narrow (escape_cp c).
Proof.
  assert (U : forall n, narrow (u_escape n)).
  { intros n. unfold u_escape. apply narrow_app; [|apply narrow_hex4].
    repeat constructor. }
  unfold escape_cp.
  repeat match goal with
         | |- narrow (if ?b then _ else _) => destruct b eqn:?
         end;
    try (repeat constructor; fail); try apply U.
  - apply andb_true_iff in Heqb6 as [_ Hc]. apply N.leb_le in Hc.
    constructor; [lia | constructor].
  - apply narrow_app; apply U.
Qed.

Lemma narrow_json_str (s : pystr) : narrow (json_str s).
Proof.
  unfold json_str. apply narrow_app; [repeat constructor|].
  apply narrow_app; [|repeat constructor].
  induction s as [|c s IH]; simpl; [constructor|].
  apply narrow_app; [apply narrow_escape_cp | exact IH].
Qed.

Lemma in_insert_item (B : Type) (kv x : pystr * B) (l : list (pystr * B)) :
  In x (insert_item kv l) <-> x = kv \/ In x l.
Proof.
  induction l as [|kv' l IH]; simpl.
  - split; intros [H|H]; auto; contradiction.
  - destruct (str_leb (fst kv) (fst kv')); simpl; [intuition auto|].
    rewrite IH. intuition auto.
Qed.

Lemma in_sort_items (B : Type) (x : pystr * B) (l : list (pystr * B)) :
  In x (sort_items l) <-> In x l.
Proof.
  induction l as [|kv l IH]; simpl; [tauto|].
  rewrite in_insert_item, IH. intuition auto.
Qed.

Section DumpsFacts.
Context `{Runtime}.

Lemma narrow_float_str (f : spec_float) : narrow (float_str f).
Proof.
  destruct f as [[|]|[|]| |s m e]; simpl;
    solve [apply narrow_lit | apply narrow_of_ascii].
Qed.

(** Whatever the value, its serialization is a text of code points below
    256: it has a UTF-8 encoding. *)
Lemma dumps_narrow (sort_keys : bool) (v : pyval) :
  narrow (dumps sort_keys v).
Proof.
  induction v as [ | [|] | n | f | s | xs IH | kvs IH ] using pyval_ind;
    try apply narrow_lit.
  - destruct f as [[|]|[|]| |s m e]; simpl;
      solve [apply narrow_lit | apply narrow_of_ascii].
  - apply narrow_json_str.
  - change (narrow (lit "[" ++ join (lit ", ") (map (dumps sort_keys) xs)
                    ++ lit "]")).
    apply narrow_app; [apply narrow_lit|].
    apply narrow_app; [|apply narrow_lit].
    apply narrow_join; [apply narrow_lit|].
    apply Forall_map. exact IH.
  - set (items := map (fun kv => (fst kv, dumps sort_keys (snd kv))) kvs).
    change (narrow (lit "{"
                    ++ join (lit ", ")
                         (map json_item
                              (if sort_keys then sort_items items
                               else items))
                    ++ lit "}")).
    apply narrow_app; [apply narrow_lit|].
    apply narrow_app; [|apply narrow_lit].
    apply narrow_join; [apply narrow_lit|].
    apply Forall_map.
    assert (G : Forall (fun kv : pystr * pystr => narrow (snd kv)) items).
    { apply Forall_map. exact IH. }
    assert (G' : Forall (fun kv : pystr * pystr => narrow (snd kv))
                   (if sort_keys then sort_items items else items)).
    { destruct sort_keys; [|exact G].
      apply Forall_forall. intros x Hx. rewrite in_sort_items in Hx.
      rewrite Forall_forall in G. now apply G. }
    eapply Forall_impl; [|exact G'].
    intros [k s] Hs. unfold json_item. cbn [fst snd] in *.
    apply narrow_app; [apply narrow_json_str|].
    apply narrow_app; [apply narrow_lit | exact Hs].
Qed.

End DumpsFacts.

(* ================================================================== *)
(** * The order of keys, and the canonical serialization               *)
(* ================================================================== *)

Lemma str_le_lt_trans (a b c : pystr) :
  str_ltb b a = false -> str_ltb b c = true -> str_ltb a c = true.
Proof.
  revert b c. induction a as [|x a IH]; intros [|y b] [|z c]; simpl;
    try easy.
  destruct (N.ltb_spec x y), (N.ltb_spec y x), (N.ltb_spec z y),
    (N.ltb_spec y z), (N.ltb_spec x z), (N.ltb_spec z x);
    try easy; try lia.
  apply IH.
Qed.

Lemma str_ltb_asym (a b : pystr) :
  str_ltb a b = true -> str_ltb b a = false.
Proof.
  revert b. induction a as [|x a IH]; intros [|y b]; simpl; try easy.
  destruct (N.ltb_spec x y), (N.ltb_spec y x); try easy; try lia.
  apply IH.
Qed.

Lemma str_ltb_trichotomy (a b : pystr) :
  str_ltb a b = false -> str_ltb b a = false -> a = b.
Proof.
  revert b. induction a as [|x a IH]; intros [|y b]; simpl; try easy.
  destruct (N.ltb_spec x y), (N.ltb_spec y x); try easy.
  intros Hab Hba. f_equal; [lia | now apply IH].
Qed.

(** Two items of different keys go into a sorted list in either order. *)
Lemma insert_item_comm (B : Type) (x y : pystr * B) (l : list (pystr * B)) :
  fst x <> fst y ->
  insert_item x (insert_item y l) = insert_item y (insert_item x l).
Proof.
  intros Hxy.
  assert (Hcmp : str_leb (fst x) (fst y) = negb (str_leb (fst y) (fst x))).
  { unfold str_leb. rewrite negb_involutive.
    destruct (str_ltb (fst x) (fst y)) eqn:E1.
    - now rewrite (str_ltb_asym _ _ E1).
    - destruct (str_ltb (fst y) (fst x)) eqn:E2; [reflexivity|].
      now destruct Hxy; apply str_ltb_trichotomy. }
  induction l as [|z l IH]; simpl.
  - rewrite Hcmp. now destruct (str_leb (fst y) (fst x)).
  - destruct (str_leb (fst y) (fst z)) eqn:Ey,
             (str_leb (fst x) (fst z)) eqn:Ex; simpl;
      rewrite ?Ex, ?Ey.
    + rewrite Hcmp. now destruct (str_leb (fst y) (fst x)).
    + assert (E : str_leb (fst x) (fst y) = false).
      { unfold str_leb in *. apply negb_false_iff.
        apply negb_true_iff in Ey. apply negb_false_iff in Ex.
        now apply str_le_lt_trans with (b := fst z). }
      now rewrite E.
    + assert (E : str_leb (fst y) (fst x) = false).
      { unfold str_leb in *. apply negb_false_iff.
        apply negb_true_iff in Ex. apply negb_false_iff in Ey.
        now apply str_le_lt_trans with (b := fst z). }
      now rewrite E.
    + now rewrite IH.
Qed.

(** Sorting by key forgets the order of insertion. *)
Lemma sort_items_perm (B : Type) (l l' : list (pystr * B)) :
  Permutation l l' -> NoDup (keys l) -> sort_items l = sort_items l'.
Proof.
  induction 1 as [| x l l' Hp IH | x y l | l l' l'' Hp1 IH1 Hp2 IH2];
    intros Hnd.
  - reflexivity.
  - simpl. inversion Hnd; subst. now rewrite IH.
  - simpl. apply insert_item_comm.
    inversion Hnd as [|? ? Hy _]; subst. simpl in Hy. intros E.
    apply Hy. left. now symmetry.
  - rewrite IH1 by assumption. apply IH2.
    unfold keys. eapply Permutation_NoDup; [|exact Hnd].
    now apply Permutation_map.
Qed.

Section Canonical.
Context `{Runtime}.

(** The canonical serialization is the same for the same mapping. *)
Lemma dumps_same_value (a : pyval) :
  forall b, same_value a b -> dumps true a = dumps true b.
Proof.
  induction a as [ | c | n | f | s | xs IH | kvs IH ] using pyval_ind;
    intros b Hab; inversion Hab; subst; try reflexivity.
  - change (lit "[" ++ join (lit ", ") (map (dumps true) xs) ++ lit "]"
            = lit "[" ++ join (lit ", ") (map (dumps true) ys) ++ lit "]").
    do 3 f_equal.
    match goal with F : Forall2 same_value xs ys |- _ =>
      induction F as [|x y xs' ys' Hxy F IHF]
    end; [reflexivity|].
    simpl. inversion IH; subst. f_equal; [auto | apply IHF; auto].
    constructor. assumption.
  - set (items l := map (fun kv : pystr * pyval =>
                           (fst kv, dumps true (snd kv))) l).
    change (lit "{" ++ join (lit ", ")
                         (map json_item (sort_items (items kvs)))
            ++ lit "}"
            = lit "{" ++ join (lit ", ")
                           (map json_item (sort_items (items kvs')))
              ++ lit "}").
    do 4 f_equal.
    assert (E : items kvs = items reordered).
    { match goal with
      | F : Forall2 _ kvs reordered |- _ =>
          clear - F IH; induction F as [|x y l l' [Hk Hv] F IHF]
      end; [reflexivity|].
      inversion IH; subst. simpl. f_equal; [|now apply IHF].
      rewrite Hk. f_equal. auto. }
    rewrite E. apply sort_items_perm.
    + unfold items. apply Permutation_map. now apply Permutation_sym.
    + rewrite <- E. unfold keys, items. rewrite map_map. simpl.
      assumption.
Qed.

End Canonical.

(* ================================================================== *)
(** * emit_receipt                                                     *)
(* ================================================================== *)

Section EmitReceipt.
Context `{Runtime}.

(** One call of [emit_receipt]: it always returns, having read the clock
    once and printed one line, the record it returns. *)
Lemma emit_receipt_run (t : pystr) (d : pydict) (w : World) :
  let h := dual_hash_text (dumps true (PDict d)) in
  let receipt :=
    dict_of (envelope t (utcnow_isoformat (clock w) ++ lit "Z")
                      (get d (lit "tenant_id") (PStr TENANT_ID)) h
             ++ d) in
  dual_hash (OfStr (dumps true (PDict d))) = Ok h
  /\ emit_receipt t d w
     = (mkWorld (S (clock w)) (stdout w ++ [dumps false (PDict receipt)]),
        Ok receipt).
Proof.
  intros h receipt.
  assert (E : dual_hash (OfStr (dumps true (PDict d))) = Ok h).
  { apply dual_hash_text_ok, dumps_narrow. }
  split; [exact E|].
  unfold emit_receipt, bind, read_clock, lift, print, ret.
  cbn [clock stdout]. rewrite E. reflexivity.
Qed.

Lemma avoids_reserved_lookup (d : pydict) :
  avoids_reserved d = true ->
  lookup d (lit "receipt_type") = None
  /\ lookup d (lit "ts") = None
  /\ lookup d (lit "payload_hash") = None.
Proof.
  unfold avoids_reserved, reserved_keys, has_key. simpl.
  destruct (lookup d (lit "receipt_type")); [discriminate|].
  destruct (lookup d (lit "ts")); [discriminate|].
  destruct (lookup d (lit "payload_hash")); [discriminate|].
  auto.
Qed.

End EmitReceipt.

(** The same mapping has the same keys, none of them twice. *)
Lemma same_value_keys (d d' : pydict) :
  same_value (PDict d) (PDict d') ->
  NoDup (keys d') /\ forall k, lookup d k = None <-> lookup d' k = None.
Proof.
  intros S. inversion S as [| | | | | |? ? re Hnd Hperm Hall]; subst.
  assert (Ek : keys d = keys re).
  { clear - Hall. induction Hall as [|x y l l' [Hk _] _ IH];
      [reflexivity|]. simpl. now rewrite Hk, IH. }
  assert (Hp : Permutation (keys re) (keys d')).
  { unfold keys. apply Permutation_map. now apply Permutation_sym. }
  split.
  - eapply Permutation_NoDup; [exact Hp|]. now rewrite <- Ek.
  - intros k. rewrite !lookup_none, Ek. split; intros Hn Hin; apply Hn.
    + eapply Permutation_in; [apply Permutation_sym; exact Hp | exact Hin].
    + eapply Permutation_in; [exact Hp | exact Hin].
Qed.

(** C1, as the code has it. For every payload [d] that holds none of the
    keys [receipt_type], [ts] and [payload_hash], [emit_receipt t d]
    returns a record whose [receipt_type] is [t], whose [ts] is a
    non-empty text, whose [tenant_id] is the payload's own when it has one
    and the global tenant otherwise, and whose [payload_hash] is
    [dual_hash] of the sorted-key serialization of [d] as supplied, before
    any default is filled in. Hence any emission of the same mapping, its
    keys inserted in whatever order, at whatever time and under whatever
    type, carries the same [payload_hash]. *)
Theorem emit_receipt_envelope `{Runtime}
        (t : pystr) (d : pydict) (w : World) :
  NoDup (keys d) ->
  avoids_reserved d = true ->
  exists receipt ts h,
    emit_receipt t d w
    = (mkWorld (S (clock w)) (stdout w ++ [dumps false (PDict receipt)]),
       Ok receipt)
    /\ lookup receipt (lit "receipt_type") = Some (PStr t)
    /\ lookup receipt (lit "ts") = Some (PStr ts)
    /\ ts <> []
    /\ lookup receipt (lit "tenant_id")
       = Some (match lookup d (lit "tenant_id") with
               | Some tenant => tenant
               | None => PStr TENANT_ID
               end)
    /\ dual_hash (OfStr (dumps true (PDict d))) = Ok h
    /\ lookup receipt (lit "payload_hash") = Some (PStr h)
    /\ forall d' t' w',
         same_value (PDict d) (PDict d') ->
         exists receipt',
           snd (emit_receipt t' d' w') = Ok receipt'
           /\ lookup receipt' (lit "payload_hash") = Some (PStr h).
Proof.
  intros Hnd Hav.
  destruct (emit_receipt_run t d w) as [Eh Erun].
  destruct (avoids_reserved_lookup d Hav) as (Ht & Hts & Hh).
  eexists _, (utcnow_isoformat (clock w) ++ lit "Z"), _.
  split; [exact Erun|].
  rewrite !lookup_dict_of_app, Ht, Hts, Hh by assumption.
  repeat split.
  - now destruct (utcnow_isoformat (clock w)).
  - unfold get. now destruct (lookup d (lit "tenant_id")).
  - exact Eh.
  - intros d' t' w' Hsame.
    destruct (emit_receipt_run t' d' w') as [_ Erun'].
    destruct (same_value_keys d d' Hsame) as [Hnd' Hk].
    eexists. rewrite Erun'. split; [reflexivity|].
    rewrite lookup_dict_of_app by assumption.
    rewrite (proj1 (Hk _) Hh).
    now rewrite <- (dumps_same_value (PDict d) (PDict d') Hsame).
Qed.

(** C1 at the payload [{"k": "v"}], emitted as ["x"]. *)
Lemma emit_receipt_envelope_witness :
  exists receipt ts h,
    @emit_receipt plain_runtime (lit "x") [(lit "k", PStr (lit "v"))] world0
    = (mkWorld 1 [@dumps plain_runtime false (PDict receipt)], Ok receipt)
    /\ lookup receipt (lit "receipt_type") = Some (PStr (lit "x"))
    /\ lookup receipt (lit "ts") = Some (PStr ts)
    /\ ts <> []
    /\ lookup receipt (lit "tenant_id") = Some (PStr TENANT_ID)
    /\ lookup receipt (lit "payload_hash") = Some (PStr h)
    /\ colons h = 1%nat.
Proof.
  destruct (@emit_receipt_envelope plain_runtime (lit "x")
              [(lit "k", PStr (lit "v"))] world0)
    as (receipt & ts & h & Erun & Ht & Hts & Hne & Hten & Eh & Hh & _).
  - distinct_keys.
  - reflexivity.
  - exists receipt, ts, h. repeat split; try assumption.
    vm_compute in Eh. injection Eh as <-. reflexivity.
Defined.

(** C1 as stated fails: a payload that holds the key [receipt_type]
    overrides the type that the caller passed. Emitting
    [{"receipt_type": "y"}] as ["x"] returns a record whose
    [receipt_type] is ["y"]. *)
Lemma emit_receipt_type_shadowed :
  exists (t : pystr) (d : pydict),
    t = lit "x"
    /\ d = [(lit "receipt_type", PStr (lit "y"))]
    /\ forall (R : Runtime) (w : World),
         exists receipt,
           snd (@emit_receipt R t d w) = Ok receipt
           /\ lookup receipt (lit "receipt_type") = Some (PStr (lit "y"))
           /\ lookup receipt (lit "receipt_type") <> Some (PStr t).
Proof.
  exists (lit "x"), [(lit "receipt_type", PStr (lit "y"))].
  split; [reflexivity|]. split; [reflexivity|]. intros R w.
  destruct (emit_receipt_run (lit "x")
              [(lit "receipt_type", PStr (lit "y"))] w) as [_ Erun].
  eexists. rewrite Erun. split; [reflexivity|].
  rewrite lookup_dict_of_app by distinct_keys.
  split; [reflexivity | discriminate].
Qed.

(** C10. Whatever the payload binds is what the record holds: a payload
    key, the three reserved ones included, keeps the payload's value,
    since the payload is merged after the envelope. The envelope's
    [receipt_type], [ts] and [payload_hash] are found in the record exactly
    when the payload leaves that key out. *)
Theorem emit_receipt_payload_wins `{Runtime}
        (t : pystr) (d : pydict) (w : World) :
  NoDup (keys d) ->
  exists receipt h,
    snd (emit_receipt t d w) = Ok receipt
    /\ dual_hash (OfStr (dumps true (PDict d))) = Ok h
    /\ (forall k v, lookup d k = Some v -> lookup receipt k = Some v)
    /\ (lookup d (lit "receipt_type") = None ->
        lookup receipt (lit "receipt_type") = Some (PStr t))
    /\ (lookup d (lit "ts") = None ->
        lookup receipt (lit "ts")
        = Some (PStr (utcnow_isoformat (clock w) ++ lit "Z")))
    /\ (lookup d (lit "payload_hash") = None ->
        lookup receipt (lit "payload_hash") = Some (PStr h)).
Proof.
  intros Hnd. destruct (emit_receipt_run t d w) as [Eh Erun].
  eexists _, _. rewrite Erun. split; [reflexivity|].
  split; [exact Eh|].
  repeat split.
  - intros k v Hk. now rewrite lookup_dict_of_app, Hk.
  - intros Hk. now rewrite lookup_dict_of_app, Hk.
  - intros Hk. now rewrite lookup_dict_of_app, Hk.
  - intros Hk. now rewrite lookup_dict_of_app, Hk.
Qed.

(** C10 at a payload that binds all three reserved keys. *)
Lemma emit_receipt_payload_wins_witness :
  exists receipt,
    snd (@emit_receipt plain_runtime (lit "x")
           [(lit "receipt_type", PStr (lit "forged"));
            (lit "ts", PInt 0);
            (lit "payload_hash", PNone)]
           world0) = Ok receipt
    /\ lookup receipt (lit "receipt_type") = Some (PStr (lit "forged"))
    /\ lookup receipt (lit "ts") = Some (PInt 0)
    /\ lookup receipt (lit "payload_hash") = Some PNone.
Proof.
  destruct (@emit_receipt_payload_wins plain_runtime (lit "x")
              [(lit "receipt_type", PStr (lit "forged"));
               (lit "ts", PInt 0);
               (lit "payload_hash", PNone)]
              world0)
    as (receipt & h & Erun & _ & Hpay & _).
  - distinct_keys.
  - exists receipt. repeat split; try assumption; now apply Hpay.
Defined.

(* ================================================================== *)
(** * merkle                                                           *)
(* ================================================================== *)

Lemma list_pair_ind (A : Type) (P : list A -> Prop) :
  P [] -> (forall a, P [a]) -> (forall a b l, P l -> P (a :: b :: l)) ->
  forall l, P l.
Proof.
  intros Hnil Hone Hstep.
  assert (G : forall l, P l /\ forall a, P (a :: l)).
  { induction l as [|b l [IH1 IH2]]; split; auto. }
  intros l. apply G.
Qed.

Lemma map_r_ok (A B : Type) (f : A -> result B) (g : A -> B) (l : list A) :
  (forall x, In x l -> f x = Ok (g x)) -> map_r f l = Ok (map g l).
Proof.
  induction l as [|x l IH]; intros Hf; simpl; [reflexivity|].
  rewrite Hf by now left. simpl. rewrite IH; [reflexivity|].
  intros y Hy. apply Hf. now right.
Qed.

Lemma map_r_map (A B C : Type) (f : B -> result C) (g : A -> B)
      (l : list A) :
  map_r f (map g l) = map_r (fun x => f (g x)) l.
Proof.
  induction l as [|x l IH]; simpl; [reflexivity|]. now rewrite IH.
Qed.

Lemma map_r_ext (A B : Type) (f g : A -> result B) (l : list A) :
  (forall x, f x = g x) -> map_r f l = map_r g l.
Proof.
  intros E. induction l as [|x l IH]; simpl; [reflexivity|].
  now rewrite E, IH.
Qed.

Lemma range2_step (n : nat) :
  range2 (S (S n)) = 0%nat :: map (fun i => i + 2)%nat (range2 n).
Proof.
  unfold range2.
  replace ((S (S n) + 1) / 2)%nat with (S ((n + 1) / 2)).
  - generalize ((n + 1) / 2)%nat. intros m.
    cbn [seq map]. f_equal.
    rewrite <- seq_shift, !map_map. apply map_ext. intros k. lia.
  - replace (S (S n) + 1)%nat with (1 * 2 + (n + 1))%nat by lia.
    rewrite Nat.div_add_l by lia. lia.
Qed.

Lemma pairs_nonempty (a : pystr) (hs : list pystr) : pairs (a :: hs) <> [].
Proof. destruct hs; discriminate. Qed.

Lemma length_pairs_le (hs : list pystr) :
  (List.length (pairs hs) <= List.length hs)%nat
  /\ (2 <= List.length hs ->
      List.length (pairs hs) < List.length hs)%nat.
Proof.
  induction hs as [| a | a b hs [IH1 IH2]] using list_pair_ind; simpl;
    split; lia.
Qed.

Section MerkleFacts.
Context `{Runtime}.

(** The pairs of a level of even length, read by index as the
    comprehension of the source does. *)
Lemma merkle_pairs_by_index (hs : list pystr) :
  Nat.even (List.length hs) = true ->
  Forall narrow hs ->
  map_r (fun i =>
           l <-- item hs i ;;
           r <-- item hs (i + 1) ;;
           dual_hash (OfStr (l ++ r)))%py
        (range2 (List.length hs))
  = Ok (map combine_pair (pairs hs)).
Proof.
  induction hs as [| a | a b hs IH] using list_pair_ind;
    intros Hev Hn; [reflexivity | discriminate |].
  inversion Hn as [|? ? Ha Hn']; subst.
  inversion Hn' as [|? ? Hb Hn'']; subst.
  cbn [List.length]. rewrite range2_step.
  cbn [map_r item nth_error Nat.add rbind].
  rewrite (dual_hash_text_ok (a ++ b)) by now apply narrow_app.
  cbn [rbind]. rewrite map_r_map.
  rewrite map_r_ext
    with (g := (fun i =>
                  l <-- item hs i ;;
                  r <-- item hs (i + 1) ;;
                  dual_hash (OfStr (l ++ r)))%py).
  - rewrite IH by assumption. reflexivity.
  - intros i. unfold item.
    replace (i + 2)%nat with (S (S i)) by lia.
    replace (S (S i) + 1)%nat with (S (S (i + 1))) by lia.
    reflexivity.
Qed.

(** Appending the last hash to a level of odd length pairs it with
    itself. *)
Lemma pairs_padded (hs : list pystr) (d : pystr) :
  Nat.odd (List.length hs) = true ->
  pairs (hs ++ [last hs d]) = pairs hs
  /\ Nat.even (List.length (hs ++ [last hs d])) = true
  /\ item hs (List.length hs - 1) = Ok (last hs d).
Proof.
  induction hs as [| a | a b hs IH] using list_pair_ind; intros Hodd.
  - discriminate.
  - repeat split.
  - destruct hs as [|c hs]; [discriminate|].
    destruct (IH Hodd) as (E1 & E2 & E3).
    change (last (a :: b :: c :: hs) d) with (last (c :: hs) d).
    repeat split.
    + cbn [app pairs]. f_equal. exact E1.
    + exact E2.
    + cbn [List.length Nat.sub] in *. rewrite Nat.sub_0_r in *.
      exact E3.
Qed.

(** One turn of the loop computes the next level of the
    specification. *)
Lemma merkle_level_pairs (hs : list pystr) :
  Forall narrow hs ->
  merkle_level hs = Ok (map combine_pair (pairs hs)).
Proof.
  intros Hn. unfold merkle_level.
  destruct (Nat.odd (List.length hs)) eqn:Hodd.
  - destruct (pairs_padded hs [] Hodd) as (E1 & E2 & E3).
    rewrite E3. cbn [rbind].
    rewrite merkle_pairs_by_index, E1; [reflexivity | exact E2 |].
    apply Forall_app. split; [exact Hn|]. constructor; [|constructor].
    destruct hs as [|a hs]; [discriminate|].
    rewrite Forall_forall in Hn. apply Hn.
    destruct (@exists_last _ (a :: hs)) as (l' & x & E);
      [discriminate|].
    rewrite E, last_last. apply in_or_app. right. now left.
  - cbn [rbind]. apply merkle_pairs_by_index; [|exact Hn].
    now rewrite <- Nat.negb_odd, Hodd.
Qed.

End MerkleFacts.

Section MerkleRefinement.
Context `{Runtime}.

(** The loop of [merkle] ends within as many turns as the level has
    hashes, and leaves the root that the specification describes. *)
Lemma merkle_loop_reduce (turns : nat) :
  forall hs,
    hs <> [] -> Forall narrow hs ->
    (List.length hs <= turns)%nat ->
    merkle_loop turns hs = Some (Ok (reduce hs)).
Proof.
  induction turns as [|turns IH]; intros [|a [|b hs]] Hne Hn Hlen;
    try (now destruct Hne); try (simpl in Hlen; lia).
  - simp reduce. reflexivity.
  - simp reduce.
    change (merkle_loop (S turns) (a :: b :: hs))
      with (match merkle_level (a :: b :: hs) with
            | Ok hashes' => merkle_loop turns hashes'
            | Raise e => Some (Raise e)
            end).
    rewrite merkle_level_pairs by assumption.
    apply IH.
    + intros E. apply map_eq_nil in E. now apply pairs_nonempty in E.
    + apply Forall_map, Forall_forall. intros p _.
      apply dual_hash_text_narrow.
    + rewrite length_map.
      destruct (length_pairs_le (a :: b :: hs)) as [_ Hlt].
      cbn [List.length] in *. lia.
Qed.

Lemma merkle_leaves (items : list pyval) :
  map_r (fun i => dual_hash (OfStr (dumps true i))) items
  = Ok (map (fun i => dual_hash_text (dumps true i)) items).
Proof.
  apply map_r_ok. intros i _. apply dual_hash_text_ok, dumps_narrow.
Qed.

Lemma merkle_is_root (items : list pyval) :
  merkle items = Some (Ok (merkle_root items)).
Proof.
  destruct items as [|i items].
  - unfold merkle, merkle_root. now rewrite dual_hash_bytes.
  - unfold merkle. rewrite merkle_leaves. unfold merkle_root.
    apply merkle_loop_reduce.
    + discriminate.
    + apply Forall_map, Forall_forall. intros x _.
      apply dual_hash_text_narrow.
    + apply Nat.le_refl.
Qed.

End MerkleRefinement.

(** C3. [merkle] always returns, and what it returns is the root of the
    algorithm that the specification words ([merkle_root]): for no item,
    [dual_hash] of the five bytes [b"empty"]; otherwise the leaves
    [dual_hash] of each item's sorted-key JSON, reduced level by level,
    each pair of adjacent hashes combined as [dual_hash] of the two texts
    joined, the last hash of an odd level paired with itself, until one
    hash remains. The root of no item differs from the root of the single
    item [{}]. *)
Theorem merkle_refines_specification `{Runtime} (items : list pyval) :
  merkle items = Some (Ok (merkle_root items))
  /\ merkle [] = Some (dual_hash (OfBytes (blit "empty")))
  /\ blit "empty" <> []
  /\ (forall i,
        merkle [i] = Some (dual_hash (OfStr (dumps true i))))
  /\ (forall l r,
        merkle [l; r]
        = Some (dual_hash
                  (OfStr (dual_hash_text (dumps true l)
                          ++ dual_hash_text (dumps true r)))))
  /\ (forall a b c,
        merkle_root [a; b; c]
        = let leaf i := dual_hash_text (dumps true i) in
          dual_hash_text (dual_hash_text (leaf a ++ leaf b)
                          ++ dual_hash_text (leaf c ++ leaf c)))
  /\ merkle_root [] <> merkle_root [PDict []].
Proof.
  split; [apply merkle_is_root|].
  split; [reflexivity|]. split; [discriminate|].
  split.
  { intros i. rewrite merkle_is_root. unfold merkle_root.
    simp reduce.
    now rewrite (dual_hash_text_ok (dumps true i)) by apply dumps_narrow. }
  split.
  { intros l r. rewrite merkle_is_root. unfold merkle_root.
    cbn [map]. simp reduce. cbn [pairs map].
    simp reduce. unfold combine_pair. cbn [fst snd].
    rewrite dual_hash_text_ok; [reflexivity|].
    apply narrow_app; apply dual_hash_text_narrow. }
  split.
  { intros a b c. unfold merkle_root. cbn [map].
    simp reduce. cbn [pairs map].
    simp reduce. cbn [pairs map].
    simp reduce. reflexivity. }
  unfold merkle_root. cbn [map]. simp reduce.
  rewrite dual_hash_bytes. unfold dual_hash_text.
  change (dumps true (PDict [])) with (lit "{}").
  assert (E : encode (lit "{}") = Ok (blit "{}")) by reflexivity.
  rewrite (dual_hash_str _ _ E), dual_hash_bytes.
  intros C. apply (f_equal (fun s => hd 0%N s)) in C.
  vm_compute in C. discriminate C.
Qed.

(* ================================================================== *)
(** * Anomalies and stop rules                                         *)
(* ================================================================== *)

Section Anomalies.
Context `{Runtime}.

Lemma hash_mismatch_payload (expected actual : pystr) :
  dict_of [(lit "metric", PStr (lit "hash_mismatch"));
           (lit "expected", PStr expected);
           (lit "actual", PStr actual);
           (lit "delta", PInt (-1));
           (lit "action", PStr (lit "halt"));
           (lit "tenant_id", PStr TENANT_ID)]
  = [(lit "metric", PStr (lit "hash_mismatch"));
     (lit "expected", PStr expected);
     (lit "actual", PStr actual);
     (lit "delta", PInt (-1));
     (lit "action", PStr (lit "halt"));
     (lit "tenant_id", PStr TENANT_ID)].
Proof. reflexivity. Qed.

Lemma unverified_claim_payload (claim : pydict) :
  dict_of [(lit "metric", PStr (lit "unverified_claim"));
           (lit "claim", PDict claim);
           (lit "delta", PInt (-1));
           (lit "action", PStr (lit "escalate"));
           (lit "tenant_id", PStr TENANT_ID)]
  = [(lit "metric", PStr (lit "unverified_claim"));
     (lit "claim", PDict claim);
     (lit "delta", PInt (-1));
     (lit "action", PStr (lit "escalate"));
     (lit "tenant_id", PStr TENANT_ID)].
Proof. reflexivity. Qed.

Lemma anomaly_payload (metric : pystr) (baseline delta : pyval)
      (classification action : pystr) :
  dict_of [(lit "metric", PStr metric);
           (lit "baseline", baseline);
           (lit "delta", delta);
           (lit "classification", PStr classification);
           (lit "action", PStr action);
           (lit "tenant_id", PStr TENANT_ID)]
  = [(lit "metric", PStr metric);
     (lit "baseline", baseline);
     (lit "delta", delta);
     (lit "classification", PStr classification);
     (lit "action", PStr action);
     (lit "tenant_id", PStr TENANT_ID)].
Proof. reflexivity. Qed.

(** What the hash-mismatch stop does to the world, and how it ends. *)
Lemma stoprule_hash_mismatch_run (expected actual : pystr) (w : World) :
  exists receipt,
    stoprule_hash_mismatch expected actual w
    = (mkWorld (S (clock w)) (stdout w ++ [dumps false (PDict receipt)]),
       Raise (StopRule (lit "Hash mismatch: expected "
                        ++ firstn 16 expected ++ lit "..., got "
                        ++ firstn 16 actual ++ lit "...")))
    /\ lookup receipt (lit "receipt_type") = Some (PStr (lit "anomaly"))
    /\ lookup receipt (lit "metric") = Some (PStr (lit "hash_mismatch"))
    /\ lookup receipt (lit "expected") = Some (PStr expected)
    /\ lookup receipt (lit "actual") = Some (PStr actual)
    /\ lookup receipt (lit "delta") = Some (PInt (-1))
    /\ lookup receipt (lit "action") = Some (PStr (lit "halt")).
Proof.
  unfold stoprule_hash_mismatch. rewrite hash_mismatch_payload.
  match goal with
  | |- context [emit_receipt ?t ?d] =>
      destruct (emit_receipt_run t d w) as [_ Erun]
  end.
  eexists. unfold bind, raise. rewrite Erun.
  split; [reflexivity|].
  rewrite !lookup_dict_of_app by distinct_keys.
  repeat split.
Qed.

(** What the unverified-claim stop does to the world, and how it ends. *)
Lemma stoprule_unverified_claim_run (claim : pydict) (w : World) :
  exists receipt,
    stoprule_unverified_claim claim w
    = (mkWorld (S (clock w)) (stdout w ++ [dumps false (PDict receipt)]),
       Raise (StopRule
                (lit "Unverified claim: "
                 ++ str (get claim (lit "type") (PStr (lit "unknown"))))))
    /\ lookup receipt (lit "receipt_type") = Some (PStr (lit "anomaly"))
    /\ lookup receipt (lit "metric")
       = Some (PStr (lit "unverified_claim"))
    /\ lookup receipt (lit "claim") = Some (PDict claim)
    /\ lookup receipt (lit "delta") = Some (PInt (-1))
    /\ lookup receipt (lit "action") = Some (PStr (lit "escalate")).
Proof.
  unfold stoprule_unverified_claim. rewrite unverified_claim_payload.
  match goal with
  | |- context [emit_receipt ?t ?d] =>
      destruct (emit_receipt_run t d w) as [_ Erun]
  end.
  eexists. unfold bind, raise. rewrite Erun.
  split; [reflexivity|].
  rewrite !lookup_dict_of_app by distinct_keys.
  repeat split.
Qed.

(** What [emit_anomaly] returns: the caller's five arguments, as given. *)
Lemma emit_anomaly_run (metric : pystr) (baseline delta : pyval)
      (classification action : pystr) (w : World) :
  exists receipt,
    emit_anomaly metric baseline delta classification action w
    = (mkWorld (S (clock w)) (stdout w ++ [dumps false (PDict receipt)]),
       Ok receipt)
    /\ lookup receipt (lit "receipt_type") = Some (PStr (lit "anomaly"))
    /\ lookup receipt (lit "metric") = Some (PStr metric)
    /\ lookup receipt (lit "baseline") = Some baseline
    /\ lookup receipt (lit "delta") = Some delta
    /\ lookup receipt (lit "classification") = Some (PStr classification)
    /\ lookup receipt (lit "action") = Some (PStr action).
Proof.
  unfold emit_anomaly. rewrite anomaly_payload.
  match goal with
  | |- context [emit_receipt ?t ?d] =>
      destruct (emit_receipt_run t d w) as [_ Erun]
  end.
  eexists. rewrite Erun. split; [reflexivity|].
  rewrite !lookup_dict_of_app by distinct_keys.
  repeat split.
Qed.

(** The receipt of the hash-mismatch stop, key by key. *)
Lemma stoprule_hash_mismatch_keys (expected actual : pystr) (w : World) :
  exists receipt,
    stdout (fst (stoprule_hash_mismatch expected actual w))
    = stdout w ++ [dumps false (PDict receipt)]
    /\ lookup receipt (lit "receipt_type") = Some (PStr (lit "anomaly"))
    /\ keys receipt
       = map lit ["receipt_type"; "ts"; "tenant_id"; "payload_hash";
                  "metric"; "expected"; "actual"; "delta";
                  "action"]%string.
Proof.
  unfold stoprule_hash_mismatch. rewrite hash_mismatch_payload.
  match goal with
  | |- context [emit_receipt ?t ?d] =>
      destruct (emit_receipt_run t d w) as [_ Erun]
  end.
  eexists. unfold bind, raise. rewrite Erun. cbn [fst stdout].
  split; [reflexivity|]. split; reflexivity.
Qed.

(** The receipt of the unverified-claim stop, key by key. *)
Lemma stoprule_unverified_claim_keys (claim : pydict) (w : World) :
  exists receipt,
    stdout (fst (stoprule_unverified_claim claim w))
    = stdout w ++ [dumps false (PDict receipt)]
    /\ lookup receipt (lit "receipt_type") = Some (PStr (lit "anomaly"))
    /\ keys receipt
       = map lit ["receipt_type"; "ts"; "tenant_id"; "payload_hash";
                  "metric"; "claim"; "delta"; "action"]%string.
Proof.
  unfold stoprule_unverified_claim. rewrite unverified_claim_payload.
  match goal with
  | |- context [emit_receipt ?t ?d] =>
      destruct (emit_receipt_run t d w) as [_ Erun]
  end.
  eexists. unfold bind, raise. rewrite Erun. cbn [fst stdout].
  split; [reflexivity|]. split; reflexivity.
Qed.

(** A key that is not among the keys of a dict is not bound in it. *)
Lemma lookup_absent (d : pydict) (k : pystr) :
  str_in k (keys d) = false -> lookup d k = None.
Proof.
  induction d as [|[k0 v0] d IH]; simpl; [reflexivity|].
  destruct (str_eqb k k0); [discriminate | exact IH].
Qed.

End Anomalies.

(** C5. Each of the two stop functions first emits one receipt, of type
    [anomaly], that records the failure, with action ["halt"] for the
    hash mismatch and ["escalate"] for the unverified claim, and then
    raises [StopRule] with a message; it returns normally for no input and
    in no world. *)
Theorem stoprules_emit_then_raise `{Runtime} (w : World) :
  (forall expected actual,
     exists receipt message,
       stoprule_hash_mismatch expected actual w
       = (mkWorld (S (clock w))
                  (stdout w ++ [dumps false (PDict receipt)]),
          Raise (StopRule message))
       /\ message = lit "Hash mismatch: expected " ++ firstn 16 expected
                    ++ lit "..., got " ++ firstn 16 actual ++ lit "..."
       /\ lookup receipt (lit "receipt_type") = Some (PStr (lit "anomaly"))
       /\ lookup receipt (lit "metric") = Some (PStr (lit "hash_mismatch"))
       /\ lookup receipt (lit "expected") = Some (PStr expected)
       /\ lookup receipt (lit "actual") = Some (PStr actual)
       /\ lookup receipt (lit "action") = Some (PStr (lit "halt")))
  /\ (forall claim,
        exists receipt message,
          stoprule_unverified_claim claim w
          = (mkWorld (S (clock w))
                     (stdout w ++ [dumps false (PDict receipt)]),
             Raise (StopRule message))
          /\ message = lit "Unverified claim: "
                       ++ str (get claim (lit "type")
                                   (PStr (lit "unknown")))
          /\ lookup receipt (lit "receipt_type")
             = Some (PStr (lit "anomaly"))
          /\ lookup receipt (lit "metric")
             = Some (PStr (lit "unverified_claim"))
          /\ lookup receipt (lit "claim") = Some (PDict claim)
          /\ lookup receipt (lit "action")
             = Some (PStr (lit "escalate"))).
Proof.
  split.
  - intros expected actual.
    destruct (stoprule_hash_mismatch_run expected actual w)
      as (receipt & Erun & Ht & Hm & He & Ha & _ & Hact).
    exists receipt. eexists. split; [exact Erun|]. now repeat split.
  - intros claim.
    destruct (stoprule_unverified_claim_run claim w)
      as (receipt & Erun & Ht & Hm & Hc & _ & Hact).
    exists receipt. eexists. split; [exact Erun|]. now repeat split.
Qed.

(** C6. The claim does not hold of the two stop functions, and the code
    is at odds with itself. A receipt of [emit_anomaly], which its
    docstring calls "used by all stoprules", is of type [anomaly] and holds
    the five fields [metric], [baseline], [delta], [classification] and
    [action], with the caller's arguments. The two stop functions do not
    call it: each emits one receipt of type [anomaly] from a dict of its
    own, whose keys are listed here, and that receipt holds neither
    [baseline] nor [classification], whatever the arguments are; in
    particular for [stoprule_hash_mismatch("expected", "actual")]. *)
Theorem stoprule_anomalies_lack_fields `{Runtime} (w : World) :
  (forall expected actual,
     exists receipt,
       stdout (fst (stoprule_hash_mismatch expected actual w))
       = stdout w ++ [dumps false (PDict receipt)]
       /\ lookup receipt (lit "receipt_type") = Some (PStr (lit "anomaly"))
       /\ keys receipt
          = map lit ["receipt_type"; "ts"; "tenant_id"; "payload_hash";
                     "metric"; "expected"; "actual"; "delta";
                     "action"]%string
       /\ lookup receipt (lit "baseline") = None
       /\ lookup receipt (lit "classification") = None)
  /\ (forall claim,
        exists receipt,
          stdout (fst (stoprule_unverified_claim claim w))
          = stdout w ++ [dumps false (PDict receipt)]
          /\ lookup receipt (lit "receipt_type")
             = Some (PStr (lit "anomaly"))
          /\ keys receipt
             = map lit ["receipt_type"; "ts"; "tenant_id"; "payload_hash";
                        "metric"; "claim"; "delta"; "action"]%string
          /\ lookup receipt (lit "baseline") = None
          /\ lookup receipt (lit "classification") = None)
  /\ (forall metric baseline delta classification action,
        exists receipt,
          snd (emit_anomaly metric baseline delta classification action w)
          = Ok receipt
          /\ lookup receipt (lit "receipt_type")
             = Some (PStr (lit "anomaly"))
          /\ lookup receipt (lit "metric") = Some (PStr metric)
          /\ lookup receipt (lit "baseline") = Some baseline
          /\ lookup receipt (lit "delta") = Some delta
          /\ lookup receipt (lit "classification")
             = Some (PStr classification)
          /\ lookup receipt (lit "action") = Some (PStr action)).
Proof.
  split; [|split].
  - intros expected actual.
    destruct (stoprule_hash_mismatch_keys expected actual w)
      as (receipt & Eout & Ht & Hk).
    exists receipt. split; [exact Eout|]. split; [exact Ht|].
    split; [exact Hk|].
    split; apply lookup_absent; rewrite Hk; reflexivity.
  - intros claim.
    destruct (stoprule_unverified_claim_keys claim w)
      as (receipt & Eout & Ht & Hk).
    exists receipt. split; [exact Eout|]. split; [exact Ht|].
    split; [exact Hk|].
    split; apply lookup_absent; rewrite Hk; reflexivity.
  - intros metric baseline delta classification action.
    destruct (emit_anomaly_run metric baseline delta classification
                               action w)
      as (receipt & Erun & Hrest).
    exists receipt. rewrite Erun. split; [reflexivity | exact Hrest].
Qed.

(* ================================================================== *)
(** * The two domain tables                                            *)
(* ================================================================== *)

(** C7. The keyword tables of [loop/cycle.py] and [loop/cross_domain.py]
    disagree: on ["investment_record"], and on every receipt type that
    mentions ["investment"] and no other keyword of either table, the
    first answers ["gulf"] and the second ["unknown"]. The two functions
    are not extensionally equal. *)
Theorem infer_module_tables_disagree `{Runtime} :
  (Cycle.infer_module (lit "investment_record") = lit "gulf"
   /\ CrossDomain.infer_module (lit "investment_record") = lit "unknown")
  /\ (forall receipt_type,
        contains (lit "investment") (lower receipt_type) = true ->
        forallb (fun kw => negb (contains kw (lower receipt_type)))
                other_keywords = true ->
        Cycle.infer_module receipt_type = lit "gulf"
        /\ CrossDomain.infer_module receipt_type = lit "unknown")
  /\ ~ (forall receipt_type,
          Cycle.infer_module receipt_type
          = CrossDomain.infer_module receipt_type).
Proof.
  assert (E : Cycle.infer_module (lit "investment_record") = lit "gulf"
              /\ CrossDomain.infer_module (lit "investment_record")
                 = lit "unknown").
  { split; vm_compute; reflexivity. }
  split; [exact E|]. split.
  - intros rt Hinv Hnone.
    unfold other_keywords in Hnone. cbn [map forallb] in Hnone.
    repeat match type of Hnone with
           | (_ && _)%bool = true =>
               let F := fresh "F" in
               apply andb_true_iff in Hnone as [F Hnone];
               apply negb_true_iff in F
           end.
    unfold Cycle.infer_module, CrossDomain.infer_module.
    repeat match goal with
           | F : contains _ (lower rt) = _ |- _ => rewrite F; clear F
           end.
    split; reflexivity.
  - intros C. specialize (C (lit "investment_record")).
    destruct E as [E1 E2]. rewrite E1, E2 in C. discriminate C.
Qed.

(* ================================================================== *)
(** * aggregate_pif_exposure                                           *)
(* ================================================================== *)

Lemma ok_inj (A : Type) (a b : A) : Ok a = Ok b -> a = b.
Proof. now intros [= ->]. Qed.

Lemma bind_lift_ok (A B : Type) (r : result A) (a : A) (k : A -> M B)
      (w : World) :
  r = Ok a -> bind (lift r) k w = k a w.
Proof. intros ->. reflexivity. Qed.

Lemma bind_lift_raise (A B : Type) (r : result A) (e : exn)
      (k : A -> M B) (w : World) :
  r = Raise e -> bind (lift r) k w = (w, Raise e).
Proof. intros ->. reflexivity. Qed.

Section PifAggregate.
Context `{Runtime}.

Lemma pif_aggregate_payload (a b c d e f : pyval) :
  dict_of [(lit "tenant_id", a);
           (lit "by_domain", b);
           (lit "domain_count", c);
           (lit "total_direct_investment", d);
           (lit "total_exposure", e);
           (lit "cross_domain_verified", f)]
  = [(lit "tenant_id", a);
     (lit "by_domain", b);
     (lit "domain_count", c);
     (lit "total_direct_investment", d);
     (lit "total_exposure", e);
     (lit "cross_domain_verified", f)].
Proof. reflexivity. Qed.

(** The four domains of the table, each with an exposure. *)
Lemma pif_domains_exposed :
  exists domains,
    map_r PifTracker.as_dict (map snd PifTracker.by_domain) = Ok domains
    /\ List.length domains = 4%nat
    /\ keys PifTracker.by_domain
       = [lit "gulf"; lit "golf"; lit "license"; lit "tariff"]
    /\ Forall (fun d => PifTracker.has_exposure d = Ok true) domains
    /\ for_each domains
         (fun acc d =>
            add acc (get d (lit "direct_investment") (PInt 0)))
         (PInt 0)
       = Ok (PInt 6580000000)
    /\ for_each domains
         (fun acc d =>
            e <-- PifTracker.has_exposure d ;;
            Ok (if e then acc ++ [d] else acc))%py
         []
       = Ok domains.
Proof.
  eexists. split; [vm_compute; reflexivity|].
  split; [reflexivity|]. split; [reflexivity|].
  split; [repeat constructor|].
  split; vm_compute; reflexivity.
Qed.

End PifAggregate.

(** C9. [aggregate_pif_exposure] takes no input; in every world it
    returns a receipt computed from the fixed table of the four domains
    gulf, golf, license and tariff, with [domain_count] 4, hence at least
    4, and [cross_domain_verified] true. *)
Theorem aggregate_pif_exposure_invariant `{Runtime} (w : World) :
  exists receipt n,
    PifTracker.aggregate_pif_exposure w
    = (mkWorld (S (clock w)) (stdout w ++ [dumps false (PDict receipt)]),
       Ok receipt)
    /\ keys PifTracker.by_domain
       = [lit "gulf"; lit "golf"; lit "license"; lit "tariff"]
    /\ lookup receipt (lit "receipt_type")
       = Some (PStr (lit "pif_aggregate"))
    /\ lookup receipt (lit "domain_count") = Some (PInt n)
    /\ (4 <= n)%Z
    /\ lookup receipt (lit "cross_domain_verified") = Some (PBool true).
Proof.
  destruct pif_domains_exposed as (ds & E1 & Hlen & Hk & _ & E2 & E3).
  unfold PifTracker.aggregate_pif_exposure.
  rewrite (bind_lift_ok _ _ _ _ _ w E1).
  rewrite (bind_lift_ok _ _ _ _ _ w E2).
  rewrite (bind_lift_ok _ _ _ _ _ w E3).
  rewrite Hlen, pif_aggregate_payload.
  match goal with
  | |- context [emit_receipt ?t ?d] =>
      destruct (emit_receipt_run t d w) as [_ Erun]
  end.
  eexists. exists 4%Z. rewrite Erun. split; [reflexivity|].
  split; [exact Hk|].
  rewrite !lookup_dict_of_app by distinct_keys.
  repeat split. discriminate.
Qed.

(* ================================================================== *)
(** * run_cycle                                                        *)
(* ================================================================== *)

Lemma for_each_ok (A S : Type) (body : S -> A -> result S) (xs : list A) :
  (forall acc x, In x xs -> exists acc', body acc x = Ok acc') ->
  forall acc, exists res, for_each xs body acc = Ok res.
Proof.
  induction xs as [|x xs IH]; intros Hbody acc; simpl; [eauto|].
  destruct (Hbody acc x (or_introl eq_refl)) as [acc' ->]. simpl.
  apply IH. intros a y Hy. apply Hbody. now right.
Qed.

Section RunCycle.
Context `{Runtime}.

Lemma typed_receipt_as_str (r : pydict) :
  typed_receipt r = true ->
  exists s,
    Cycle.as_str (get r (lit "receipt_type") (PStr (lit "unknown")))
    = Ok s.
Proof.
  unfold typed_receipt, get.
  destruct (lookup r (lit "receipt_type")) as [[]|];
    try discriminate; simpl; eauto.
Qed.

(** [sense] returns on receipts whose type, when present, is a text. *)
Lemma sense_ok (rs : list pydict) :
  forallb typed_receipt rs = true -> exists st, Cycle.sense rs = Ok st.
Proof.
  intros Hrs. unfold Cycle.sense. apply for_each_ok.
  intros st r Hr. rewrite forallb_forall in Hrs.
  destruct (typed_receipt_as_str r (Hrs r Hr)) as [s Es].
  unfold Cycle.sense_step. rewrite Es. simpl. eauto.
Qed.

Lemma cycle_payload (a b c d e f g h i : pyval) :
  dict_of [(lit "tenant_id", a);
           (lit "cycle_id", b);
           (lit "receipts_processed", c);
           (lit "modules_active", d);
           (lit "anomalies_detected", e);
           (lit "priority_violations", f);
           (lit "cycle_time_ms", g);
           (lit "target_cycle_seconds", h);
           (lit "within_target", i)]
  = [(lit "tenant_id", a);
     (lit "cycle_id", b);
     (lit "receipts_processed", c);
     (lit "modules_active", d);
     (lit "anomalies_detected", e);
     (lit "priority_violations", f);
     (lit "cycle_time_ms", g);
     (lit "target_cycle_seconds", h);
     (lit "within_target", i)].
Proof. reflexivity. Qed.

(** [emit_cycle_receipt] returns, with the count it was handed. *)
Lemma emit_cycle_receipt_run (cycle_id : pystr) (m : Cycle.metrics)
      (w : World) :
  exists receipt,
    Cycle.emit_cycle_receipt cycle_id m w
    = (mkWorld (S (clock w)) (stdout w ++ [dumps false (PDict receipt)]),
       Ok receipt)
    /\ lookup receipt (lit "receipt_type") = Some (PStr (lit "loop_cycle"))
    /\ lookup receipt (lit "cycle_id") = Some (PStr cycle_id)
    /\ lookup receipt (lit "receipts_processed")
       = Some (PInt (Cycle.receipts_processed m)).
Proof.
  unfold Cycle.emit_cycle_receipt. rewrite cycle_payload.
  match goal with
  | |- context [emit_receipt ?t ?d] =>
      destruct (emit_receipt_run t d w) as [_ Erun]
  end.
  eexists. rewrite Erun. split; [reflexivity|].
  rewrite !lookup_dict_of_app by distinct_keys.
  repeat split.
Qed.

(** The identifier that [run_cycle] makes up when it is given none. *)
Lemma cycle_id_ok (t : spec_float) :
  exists h, dual_hash (OfStr (str (PFloat t))) = Ok h.
Proof.
  eexists. apply dual_hash_text_ok. apply narrow_float_str.
Qed.

Lemma run_cycle_receipts (receipts : option (list pydict)) :
  match receipts with
  | Some ((_ :: _) as l) => l
  | _ => []
  end = passed receipts.
Proof. now destruct receipts as [[|r rs]|]. Qed.

Lemma run_cycle_run (receipts : option (list pydict))
      (cycle_id : option pystr) (w : World) (st : Cycle.state) :
  Cycle.sense (passed receipts) = Ok st ->
  exists receipt w',
    Cycle.run_cycle receipts cycle_id w = (w', Ok receipt)
    /\ stdout w' = stdout w ++ [dumps false (PDict receipt)]
    /\ lookup receipt (lit "receipt_type") = Some (PStr (lit "loop_cycle"))
    /\ lookup receipt (lit "receipts_processed")
       = Some (PInt (Z.of_nat (List.length (passed receipts)))).
Proof.
  intros Est.
  unfold Cycle.run_cycle. rewrite run_cycle_receipts.
  destruct cycle_id as [[|c cid]|];
    unfold bind, ret, read_clock, lift; cbn [clock stdout];
    try (destruct (cycle_id_ok (time_time (clock w))) as [h ->]);
    rewrite Est;
    match goal with
    | |- context [Cycle.emit_cycle_receipt ?c ?m ?w'] =>
        destruct (emit_cycle_receipt_run c m w')
          as (receipt & Erun & Ht & _ & Hn)
    end;
    rewrite Erun; exists receipt; eexists;
    (split; [reflexivity|]); cbn [stdout Cycle.receipts_processed] in *;
    auto.
Qed.

Lemma run_cycle_sense_raises (receipts : option (list pydict))
      (cycle_id : option pystr) (w : World) (e : exn) :
  Cycle.sense (passed receipts) = Raise e ->
  snd (Cycle.run_cycle receipts cycle_id w) = Raise e.
Proof.
  intros Est.
  unfold Cycle.run_cycle. rewrite run_cycle_receipts.
  destruct cycle_id as [[|c cid]|];
    unfold bind, ret, read_clock, lift; cbn [clock stdout];
    try (destruct (cycle_id_ok (time_time (clock w))) as [h ->]);
    rewrite Est; reflexivity.
Qed.

End RunCycle.

(** C4, as the code has it. On every list of receipts in which each
    [receipt_type], where present, is a text, [run_cycle] returns
    normally, whatever else the receipts hold or lack, and whether or not
    it is given a cycle identifier: it emits one cycle receipt and returns
    it, with [receipts_processed] the length of the list, which is 0 for
    the empty list and when no list is passed. *)
Theorem run_cycle_returns `{Runtime}
        (receipts : option (list pydict)) (cycle_id : option pystr)
        (w : World) :
  forallb typed_receipt (passed receipts) = true ->
  exists receipt w',
    Cycle.run_cycle receipts cycle_id w = (w', Ok receipt)
    /\ stdout w' = stdout w ++ [dumps false (PDict receipt)]
    /\ lookup receipt (lit "receipt_type") = Some (PStr (lit "loop_cycle"))
    /\ lookup receipt (lit "receipts_processed")
       = Some (PInt (Z.of_nat (List.length (passed receipts)))).
Proof.
  intros Hrs. destruct (sense_ok _ Hrs) as [st Est].
  now apply run_cycle_run with (st := st).
Qed.

(** C4 at the empty list: [run_cycle([])] returns a cycle receipt that
    reports no receipt processed. *)
Lemma run_cycle_returns_witness :
  exists receipt w',
    @Cycle.run_cycle plain_runtime (Some []) None world0 = (w', Ok receipt)
    /\ stdout w' = [@dumps plain_runtime false (PDict receipt)]
    /\ lookup receipt (lit "receipt_type") = Some (PStr (lit "loop_cycle"))
    /\ lookup receipt (lit "receipts_processed") = Some (PInt 0).
Proof.
  apply (@run_cycle_returns plain_runtime (Some []) None world0).
  reflexivity.
Defined.

(** C4 as stated fails: a receipt whose [receipt_type] is present and is
    not a text, such as [{"receipt_type": None}], makes [sense] call
    [lower] on a value that has no such method, and [run_cycle] raises
    [AttributeError]. *)
Lemma run_cycle_raises_on_untyped_receipt :
  exists rs : list pydict,
    rs = [[(lit "receipt_type", PNone)]]
    /\ forall (R : Runtime) (cycle_id : option pystr) (w : World),
         snd (@Cycle.run_cycle R (Some rs) cycle_id w)
         = Raise AttributeError.
Proof.
  eexists. split; [reflexivity|]. intros R cycle_id w.
  now apply run_cycle_sense_raises.
Qed.

(* ================================================================== *)
(** * trace_money_flow                                                 *)
(* ================================================================== *)

Lemma for_each_app (A S : Type) (body : S -> A -> result S)
      (xs ys : list A) (acc : S) :
  for_each (xs ++ ys) body acc
  = rbind (for_each xs body acc) (for_each ys body).
Proof.
  revert acc. induction xs as [|x xs IH]; intros acc; simpl;
    [reflexivity|].
  destruct (body acc x); simpl; [apply IH | reflexivity].
Qed.

Lemma starts_with_refl (s : pystr) : starts_with s s = true.
Proof.
  induction s as [|c s IH]; simpl; [reflexivity|].
  now rewrite N.eqb_refl.
Qed.

(** A text occurs in itself. *)
Lemma contains_refl (s : pystr) : contains s s = true.
Proof.
  destruct s; simpl; [reflexivity|].
  now rewrite N.eqb_refl, starts_with_refl.
Qed.

Section MoneyFlow.
Context `{Runtime}.

(** A receipt that does not name the entity leaves the trace as it is. *)
Lemma trace_step_skip (entity : pystr) (t : CrossDomain.trace)
      (r : pydict) :
  str_in entity (CrossDomain.extract_entities r) = false ->
  CrossDomain.trace_step entity t r = Ok t.
Proof. intros E. unfold CrossDomain.trace_step. now rewrite E. Qed.

Lemma trace_skip_all (entity : pystr) (rs : list pydict)
      (t : CrossDomain.trace) :
  forallb (fun r => negb (str_in entity (CrossDomain.extract_entities r)))
          rs = true ->
  for_each rs (CrossDomain.trace_step entity) t = Ok t.
Proof.
  induction rs as [|r rs IH]; simpl; intros Hrs; [reflexivity|].
  apply andb_true_iff in Hrs as [Hr Hrs]. apply negb_true_iff in Hr.
  rewrite trace_step_skip by assumption. simpl. now apply IH.
Qed.

(** The flow that one receipt adds to the trace of an entity it names,
    when the amount is a positive [int] and the totals are [int]s. *)
Lemma trace_step_flow (entity : pystr) (fl : list pydict) (i o a : Z)
      (r : pydict) :
  str_in entity (CrossDomain.extract_entities r) = true ->
  CrossDomain.flow_amount r = PInt a ->
  (0 < a)%Z ->
  typed_receipt r = true ->
  exists flow,
    CrossDomain.trace_step entity (CrossDomain.Trace fl (PInt i) (PInt o)) r
    = Ok (if contains entity
               (lower (str (get r (lit "recipient_name") (PStr (lit "")))))
          then CrossDomain.Trace (fl ++ [flow]) (PInt (i + a)) (PInt o)
          else CrossDomain.Trace (fl ++ [flow]) (PInt i) (PInt (o + a)))
    /\ lookup flow (lit "amount") = Some (PInt a)
    /\ lookup flow (lit "direction")
       = Some (PStr (if contains entity
                          (lower (str (get r (lit "recipient_name")
                                           (PStr (lit "")))))
                     then lit "inflow" else lit "outflow")).
Proof.
  intros Hin Ha Hpos Hty.
  unfold CrossDomain.trace_step. rewrite Hin, Ha. cbn [negb gt_zero rbind].
  apply Z.ltb_lt in Hpos. rewrite Hpos.
  assert (Es : exists s,
             Cycle.as_str (get r (lit "receipt_type") (PStr (lit "")))
             = Ok s).
  { unfold typed_receipt in Hty. unfold get.
    destruct (lookup r (lit "receipt_type")) as [[]|];
      try discriminate; simpl; eauto. }
  destruct Es as [s ->]. cbn [rbind].
  unfold CrossDomain.determine_flow_direction.
  destruct (contains entity
              (lower (str (get r (lit "recipient_name") (PStr (lit ""))))));
    eexists; (split; [reflexivity|]); split; reflexivity.
Qed.

(** The amount of a flow: the first non-zero of the four amount-like
    fields, in their order, when those present hold numbers. *)
Lemma flow_amount_first_nonzero (r : pydict) :
  forallb numeric (amounts r) = true ->
  CrossDomain.flow_amount r = first_nonzero (amounts r).
Proof.
  assert (G : forall v, numeric v = true -> truthy v = nonzero v).
  { intros [| | | [] | | |]; try discriminate; reflexivity. }
  unfold amounts, amount_fields. cbn [map forallb first_nonzero].
  intros Hn.
  repeat match type of Hn with
         | (_ && _)%bool = true =>
             let F := fresh "F" in
             apply andb_true_iff in Hn as [F Hn]; apply G in F
         end.
  unfold CrossDomain.flow_amount, por.
  rewrite F, F0, F1, F2. cbn [truthy Z.eqb negb].
  repeat match goal with
         | |- context [if ?b then _ else _] => destruct b
         end; reflexivity.
Qed.

Lemma money_flow_payload (a b c d e f g : pyval) :
  dict_of [(lit "tenant_id", a);
           (lit "entity_id", b);
           (lit "total_inflow", c);
           (lit "total_outflow", d);
           (lit "net_flow", e);
           (lit "flow_count", f);
           (lit "flows", g)]
  = [(lit "tenant_id", a);
     (lit "entity_id", b);
     (lit "total_inflow", c);
     (lit "total_outflow", d);
     (lit "net_flow", e);
     (lit "flow_count", f);
     (lit "flows", g)].
Proof. reflexivity. Qed.

(** [trace_money_flow] once its loop has ended with [int] totals. *)
Lemma trace_money_flow_run (entity_id : pystr) (rs : list pydict)
      (fl : list pydict) (i o : Z) (w : World) :
  for_each rs (CrossDomain.trace_step (lower entity_id))
           (CrossDomain.Trace [] (PInt 0) (PInt 0))
  = Ok (CrossDomain.Trace fl (PInt i) (PInt o)) ->
  exists receipt,
    CrossDomain.trace_money_flow entity_id rs w
    = (mkWorld (S (clock w)) (stdout w ++ [dumps false (PDict receipt)]),
       Ok receipt)
    /\ lookup receipt (lit "receipt_type") = Some (PStr (lit "money_flow"))
    /\ lookup receipt (lit "total_inflow") = Some (PInt i)
    /\ lookup receipt (lit "total_outflow") = Some (PInt o)
    /\ lookup receipt (lit "net_flow") = Some (PInt (i - o))
    /\ lookup receipt (lit "flows") = Some (PList (map PDict fl)).
Proof.
  intros Eloop. unfold CrossDomain.trace_money_flow.
  rewrite (bind_lift_ok _ _ _ _ _ w Eloop).
  cbn [CrossDomain.total_inflow CrossDomain.total_outflow
       CrossDomain.flows].
  rewrite (bind_lift_ok _ _ _ (PInt (i - o)) _ w) by reflexivity.
  rewrite money_flow_payload.
  match goal with
  | |- context [emit_receipt ?t ?d] =>
      destruct (emit_receipt_run t d w) as [_ Erun]
  end.
  eexists. rewrite Erun. split; [reflexivity|].
  rewrite !lookup_dict_of_app by distinct_keys.
  repeat split.
Qed.

(** The flow that one receipt adds to the trace of an entity it names,
    whatever the totals are so far. *)
Lemma trace_step_booked (entity : pystr) (t : CrossDomain.trace)
      (r : pydict) :
  str_in entity (CrossDomain.extract_entities r) = true ->
  gt_zero (CrossDomain.flow_amount r) = Ok true ->
  typed_receipt r = true ->
  exists flow,
    lookup flow (lit "amount") = Some (CrossDomain.flow_amount r)
    /\ lookup flow (lit "direction")
       = Some (PStr (CrossDomain.determine_flow_direction r entity))
    /\ CrossDomain.trace_step entity t r
       = if str_eqb (CrossDomain.determine_flow_direction r entity)
                    (lit "inflow")
         then rbind (add (CrossDomain.total_inflow t)
                         (CrossDomain.flow_amount r))
                    (fun total =>
                       Ok (CrossDomain.Trace (CrossDomain.flows t ++ [flow])
                             total (CrossDomain.total_outflow t)))
         else rbind (add (CrossDomain.total_outflow t)
                         (CrossDomain.flow_amount r))
                    (fun total =>
                       Ok (CrossDomain.Trace (CrossDomain.flows t ++ [flow])
                             (CrossDomain.total_inflow t) total)).
Proof.
  intros Hin Hpos Hty.
  unfold CrossDomain.trace_step. rewrite Hin, Hpos. cbn [negb rbind].
  assert (Es : exists s,
             Cycle.as_str (get r (lit "receipt_type") (PStr (lit "")))
             = Ok s).
  { unfold typed_receipt in Hty. unfold get.
    destruct (lookup r (lit "receipt_type")) as [[]|];
      try discriminate; simpl; eauto. }
  destruct Es as [s ->]. cbn [rbind].
  eexists. split; [|split; [|reflexivity]]; reflexivity.
Qed.

(** [trace_money_flow] once its loop has ended and the totals have been
    subtracted. *)
Lemma trace_money_flow_ends (entity_id : pystr) (rs : list pydict)
      (t : CrossDomain.trace) (net : pyval) (w : World) :
  for_each rs (CrossDomain.trace_step (lower entity_id))
           (CrossDomain.Trace [] (PInt 0) (PInt 0)) = Ok t ->
  sub (CrossDomain.total_inflow t) (CrossDomain.total_outflow t) = Ok net ->
  exists receipt,
    snd (CrossDomain.trace_money_flow entity_id rs w) = Ok receipt
    /\ lookup receipt (lit "total_inflow")
       = Some (CrossDomain.total_inflow t)
    /\ lookup receipt (lit "total_outflow")
       = Some (CrossDomain.total_outflow t)
    /\ lookup receipt (lit "flows")
       = Some (PList (map PDict (CrossDomain.flows t))).
Proof.
  intros Eloop Enet. unfold CrossDomain.trace_money_flow.
  rewrite (bind_lift_ok _ _ _ _ _ w Eloop).
  rewrite (bind_lift_ok _ _ _ _ _ w Enet).
  rewrite money_flow_payload.
  match goal with
  | |- context [emit_receipt ?ty ?d] =>
      destruct (emit_receipt_run ty d w) as [_ Erun]
  end.
  eexists. rewrite Erun. split; [reflexivity|].
  rewrite !lookup_dict_of_app by distinct_keys.
  repeat split.
Qed.

(** A receipt names the recipient it holds. *)
Lemma recipient_is_entity (r : pydict) (name : pystr) :
  lookup r (lit "recipient_name") = Some (PStr name) ->
  name <> [] ->
  str_in (lower name) (CrossDomain.extract_entities r) = true.
Proof.
  intros Hr Hne. unfold str_in. apply existsb_exists.
  exists (lower name). split; [|apply str_eqb_refl].
  unfold CrossDomain.extract_entities. apply in_flat_map.
  exists (lit "recipient_name"). split.
  - unfold CrossDomain.entity_fields. cbn [map]. do 8 right. now left.
  - rewrite Hr. destruct name; [contradiction|]. now left.
Qed.

End MoneyFlow.

Section FlowTotals.
Context `{Runtime}.

Lemma add_int_cases (i : Z) (amount total : pyval) :
  add (PInt i) amount = Ok total ->
  (exists a, total = PInt (i + a)
             /\ forall j, add (PInt j) amount = Ok (PInt (j + a)))
  \/ is_float total = true.
Proof.
  unfold add, arith.
  destruct amount as [| b | n | f | | |]; simpl; try discriminate.
  - intros [= <-]. left. exists (Z.b2z b). now split.
  - intros [= <-]. left. exists n. now split.
  - destruct (float_of_int i); simpl; [|discriminate].
    intros [= <-]. now right.
Qed.

Lemma add_float_stays (f : spec_float) (amount total : pyval) :
  add (PFloat f) amount = Ok total -> is_float total = true.
Proof.
  unfold add, arith.
  destruct amount as [| b | n | g | | |]; simpl; try discriminate.
  - destruct (float_of_int (Z.b2z b)); simpl; [|discriminate].
    now intros [= <-].
  - destruct (float_of_int n); simpl; [|discriminate]. now intros [= <-].
  - now intros [= <-].
Qed.

(** One receipt changes a trace in one of three ways. *)
Lemma trace_step_cases (entity : pystr) (t t' : CrossDomain.trace)
      (r : pydict) :
  CrossDomain.trace_step entity t r = Ok t' ->
  (t' = t /\ forall u, CrossDomain.trace_step entity u r = Ok u)
  \/ (exists flow total,
        add (CrossDomain.total_inflow t) (CrossDomain.flow_amount r)
        = Ok total
        /\ t' = CrossDomain.Trace (CrossDomain.flows t ++ [flow]) total
                                  (CrossDomain.total_outflow t)
        /\ forall u total',
             add (CrossDomain.total_inflow u) (CrossDomain.flow_amount r)
             = Ok total' ->
             CrossDomain.trace_step entity u r
             = Ok (CrossDomain.Trace (CrossDomain.flows u ++ [flow]) total'
                                     (CrossDomain.total_outflow u)))
  \/ (exists flow total,
        add (CrossDomain.total_outflow t) (CrossDomain.flow_amount r)
        = Ok total
        /\ t' = CrossDomain.Trace (CrossDomain.flows t ++ [flow])
                                  (CrossDomain.total_inflow t) total
        /\ forall u total',
             add (CrossDomain.total_outflow u) (CrossDomain.flow_amount r)
             = Ok total' ->
             CrossDomain.trace_step entity u r
             = Ok (CrossDomain.Trace (CrossDomain.flows u ++ [flow])
                                     (CrossDomain.total_inflow u) total')).
Proof.
  unfold CrossDomain.trace_step.
  destruct (negb (str_in entity (CrossDomain.extract_entities r)));
    [intros [= <-]; now left|].
  destruct (gt_zero (CrossDomain.flow_amount r)) as [[|]|];
    cbn [rbind]; [| intros [= <-]; now left | discriminate].
  destruct (Cycle.as_str (get r (lit "receipt_type") (PStr (lit ""))))
    as [s|]; cbn [rbind]; [|discriminate].
  destruct (str_eqb (CrossDomain.determine_flow_direction r entity)
                    (lit "inflow")).
  - destruct (add (CrossDomain.total_inflow t) (CrossDomain.flow_amount r))
      as [total|] eqn:E; cbn [rbind]; [|discriminate].
    intros [= <-]. right. left. eexists _, total.
    split; [reflexivity|]. split; [reflexivity|].
    intros u total' Eu. now rewrite Eu.
  - destruct (add (CrossDomain.total_outflow t)
                  (CrossDomain.flow_amount r))
      as [total|] eqn:E; cbn [rbind]; [|discriminate].
    intros [= <-]. right. right. eexists _, total.
    split; [reflexivity|]. split; [reflexivity|].
    intros u total' Eu. now rewrite Eu.
Qed.

(** A total that is a [float] stays one, and the flows only grow. *)
Lemma trace_floats_persist (entity : pystr) (rs : list pydict) :
  forall t t',
    for_each rs (CrossDomain.trace_step entity) t = Ok t' ->
    (is_float (CrossDomain.total_inflow t) = true ->
     is_float (CrossDomain.total_inflow t') = true)
    /\ (is_float (CrossDomain.total_outflow t) = true ->
        is_float (CrossDomain.total_outflow t') = true)
    /\ exists added, CrossDomain.flows t' = CrossDomain.flows t ++ added.
Proof.
  induction rs as [|r rs IH]; intros t t'; simpl.
  - intros [= <-]. repeat split; auto. exists []. now rewrite app_nil_r.
  - destruct (CrossDomain.trace_step entity t r) as [t1|] eqn:E1;
      simpl; [|discriminate].
    intros E. destruct (IH _ _ E) as (Hi & Ho & added & Hf).
    destruct (trace_step_cases _ _ _ _ E1)
      as [[-> _] | [(flow & total & Ea & -> & _)
               | (flow & total & Ea & -> & _)]];
      cbn [CrossDomain.total_inflow CrossDomain.total_outflow
           CrossDomain.flows] in *.
    + repeat split; auto. now exists added.
    + repeat split; auto.
      * intros Hfl. apply Hi.
        destruct (CrossDomain.total_inflow t); try discriminate.
        now apply add_float_stays in Ea.
      * exists ([flow] ++ added). now rewrite Hf, app_assoc.
    + repeat split; auto.
      * intros Hfl. apply Ho.
        destruct (CrossDomain.total_outflow t); try discriminate.
        now apply add_float_stays in Ea.
      * exists ([flow] ++ added). now rewrite Hf, app_assoc.
Qed.

(** A trace that ends in [int] totals is a trace of [int] totals; started
    with [k] more in the inflow total, it ends with [k] more. *)
Lemma trace_shift_inflow (entity : pystr) (rs : list pydict) (k : Z) :
  forall fl i o fl' i' o' g,
    for_each rs (CrossDomain.trace_step entity)
             (CrossDomain.Trace fl (PInt i) (PInt o))
    = Ok (CrossDomain.Trace fl' (PInt i') (PInt o')) ->
    exists g',
      for_each rs (CrossDomain.trace_step entity)
               (CrossDomain.Trace g (PInt (i + k)) (PInt o))
      = Ok (CrossDomain.Trace (g ++ g') (PInt (i' + k)) (PInt o')).
Proof.
  induction rs as [|r rs IH]; intros fl i o fl' i' o' g; simpl.
  - intros [= <- <- <-]. exists []. now rewrite app_nil_r.
  - destruct (CrossDomain.trace_step entity
                (CrossDomain.Trace fl (PInt i) (PInt o)) r)
      as [t1|] eqn:E1; simpl; [|discriminate].
    intros E.
    destruct (trace_floats_persist _ _ _ _ E) as (Hi & Ho & _).
    cbn [CrossDomain.total_inflow CrossDomain.total_outflow] in Hi, Ho.
    destruct (trace_step_cases _ _ _ _ E1)
      as [[-> Hskip] | [(flow & total & Ea & -> & Hu)
                       | (flow & total & Ea & -> & Hu)]];
      cbn [CrossDomain.total_inflow CrossDomain.total_outflow
           CrossDomain.flows] in *.
    + rewrite Hskip. cbn [rbind]. apply (IH _ _ _ _ _ _ g E).
    + destruct (add_int_cases _ _ _ Ea) as [(a & -> & Hj) | Hfl].
      * rewrite (Hu (CrossDomain.Trace g (PInt (i + k)) (PInt o))
                    (PInt (i + k + a))) by apply Hj.
        cbn [rbind CrossDomain.flows CrossDomain.total_outflow].
        destruct (IH _ _ _ _ _ _ (g ++ [flow]) E) as [g' Eg].
        exists ([flow] ++ g').
        replace (i + k + a)%Z with (i + a + k)%Z by lia.
        now rewrite app_assoc.
      * apply Hi in Hfl. discriminate Hfl.
    + destruct (add_int_cases _ _ _ Ea) as [(a & -> & Hj) | Hfl].
      * rewrite (Hu (CrossDomain.Trace g (PInt (i + k)) (PInt o))
                    (PInt (o + a))) by apply Hj.
        cbn [rbind CrossDomain.flows CrossDomain.total_inflow].
        destruct (IH _ _ _ _ _ _ (g ++ [flow]) E) as [g' Eg].
        exists ([flow] ++ g'). now rewrite app_assoc.
      * apply Ho in Hfl. discriminate Hfl.
Qed.

(** From [int] totals, the totals of a trace are [int]s or [float]s. *)
Lemma trace_totals_numeric (entity : pystr) (rs : list pydict) :
  forall t t',
    for_each rs (CrossDomain.trace_step entity) t = Ok t' ->
    ((exists n, CrossDomain.total_inflow t = PInt n)
     \/ is_float (CrossDomain.total_inflow t) = true) ->
    ((exists n, CrossDomain.total_outflow t = PInt n)
     \/ is_float (CrossDomain.total_outflow t) = true) ->
    ((exists n, CrossDomain.total_inflow t' = PInt n)
     \/ is_float (CrossDomain.total_inflow t') = true)
    /\ ((exists n, CrossDomain.total_outflow t' = PInt n)
        \/ is_float (CrossDomain.total_outflow t') = true).
Proof.
  assert (G : forall a amount total,
             ((exists n, a = PInt n) \/ is_float a = true) ->
             add a amount = Ok total ->
             (exists n, total = PInt n) \/ is_float total = true).
  { intros a amount total [[n ->] | Hf] Ea.
    - destruct (add_int_cases _ _ _ Ea) as [(x & -> & _) | Hfl]; eauto.
    - destruct a; try discriminate. right.
      now apply add_float_stays in Ea. }
  induction rs as [|r rs IH]; intros t t'; simpl.
  - intros [= <-]. auto.
  - destruct (CrossDomain.trace_step entity t r) as [t1|] eqn:E1;
      simpl; [|discriminate].
    intros E Hi Ho. apply (IH _ _ E);
      destruct (trace_step_cases _ _ _ _ E1)
        as [[-> _] | [(flow & total & Ea & -> & _)
                     | (flow & total & Ea & -> & _)]];
      cbn [CrossDomain.total_inflow CrossDomain.total_outflow]; eauto.
Qed.

(** A trace that ends in [int] totals, cut in two. *)
Lemma trace_split (entity : pystr) (before after : list pydict)
      (fl : list pydict) (i o : Z) :
  for_each (before ++ after) (CrossDomain.trace_step entity)
           (CrossDomain.Trace [] (PInt 0) (PInt 0))
  = Ok (CrossDomain.Trace fl (PInt i) (PInt o)) ->
  exists fb ib ob,
    for_each before (CrossDomain.trace_step entity)
             (CrossDomain.Trace [] (PInt 0) (PInt 0))
    = Ok (CrossDomain.Trace fb (PInt ib) (PInt ob))
    /\ for_each after (CrossDomain.trace_step entity)
                (CrossDomain.Trace fb (PInt ib) (PInt ob))
       = Ok (CrossDomain.Trace fl (PInt i) (PInt o)).
Proof.
  rewrite for_each_app.
  destruct (for_each before (CrossDomain.trace_step entity)
                     (CrossDomain.Trace [] (PInt 0) (PInt 0)))
    as [[fb a b]|] eqn:Eb; cbn [rbind]; [|discriminate].
  intros Ea.
  destruct (trace_totals_numeric _ _ _ _ Eb) as [Hi Ho];
    cbn [CrossDomain.total_inflow CrossDomain.total_outflow] in *;
    eauto.
  destruct (trace_floats_persist _ _ _ _ Ea) as (Pi & Po & _).
  cbn [CrossDomain.total_inflow CrossDomain.total_outflow] in *.
  destruct Hi as [[ib ->] | Hi]; [|apply Pi in Hi; discriminate Hi].
  destruct Ho as [[ob ->] | Ho]; [|apply Po in Ho; discriminate Ho].
  now exists fb, ib, ob.
Qed.

(** What [trace_money_flow] returned tells how its loop ended. *)
Lemma trace_money_flow_totals (entity_id : pystr) (rs : list pydict)
      (w : World) (receipt : pydict) :
  snd (CrossDomain.trace_money_flow entity_id rs w) = Ok receipt ->
  exists t,
    for_each rs (CrossDomain.trace_step (lower entity_id))
             (CrossDomain.Trace [] (PInt 0) (PInt 0)) = Ok t
    /\ lookup receipt (lit "total_inflow")
       = Some (CrossDomain.total_inflow t)
    /\ lookup receipt (lit "total_outflow")
       = Some (CrossDomain.total_outflow t).
Proof.
  unfold CrossDomain.trace_money_flow.
  destruct (for_each rs (CrossDomain.trace_step (lower entity_id))
                     (CrossDomain.Trace [] (PInt 0) (PInt 0)))
    as [t|e] eqn:Et.
  - rewrite (bind_lift_ok _ _ _ _ _ w eq_refl).
    destruct (sub (CrossDomain.total_inflow t) (CrossDomain.total_outflow t))
      as [net|e] eqn:En.
    + rewrite (bind_lift_ok _ _ _ _ _ w eq_refl).
      rewrite money_flow_payload.
      match goal with
      | |- context [emit_receipt ?ty ?d] =>
          destruct (emit_receipt_run ty d w) as [_ Erun]
      end.
      rewrite Erun. cbn [snd]. intros E. apply ok_inj in E.
      subst receipt. exists t.
      split; [reflexivity|].
      rewrite !lookup_dict_of_app by distinct_keys. now split.
    + rewrite (bind_lift_raise _ _ _ e _ w eq_refl). discriminate.
  - rewrite (bind_lift_raise _ _ _ e _ w eq_refl). discriminate.
Qed.

End FlowTotals.

(** C8, as amended. Traced for the entity ["acme"], a receipt whose
    [recipient_name] is ["Acme"] and whose [amount] is 1000, its
    [receipt_type], if any, a text, is an inflow of 1000. Wherever it
    stands in a list whose other receipts, traced without it, give [int]
    totals, it adds one flow, of direction ["inflow"] and amount 1000, and
    1000 to the [total_inflow] that the other receipts give, leaving
    [total_outflow] as it is; with no other receipt of the list naming the
    entity, the flow receipt reports [total_inflow] 1000. When the four
    fields [amount], [payment_amount], [fee_amount] and [contract_value]
    hold numbers, an absent one counting as 0, the amount of a flow is the
    first of them that is not zero, in that order, and 0 when there is
    none. A receipt that names the entity, with an amount above zero and a
    [receipt_type] that, if any, is a text, adds one flow of that amount:
    an inflow, the amount added to the inflow total, when its lower-cased
    recipient name is the entity; an outflow, the amount added to the
    outflow total, when the entity does not occur in its lower-cased
    recipient name. *)
Theorem trace_money_flow_direction `{Runtime} :
  (forall (r : pydict) (before after : list pydict) (w w0 : World)
          (others : pydict) (i o : Z),
     lookup r (lit "recipient_name") = Some (PStr (lit "Acme")) ->
     lookup r (lit "amount") = Some (PInt 1000) ->
     typed_receipt r = true ->
     snd (CrossDomain.trace_money_flow (lit "acme") (before ++ after) w0)
     = Ok others ->
     lookup others (lit "total_inflow") = Some (PInt i) ->
     lookup others (lit "total_outflow") = Some (PInt o) ->
     exists receipt flow flows,
       snd (CrossDomain.trace_money_flow (lit "acme")
              (before ++ r :: after) w) = Ok receipt
       /\ lookup receipt (lit "total_inflow") = Some (PInt (i + 1000))
       /\ lookup receipt (lit "total_outflow") = Some (PInt o)
       /\ lookup receipt (lit "flows") = Some (PList flows)
       /\ In (PDict flow) flows
       /\ lookup flow (lit "direction") = Some (PStr (lit "inflow"))
       /\ lookup flow (lit "amount") = Some (PInt 1000))
  /\ (forall (r : pydict) (before after : list pydict) (w : World),
        lookup r (lit "recipient_name") = Some (PStr (lit "Acme")) ->
        lookup r (lit "amount") = Some (PInt 1000) ->
        typed_receipt r = true ->
        forallb (fun r' =>
                   negb (str_in (lit "acme")
                                (CrossDomain.extract_entities r')))
                (before ++ after) = true ->
        exists receipt flow,
          snd (CrossDomain.trace_money_flow (lit "acme")
                 (before ++ r :: after) w) = Ok receipt
          /\ lookup receipt (lit "total_inflow") = Some (PInt 1000)
          /\ lookup receipt (lit "total_outflow") = Some (PInt 0)
          /\ lookup receipt (lit "flows") = Some (PList [PDict flow])
          /\ lookup flow (lit "direction") = Some (PStr (lit "inflow"))
          /\ lookup flow (lit "amount") = Some (PInt 1000))
  /\ (forall r : pydict,
        forallb numeric (amounts r) = true ->
        CrossDomain.flow_amount r = first_nonzero (amounts r))
  /\ (forall (entity : pystr) (r : pydict) (t : CrossDomain.trace),
        str_in entity (CrossDomain.extract_entities r) = true ->
        gt_zero (CrossDomain.flow_amount r) = Ok true ->
        typed_receipt r = true ->
        let recipient :=
          lower (str (get r (lit "recipient_name") (PStr (lit "")))) in
        exists flow,
          lookup flow (lit "amount") = Some (CrossDomain.flow_amount r)
          /\ (recipient = entity ->
              lookup flow (lit "direction") = Some (PStr (lit "inflow"))
              /\ forall total,
                   add (CrossDomain.total_inflow t)
                       (CrossDomain.flow_amount r) = Ok total ->
                   CrossDomain.trace_step entity t r
                   = Ok (CrossDomain.Trace (CrossDomain.flows t ++ [flow])
                           total (CrossDomain.total_outflow t)))
          /\ (contains entity recipient = false ->
              lookup flow (lit "direction") = Some (PStr (lit "outflow"))
              /\ forall total,
                   add (CrossDomain.total_outflow t)
                       (CrossDomain.flow_amount r) = Ok total ->
                   CrossDomain.trace_step entity t r
                   = Ok (CrossDomain.Trace (CrossDomain.flows t ++ [flow])
                           (CrossDomain.total_inflow t) total))).
Proof.
  assert (Elow : lower (lit "acme") = lit "acme") by reflexivity.
  assert (Acme : forall r fl i o,
             lookup r (lit "recipient_name") = Some (PStr (lit "Acme")) ->
             lookup r (lit "amount") = Some (PInt 1000) ->
             typed_receipt r = true ->
             exists flow,
               CrossDomain.trace_step (lit "acme")
                 (CrossDomain.Trace fl (PInt i) (PInt o)) r
               = Ok (CrossDomain.Trace (fl ++ [flow]) (PInt (i + 1000))
                                       (PInt o))
               /\ lookup flow (lit "amount") = Some (PInt 1000)
               /\ lookup flow (lit "direction")
                  = Some (PStr (lit "inflow"))).
  { intros r fl i o Hrec Hamt Hty.
    assert (Hin : str_in (lit "acme") (CrossDomain.extract_entities r)
                  = true).
    { change (lit "acme") with (lower (lit "Acme")).
      now apply recipient_is_entity. }
    assert (Ha : CrossDomain.flow_amount r = PInt 1000).
    { unfold CrossDomain.flow_amount, get. now rewrite Hamt. }
    destruct (trace_step_flow (lit "acme") fl i o 1000 r Hin Ha
                              eq_refl Hty)
      as (flow & Estep & Hfa & Hfd).
    assert (Erec : get r (lit "recipient_name") (PStr (lit ""))
                   = PStr (lit "Acme")).
    { unfold get. now rewrite Hrec. }
    rewrite Erec in Estep, Hfd.
    change (contains (lit "acme") (lower (str (PStr (lit "Acme")))))
      with true in Estep, Hfd.
    cbn iota in Estep, Hfd. now exists flow. }
  split; [|split; [|split]].
  - intros r before after w w0 others i o Hrec Hamt Hty Hothers Hi Ho.
    destruct (trace_money_flow_totals _ _ _ _ Hothers)
      as ([fl ti to] & Et & Hti & Hto).
    cbn [CrossDomain.total_inflow CrossDomain.total_outflow] in Hti, Hto.
    rewrite Hi in Hti. rewrite Ho in Hto.
    apply eq_sym, (f_equal (fun x => match x with
                                     | Some v => v
                                     | None => PNone
                                     end)) in Hti, Hto.
    cbn beta iota in Hti, Hto. subst ti to. rewrite Elow in Et.
    destruct (trace_split _ _ _ _ _ _ Et) as (fb & ib & ob & Eb & Ea).
    destruct (Acme r fb ib ob Hrec Hamt Hty) as (flow & Estep & Hfa & Hfd).
    destruct (trace_shift_inflow _ _ 1000 _ _ _ _ _ _ (fb ++ [flow]) Ea)
      as [g' Eg].
    destruct (trace_money_flow_run (lit "acme") (before ++ r :: after)
                ((fb ++ [flow]) ++ g') (i + 1000) o w)
      as (receipt & Erun & _ & Hri & Hro & _ & Hfl).
    { rewrite Elow, for_each_app, Eb. cbn [rbind for_each].
      rewrite Estep. cbn [rbind]. exact Eg. }
    exists receipt, flow. eexists. rewrite Erun.
    split; [reflexivity|]. split; [exact Hri|]. split; [exact Hro|].
    split; [exact Hfl|]. split; [|now split].
    apply in_map, in_or_app. left. apply in_or_app. right. now left.
  - intros r before after w Hrec Hamt Hty Hothers.
    rewrite forallb_app in Hothers.
    apply andb_true_iff in Hothers as [Hbefore Hafter].
    destruct (Acme r [] 0%Z 0%Z Hrec Hamt Hty)
      as (flow & Estep & Hfa & Hfd).
    destruct (trace_money_flow_run (lit "acme") (before ++ r :: after)
                [flow] 1000 0 w)
      as (receipt & Erun & _ & Hi & Ho & _ & Hfl).
    { rewrite Elow, for_each_app, trace_skip_all by assumption.
      cbn [rbind for_each]. rewrite Estep. cbn [rbind].
      now apply trace_skip_all. }
    exists receipt, flow. rewrite Erun. now repeat split.
  - apply flow_amount_first_nonzero.
  - intros entity r t Hin Hpos Hty recipient.
    destruct (trace_step_booked entity t r Hin Hpos Hty)
      as (flow & Ha & Hd & Estep).
    unfold CrossDomain.determine_flow_direction in Hd, Estep.
    fold recipient in Hd, Estep.
    exists flow. split; [exact Ha|]. split.
    + intros Heq.
      assert (Hc : contains entity recipient = true)
        by (rewrite Heq; apply contains_refl).
      rewrite Hc in Hd, Estep. split; [exact Hd|].
      intros total Ea. rewrite Estep.
      change (str_eqb (lit "inflow") (lit "inflow")) with true.
      cbn iota. now rewrite Ea.
    + intros Hc. rewrite Hc in Hd, Estep. split; [exact Hd|].
      intros total Ea. rewrite Estep.
      change (str_eqb (lit "outflow") (lit "inflow")) with false.
      cbn iota. now rewrite Ea.
Qed.

(** C8 at the list that holds the one receipt
    [{"recipient_name": "Acme", "amount": 1000}]. *)
Lemma trace_money_flow_direction_witness :
  exists receipt flow,
    snd (@CrossDomain.trace_money_flow plain_runtime (lit "acme")
           [[(lit "recipient_name", PStr (lit "Acme"));
             (lit "amount", PInt 1000)]]
           world0) = Ok receipt
    /\ lookup receipt (lit "total_inflow") = Some (PInt 1000)
    /\ lookup receipt (lit "total_outflow") = Some (PInt 0)
    /\ lookup receipt (lit "flows") = Some (PList [PDict flow])
    /\ lookup flow (lit "direction") = Some (PStr (lit "inflow"))
    /\ lookup flow (lit "amount") = Some (PInt 1000).
Proof.
  apply (proj1 (proj2 (@trace_money_flow_direction plain_runtime))
               [(lit "recipient_name", PStr (lit "Acme"));
                (lit "amount", PInt 1000)]
               [] [] world0); reflexivity.
Defined.

(** C8 as stated fails. A list that holds the receipt does not always
    give an inflow and a [total_inflow] of 1000. When the receipt holds a
    [receipt_type] that is not a text, such as [None], the call raises
    [AttributeError]; when another receipt that names the entity holds the
    text ["1,000"] for its amount, that text is the amount used and the
    call raises [TypeError]. With a second inflow of 5 the total is 1005;
    after an inflow of the [float] [1e17] the total is rounded and grows
    by 992. And a receipt paid by ["Bank"] to ["Bankers Trust"], traced
    for ["bank"], is booked as an inflow with the entity as its own
    counterparty, although the recipient is another name: the direction is
    decided by occurrence in the recipient name and not by equality, by
    which [trace_money_flow] decides that a receipt names the entity. *)
Lemma trace_money_flow_acme_fails :
  exists acme : pydict,
    acme = [(lit "recipient_name", PStr (lit "Acme"));
            (lit "amount", PInt 1000)]
    /\ forall (R : Runtime) (w : World),
         @CrossDomain.trace_money_flow R (lit "acme")
           [[(lit "recipient_name", PStr (lit "Acme"));
             (lit "amount", PInt 1000);
             (lit "receipt_type", PNone)]] w
         = (w, Raise AttributeError)
         /\ @CrossDomain.trace_money_flow R (lit "acme")
              [acme; [(lit "entity_name", PStr (lit "ACME"));
                      (lit "amount", PStr (lit "1,000"))]] w
            = (w, Raise TypeError)
         /\ (exists receipt,
               snd (@CrossDomain.trace_money_flow R (lit "acme")
                      [acme; [(lit "recipient_name", PStr (lit "Acme"));
                              (lit "amount", PInt 5)]] w) = Ok receipt
               /\ lookup receipt (lit "total_inflow") = Some (PInt 1005))
         /\ (exists receipt,
               snd (@CrossDomain.trace_money_flow R (lit "acme")
                      [[(lit "recipient_name", PStr (lit "Acme"));
                        (lit "amount",
                         PFloat (Cycle.float_const (10 ^ 17)))];
                       acme] w) = Ok receipt
               /\ lookup receipt (lit "total_inflow")
                  = Some (PFloat (Cycle.float_const (10 ^ 17 + 992))))
         /\ (exists receipt flow,
               snd (@CrossDomain.trace_money_flow R (lit "bank")
                      [[(lit "source_name", PStr (lit "Bank"));
                        (lit "recipient_name",
                         PStr (lit "Bankers Trust"));
                        (lit "amount", PInt 100)]] w) = Ok receipt
               /\ lookup receipt (lit "flows") = Some (PList [PDict flow])
               /\ lookup flow (lit "direction")
                  = Some (PStr (lit "inflow"))
               /\ lookup flow (lit "counterparty")
                  = Some (PStr (lit "bank"))
               /\ lookup receipt (lit "total_inflow") = Some (PInt 100)
               /\ lookup receipt (lit "total_outflow") = Some (PInt 0)).
Proof.
  eexists. split; [reflexivity|]. intros R w.
  split; [reflexivity|]. split; [reflexivity|].
  split; [|split].
  - assert (Et : exists fl,
               for_each
                 [[(lit "recipient_name", PStr (lit "Acme"));
                   (lit "amount", PInt 1000)];
                  [(lit "recipient_name", PStr (lit "Acme"));
                   (lit "amount", PInt 5)]]
                 (@CrossDomain.trace_step R (@lower R (lit "acme")))
                 (CrossDomain.Trace [] (PInt 0) (PInt 0))
               = Ok (CrossDomain.Trace fl (PInt 1005) (PInt 0))).
    { vm_compute. eexists. reflexivity. }
    destruct Et as [fl Et].
    destruct (@trace_money_flow_ends R _ _ _ (PInt 1005) w Et eq_refl)
      as (receipt & E & Hi & _).
    exists receipt. split; [exact E | exact Hi].
  - assert (Et : exists fl,
               for_each
                 [[(lit "recipient_name", PStr (lit "Acme"));
                   (lit "amount", PFloat (Cycle.float_const (10 ^ 17)))];
                  [(lit "recipient_name", PStr (lit "Acme"));
                   (lit "amount", PInt 1000)]]
                 (@CrossDomain.trace_step R (@lower R (lit "acme")))
                 (CrossDomain.Trace [] (PInt 0) (PInt 0))
               = Ok (CrossDomain.Trace fl
                       (PFloat (Cycle.float_const (10 ^ 17 + 992)))
                       (PInt 0))).
    { vm_compute. eexists. reflexivity. }
    destruct Et as [fl Et].
    assert (En : exists net,
               sub (PFloat (Cycle.float_const (10 ^ 17 + 992))) (PInt 0)
               = Ok net) by (vm_compute; eexists; reflexivity).
    destruct En as [net En].
    destruct (@trace_money_flow_ends R _ _ _ net w Et En)
      as (receipt & E & Hi & _).
    exists receipt. split; [exact E | exact Hi].
  - assert (Et : exists flow,
               for_each
                 [[(lit "source_name", PStr (lit "Bank"));
                   (lit "recipient_name", PStr (lit "Bankers Trust"));
                   (lit "amount", PInt 100)]]
                 (@CrossDomain.trace_step R (@lower R (lit "bank")))
                 (CrossDomain.Trace [] (PInt 0) (PInt 0))
               = Ok (CrossDomain.Trace [flow] (PInt 100) (PInt 0))
               /\ lookup flow (lit "direction")
                  = Some (PStr (lit "inflow"))
               /\ lookup flow (lit "counterparty")
                  = Some (PStr (lit "bank"))).
    { vm_compute. eexists. repeat split. }
    destruct Et as (flow & Et & Hd & Hc).
    destruct (@trace_money_flow_ends R _ _ _ (PInt 100) w Et eq_refl)
      as (receipt & E & Hi & Ho & Hf).
    exists receipt, flow. split; [exact E|].
    split; [exact Hf|]. split; [exact Hd|]. split; [exact Hc|].
    split; [exact Hi | exact Ho].
Qed.

(* ================================================================== *)
(** * Dicts and counting                                              *)
(* ================================================================== *)

Section DictMore.
Variable A : Type.
Implicit Types (d : list (pystr * A)) (k : pystr) (v : A).

Lemma str_in_In (x : pystr) (xs : list pystr) :
  str_in x xs = true <-> In x xs.
Proof.
  unfold str_in. rewrite existsb_exists. split.
  - intros (y & Hy & E). apply str_eqb_eq in E. now subst.
  - intros Hx. exists x. split; [exact Hx | apply str_eqb_refl].
Qed.

Lemma has_key_keys d k : has_key d k = str_in k (keys d).
Proof.
  unfold has_key. induction d as [|[k0 v0] d IH]; simpl; [reflexivity|].
  destruct (str_eqb k k0); [reflexivity | exact IH].
Qed.

Lemma keys_set_item d k v :
  keys (set_item d k v) = if has_key d k then keys d else keys d ++ [k].
Proof.
  unfold has_key. induction d as [|[k0 v0] d IH]; simpl; [reflexivity|].
  destruct (str_eqb k k0) eqn:E; simpl.
  - apply str_eqb_eq in E. now subst.
  - rewrite IH. now destruct (lookup d k).
Qed.

Lemma sum_of_set_item (f : A -> Z) d k v :
  sum_of f (set_item d k v)
  = (sum_of f d
     - match lookup d k with Some old => f old | None => 0 end
     + f v)%Z.
Proof.
  induction d as [|[k0 v0] d IH]; simpl; [lia|].
  destruct (str_eqb k k0) eqn:E; simpl; [lia|].
  rewrite IH. lia.
Qed.

End DictMore.

Lemma first_seen_snoc (xs : list pystr) (x : pystr) :
  first_seen (xs ++ [x])
  = if str_in x (first_seen xs) then first_seen xs
    else first_seen xs ++ [x].
Proof. unfold first_seen. now rewrite fold_left_app. Qed.

Lemma filter_snoc (A : Type) (f : A -> bool) (l : list A) (x : A) :
  filter f (l ++ [x]) = filter f l ++ (if f x then [x] else []).
Proof. rewrite filter_app. simpl. now destruct (f x). Qed.

(* ================================================================== *)
(** * The ledger line                                                 *)
(* ================================================================== *)

Lemma printable_check (s : pystr) :
  forallb printable_cp s = true -> printable s.
Proof. intros E. apply Forall_forall. now apply forallb_forall. Qed.

Lemma printable_app (a b : pystr) :
  printable a -> printable b -> printable (a ++ b).
Proof. intros Ha Hb. apply Forall_app. now split. Qed.

Lemma printable_join (sep : pystr) (parts : list pystr) :
  printable sep -> Forall printable parts -> printable (join sep parts).
Proof.
  intros Hsep Hparts. induction Hparts as [|p rest Hp Hrest IH].
  - constructor.
  - simpl. destruct rest as [|q rest]; [exact Hp|].
    apply printable_app; [exact Hp|]. now apply printable_app.
Qed.

Lemma printable_hex_digit (n : N) :
  (n < 16)%N -> printable_cp (hex_digit n) = true.
Proof.
  intros Hn. unfold hex_digit, printable_cp.
  destruct (N.ltb_spec n 10); apply andb_true_iff; split;
    apply N.leb_le; lia.
Qed.

Lemma printable_hex4 (n : N) : printable (hex4 n).
Proof.
  unfold hex4. repeat constructor; apply printable_hex_digit;
    apply N.mod_lt; discriminate.
Qed.

Lemma printable_escape_cp (c : N) : printable (escape_cp c).
Proof.
  assert (U : forall n, printable (u_escape n)).
  { intros n. unfold u_escape. apply printable_app;
      [now apply printable_check | apply printable_hex4]. }
  unfold escape_cp.
  repeat match goal with
         | |- printable (if ?b then _ else _) => destruct b eqn:?
         end;
    try (now apply printable_check); try apply U.
  - constructor; [assumption | constructor].
  - apply printable_app; apply U.
Qed.

Lemma printable_json_str (s : pystr) : printable (json_str s).
Proof.
  unfold json_str. apply printable_app; [now apply printable_check|].
  apply printable_app; [|now apply printable_check].
  induction s as [|c s IH]; [constructor|]. simpl.
  apply printable_app; [apply printable_escape_cp | exact IH].
Qed.

Lemma printable_uint (d : Decimal.uint) :
  printable (of_ascii (NilEmpty.string_of_uint d)).
Proof.
  induction d; simpl; try (constructor; [reflexivity | assumption]).
  constructor.
Qed.

Lemma printable_int_str (n : Z) : printable (int_str n).
Proof.
  unfold int_str, NilZero.string_of_int.
  destruct (Z.to_int n) as [d|d]; unfold NilZero.string_of_uint.
  - destruct d; try apply printable_uint. now apply printable_check.
  - change (printable (45%N :: of_ascii (NilZero.string_of_uint d))).
    constructor; [reflexivity|]. unfold NilZero.string_of_uint.
    destruct d; try apply printable_uint. now apply printable_check.
Qed.

Section Printable.
Context `{Runtime}.
Hypothesis float_repr_printable :
  forall f, printable (of_ascii (float_repr f)).

Lemma printable_json_float (f : spec_float) : printable (json_float f).
Proof.
  destruct f as [[|]|[|]| |s m e]; simpl;
    try (now apply printable_check). apply float_repr_printable.
Qed.

Lemma dumps_printable (sort_keys : bool) (v : pyval) :
  printable (dumps sort_keys v).
Proof.
  induction v as [ | [|] | n | f | s | xs IH | kvs IH ] using pyval_ind;
    try (now apply printable_check).
  - apply printable_int_str.
  - apply printable_json_float.
  - apply printable_json_str.
  - change (printable (lit "[" ++ join (lit ", ") (map (dumps sort_keys) xs)
                       ++ lit "]")).
    apply printable_app; [now apply printable_check|].
    apply printable_app; [|now apply printable_check].
    apply printable_join; [now apply printable_check|].
    apply Forall_map. exact IH.
  - set (items := map (fun kv => (fst kv, dumps sort_keys (snd kv))) kvs).
    change (printable (lit "{"
                       ++ join (lit ", ")
                            (map json_item
                                 (if sort_keys then sort_items items
                                  else items))
                       ++ lit "}")).
    apply printable_app; [now apply printable_check|].
    apply printable_app; [|now apply printable_check].
    apply printable_join; [now apply printable_check|].
    apply Forall_map.
    assert (G : Forall (fun kv : pystr * pystr => printable (snd kv)) items).
    { apply Forall_map. exact IH. }
    assert (G' : Forall (fun kv : pystr * pystr => printable (snd kv))
                   (if sort_keys then sort_items items else items)).
    { destruct sort_keys; [|exact G].
      apply Forall_forall. intros x Hx. rewrite in_sort_items in Hx.
      rewrite Forall_forall in G. now apply G. }
    eapply Forall_impl; [|exact G'].
    intros [k s] Hs. unfold json_item. cbn [fst snd] in *.
    apply printable_app; [apply printable_json_str|].
    apply printable_app; [now apply printable_check | exact Hs].
Qed.

End Printable.

Lemma whole_repr_printable (f : spec_float) :
  printable (of_ascii (whole_repr f)).
Proof.
  assert (A : forall a b, of_ascii (a ++ b)%string = of_ascii a ++ of_ascii b).
  { intros a b. unfold of_ascii. induction a; simpl; [reflexivity|].
    now rewrite IHa. }
  destruct f as [| | |s m e]; try (now apply printable_check).
  unfold whole_repr. rewrite !A.
  apply printable_app; [destruct s; now apply printable_check|].
  apply printable_app; [apply printable_int_str | now apply printable_check].
Qed.

(** X1. Whatever the payload holds (texts with line breaks, control
    characters, characters beyond ASCII or lone surrogates included),
    [emit_receipt] returns and appends exactly one line to the ledger, the
    serialization of the record it returns, and that line is made of
    printable ASCII characters alone: it holds no line break. The
    interpreter's [repr] of a [float] is taken to be printable. *)
Theorem ledger_line_is_printable_ascii `{Runtime}
        (t : pystr) (d : pydict) (w : World) :
  (forall f, printable (of_ascii (float_repr f))) ->
  exists receipt line,
    emit_receipt t d w
    = (mkWorld (S (clock w)) (stdout w ++ [line]), Ok receipt)
    /\ line = dumps false (PDict receipt)
    /\ printable line.
Proof.
  intros Hf. destruct (emit_receipt_run t d w) as [_ Erun].
  eexists _, _. split; [exact Erun|]. split; [reflexivity|].
  now apply dumps_printable.
Qed.

(** X1 at a text that holds a line break, an accented letter, a lone
    surrogate and a character beyond the basic plane. *)
Lemma ledger_line_is_printable_ascii_witness :
  exists receipt line,
    @emit_receipt plain_runtime (lit "note")
      [(lit "text", PStr [10%N; 233%N; 0xD800%N; 0x1F600%N])] world0
    = (mkWorld 1 [line], Ok receipt)
    /\ line = @dumps plain_runtime false (PDict receipt)
    /\ printable line.
Proof.
  apply (@ledger_line_is_printable_ascii plain_runtime (lit "note")
           [(lit "text", PStr [10%N; 233%N; 0xD800%N; 0x1F600%N])] world0).
  exact whole_repr_printable.
Defined.

(* ================================================================== *)
(** * merkle: collisions and canonical items                          *)
(* ================================================================== *)

Section MerkleMore.
Context `{Runtime}.

Lemma pairs_duplicate_last (hs : list pystr) (h : pystr) :
  Nat.even (List.length hs) = true ->
  pairs (hs ++ [h]) = pairs (hs ++ [h; h]).
Proof.
  induction hs as [| a | a b hs IH] using list_pair_ind; intros Hev.
  - reflexivity.
  - discriminate.
  - cbn [app pairs]. f_equal. apply IH. exact Hev.
Qed.

Lemma reduce_duplicate_last (hs : list pystr) (h : pystr) :
  hs <> [] -> Nat.even (List.length hs) = true ->
  reduce (hs ++ [h]) = reduce (hs ++ [h; h]).
Proof.
  intros Hne Hev. destruct hs as [|a [|b hs]];
    [contradiction | discriminate |].
  cbn [app]. simp reduce.
  change (a :: b :: hs ++ [h]) with ((a :: b :: hs) ++ [h]).
  change (a :: b :: hs ++ [h; h]) with ((a :: b :: hs) ++ [h; h]).
  now rewrite pairs_duplicate_last.
Qed.

Lemma merkle_root_leaves (items : list pyval) :
  items <> [] ->
  merkle_root items
  = reduce (map (fun i => dual_hash_text (dumps true i)) items).
Proof. destruct items; [contradiction | reflexivity]. Qed.

End MerkleMore.

(** X2. A list of odd length, three items or more, has the same root as
    the list that repeats its last item: [merkle] pads an odd level with a
    copy of its last hash, so that the two lists cannot be told apart by
    their roots. *)
Theorem merkle_odd_list_collides `{Runtime} (items : list pyval) (x : pyval) :
  items <> [] ->
  Nat.even (List.length items) = true ->
  merkle (items ++ [x]) = merkle (items ++ [x; x])
  /\ exists root, merkle (items ++ [x]) = Some (Ok root).
Proof.
  intros Hne Hev. rewrite !merkle_is_root. split; [|eauto].
  do 2 f_equal.
  rewrite !merkle_root_leaves by (now destruct items).
  rewrite !map_app. cbn [map].
  apply reduce_duplicate_last.
  - now destruct items.
  - now rewrite length_map.
Qed.

(** X2 at [[1, 2, 3]] and [[1, 2, 3, 3]]. *)
Lemma merkle_odd_list_collides_witness :
  @merkle plain_runtime [PInt 1; PInt 2; PInt 3]
  = @merkle plain_runtime [PInt 1; PInt 2; PInt 3; PInt 3].
Proof.
  assert (Hne : [PInt 1; PInt 2] <> []) by discriminate.
  exact (proj1 (@merkle_odd_list_collides plain_runtime
                  [PInt 1; PInt 2] (PInt 3) Hne eq_refl)).
Defined.

(** X3. The root depends on each item as a mapping, not on the order in
    which its keys were inserted, at any depth: two lists whose items are
    pairwise the same values have the same root. *)
Theorem merkle_ignores_key_order `{Runtime} (items items' : list pyval) :
  Forall2 same_value items items' ->
  merkle items = merkle items'.
Proof.
  intros Hs. rewrite !merkle_is_root. do 2 f_equal.
  destruct Hs as [|a b items items' Hab Hs]; [reflexivity|].
  rewrite !merkle_root_leaves by discriminate. f_equal.
  cbn [map]. f_equal.
  - now rewrite (dumps_same_value a b Hab).
  - induction Hs as [|c d l l' Hcd _ IH]; [reflexivity|].
    cbn [map]. now rewrite (dumps_same_value c d Hcd), IH.
Qed.

(** X3 at [[{"a": 1, "b": 2}]] and [[{"b": 2, "a": 1}]]. *)
Lemma merkle_ignores_key_order_witness :
  @merkle plain_runtime
    [PDict [(lit "a", PInt 1); (lit "b", PInt 2)]]
  = @merkle plain_runtime
      [PDict [(lit "b", PInt 2); (lit "a", PInt 1)]].
Proof.
  apply (@merkle_ignores_key_order plain_runtime).
  constructor; [|constructor].
  apply same_dict with (reordered := [(lit "a", PInt 1); (lit "b", PInt 2)]).
  - distinct_keys.
  - apply perm_swap.
  - repeat constructor.
Defined.

(** X4. The [payload_hash] that [emit_receipt] gives a receipt is the
    Merkle root of the list that holds its payload alone: a list of one
    item is not hashed a second time. (The payload is taken not to bind
    [payload_hash] itself.) *)
Theorem payload_hash_is_single_root `{Runtime}
        (t : pystr) (d : pydict) (w : World) :
  NoDup (keys d) ->
  lookup d (lit "payload_hash") = None ->
  exists receipt h,
    snd (emit_receipt t d w) = Ok receipt
    /\ lookup receipt (lit "payload_hash") = Some (PStr h)
    /\ merkle [PDict d] = Some (Ok h).
Proof.
  intros Hnd Hno. destruct (emit_receipt_run t d w) as [Eh Erun].
  eexists _, _. rewrite Erun. split; [reflexivity|].
  rewrite lookup_dict_of_app, Hno by assumption.
  split; [reflexivity|].
  rewrite merkle_is_root. cbn [merkle_root map]. now simp reduce.
Qed.

(** X4 at the payload [{"k": "v"}]. *)
Lemma payload_hash_is_single_root_witness :
  exists receipt h,
    snd (@emit_receipt plain_runtime (lit "x") [(lit "k", PStr (lit "v"))]
           world0) = Ok receipt
    /\ lookup receipt (lit "payload_hash") = Some (PStr h)
    /\ @merkle plain_runtime [PDict [(lit "k", PStr (lit "v"))]]
       = Some (Ok h).
Proof.
  apply (@payload_hash_is_single_root plain_runtime (lit "x")
           [(lit "k", PStr (lit "v"))] world0).
  - distinct_keys.
  - reflexivity.
Defined.

(* ================================================================== *)
(** * sense and analyze                                               *)
(* ================================================================== *)

Section Sense.
Context `{Runtime}.

Lemma typed_receipt_type_of (r : pydict) :
  typed_receipt r = true ->
  Cycle.as_str (get r (lit "receipt_type") (PStr (lit "unknown")))
  = Ok (type_of r).
Proof.
  unfold typed_receipt, type_of, get.
  destruct (lookup r (lit "receipt_type")) as [[]|];
    try discriminate; reflexivity.
Qed.

Lemma module_group_snoc (l : list pydict) (r : pydict) :
  module_group (l ++ [r])
  = Some (Cycle.ModuleData
            (match module_group l with
             | Some md => Cycle.count md
             | None => 0
             end + 1)
            (match module_group l with
             | Some md => Cycle.receipts md
             | None => []
             end ++ [r])).
Proof.
  destruct l as [|x l]; [reflexivity|].
  cbn [module_group app]. unfold module_group.
  cbn [Cycle.count Cycle.receipts].
  destruct (l ++ [r]) eqn:E; [now destruct l|]. rewrite <- E.
  f_equal. f_equal. cbn [List.length]. rewrite length_app. simpl. lia.
Qed.

Lemma type_tally_snoc (l : list pydict) (r : pydict) :
  type_tally (l ++ [r])
  = Some (match type_tally l with Some n => n | None => 0 end + 1)%Z.
Proof.
  destruct l as [|x l]; [reflexivity|].
  cbn [type_tally app]. unfold type_tally.
  destruct (l ++ [r]) eqn:E; [now destruct l|]. rewrite <- E.
  f_equal. cbn [List.length]. rewrite length_app. simpl. lia.
Qed.

Lemma sense_step_filed (st : Cycle.state) (done : list pydict)
      (r : pydict) :
  filed st done -> typed_receipt r = true ->
  exists st',
    Cycle.sense_step st r = Ok st'
    /\ Cycle.total_receipts st' = Cycle.total_receipts st
    /\ filed st' (done ++ [r]).
Proof.
  intros [Hm Ht Ha Hk Hms Hts] Hr.
  unfold Cycle.sense_step. rewrite (typed_receipt_type_of r Hr).
  cbn [rbind]. fold (module_of r).
  eexists. split; [reflexivity|]. split; [reflexivity|].
  set (m := module_of r). set (ty := type_of r).
  assert (Em : forall d : list (pystr * Cycle.module_data),
             lookup (if has_key d m then d
                     else set_item d m (Cycle.ModuleData 0 [])) m
             = Some (match lookup d m with
                     | Some md => md
                     | None => Cycle.ModuleData 0 []
                     end)).
  { intros d. unfold has_key. destruct (lookup d m) eqn:E; [exact E|].
    rewrite lookup_set_item. now rewrite str_eqb_refl. }
  assert (Et : forall d : list (pystr * Z),
             lookup (if has_key d ty then d else set_item d ty 0%Z) ty
             = Some (match lookup d ty with
                     | Some n => n
                     | None => 0%Z
                     end)).
  { intros d. unfold has_key. destruct (lookup d ty) eqn:E; [exact E|].
    rewrite lookup_set_item. now rewrite str_eqb_refl. }
  constructor; cbn [Cycle.by_module Cycle.by_type Cycle.anomalies].
  - intros m'. rewrite lookup_set_item, filter_snoc. fold m.
    rewrite (str_eqb_sym m m').
    destruct (str_eqb m' m) eqn:E.
    + apply str_eqb_eq in E. subst m'. rewrite Em, module_group_snoc, <- Hm.
      now destruct (lookup (Cycle.by_module st) m).
    + rewrite app_nil_r, <- Hm. unfold has_key.
      destruct (lookup (Cycle.by_module st) m); [reflexivity|].
      now rewrite lookup_set_item, E.
  - intros t'. rewrite lookup_set_item, filter_snoc. fold ty.
    rewrite (str_eqb_sym ty t').
    destruct (str_eqb t' ty) eqn:E.
    + apply str_eqb_eq in E. subst t'. rewrite Et, type_tally_snoc, <- Ht.
      now destruct (lookup (Cycle.by_type st) ty).
    + rewrite app_nil_r, <- Ht. unfold has_key.
      destruct (lookup (Cycle.by_type st) ty); [reflexivity|].
      now rewrite lookup_set_item, E.
  - rewrite filter_snoc, <- Ha. fold ty.
    destruct (str_eqb ty (lit "anomaly")); [reflexivity|].
    now rewrite app_nil_r.
  - rewrite keys_set_item, map_app. cbn [map].
    rewrite first_seen_snoc, <- Hk. fold m. rewrite <- has_key_keys.
    unfold has_key at 1. rewrite Em.
    unfold has_key. destruct (lookup (Cycle.by_module st) m) eqn:E;
      [reflexivity|].
    rewrite keys_set_item. unfold has_key. now rewrite E.
  - rewrite sum_of_set_item, Em, length_app. cbn [List.length Cycle.count].
    unfold has_key. destruct (lookup (Cycle.by_module st) m) eqn:E.
    + lia.
    + rewrite sum_of_set_item, E. cbn [Cycle.count]. lia.
  - rewrite sum_of_set_item, Et, length_app. cbn [List.length].
    unfold has_key. destruct (lookup (Cycle.by_type st) ty) eqn:E.
    + lia.
    + rewrite sum_of_set_item, E. lia.
Qed.

Lemma sense_loop_filed (rest : list pydict) :
  forall st done,
    filed st done -> forallb typed_receipt rest = true ->
    exists st',
      for_each rest Cycle.sense_step st = Ok st'
      /\ Cycle.total_receipts st' = Cycle.total_receipts st
      /\ filed st' (done ++ rest).
Proof.
  induction rest as [|r rest IH]; intros st done Hst Hrest; simpl.
  - exists st. rewrite app_nil_r. auto.
  - simpl in Hrest. apply andb_true_iff in Hrest as [Hr Hrest].
    destruct (sense_step_filed st done r Hst Hr) as (st1 & -> & Et & H1).
    cbn [rbind]. destruct (IH st1 (done ++ [r]) H1 Hrest)
      as (st' & -> & Et' & H').
    exists st'. split; [reflexivity|]. split; [congruence|].
    now rewrite <- app_assoc in H'.
Qed.

Lemma sense_filed (rs : list pydict) :
  forallb typed_receipt rs = true ->
  exists st,
    Cycle.sense rs = Ok st
    /\ Cycle.total_receipts st = Z.of_nat (List.length rs)
    /\ filed st rs.
Proof.
  intros Hrs. unfold Cycle.sense.
  destruct (sense_loop_filed rs
              (Cycle.State [] [] [] (Z.of_nat (List.length rs))) [])
    as (st & Est & Et & Hst); [constructor; reflexivity | exact Hrs |].
  exists st. auto.
Qed.

Lemma sense_untyped (rs : list pydict) :
  forallb typed_receipt rs = false ->
  forall st, for_each rs Cycle.sense_step st = Raise AttributeError.
Proof.
  induction rs as [|r rs IH]; simpl; [discriminate|]. intros Hrs st.
  destruct (typed_receipt r) eqn:Hr.
  - destruct (typed_receipt_as_str r Hr) as [s Es].
    unfold Cycle.sense_step at 1. rewrite Es. cbn [rbind]. now apply IH.
  - unfold Cycle.sense_step at 1. unfold typed_receipt in Hr. unfold get.
    now destruct (lookup r (lit "receipt_type")) as [[]|].
Qed.

End Sense.

Section Counts.
Context `{Runtime}.

(** The receipts of several modules, counted module by module. *)
Lemma length_by_module (f : pydict -> bool) (ms : list pystr)
      (rs : list pydict) :
  NoDup ms ->
  List.length
    (flat_map (fun m => filter f (filter (fun r => str_eqb (module_of r) m)
                                         rs)) ms)
  = List.length (filter (fun r => f r && str_in (module_of r) ms) rs).
Proof.
  intros Hms. induction Hms as [|m ms Hm Hms IH].
  - simpl. induction rs as [|r rs IHr]; [reflexivity|]. simpl.
    now rewrite andb_false_r.
  - cbn [flat_map]. rewrite length_app, IH. clear IH.
    induction rs as [|r rs IHr]; [reflexivity|].
    cbn [filter].
    assert (Es : str_in (module_of r) (m :: ms)
                 = str_eqb (module_of r) m || str_in (module_of r) ms)
      by reflexivity.
    rewrite Es.
    destruct (str_eqb (module_of r) m) eqn:Em.
    + assert (Hn : str_in (module_of r) ms = false).
      { destruct (str_in (module_of r) ms) eqn:Ein; [|reflexivity].
        apply str_in_In in Ein. apply str_eqb_eq in Em. now subst. }
      cbn [filter orb]. rewrite Hn, andb_false_r, andb_true_r.
      destruct (f r); cbn [List.length]; rewrite <- IHr; lia.
    + cbn [orb].
      destruct (f r && str_in (module_of r) ms); cbn [List.length];
        rewrite <- IHr; lia.
Qed.

(** Two tests that no element passes together. *)
Lemma count_if_disjoint (A : Type) (f g : A -> bool) (l : list A) :
  (forall x, f x = true -> g x = false) ->
  (count_if f l + count_if g l <= Z.of_nat (List.length l))%Z.
Proof.
  unfold count_if. intros D. induction l as [|x l IH]; simpl; [lia|].
  destruct (f x) eqn:Ef.
  - rewrite (D _ Ef). simpl List.length. lia.
  - destruct (g x); simpl List.length; lia.
Qed.

(** A receipt of type ["anomaly"] is filed under no priority module. *)
Lemma anomaly_not_priority (r : pydict) :
  str_in (module_of r) Constants.MODULE_PRIORITY = true ->
  str_eqb (type_of r) (lit "anomaly") = false.
Proof.
  intros Hp. destruct (str_eqb (type_of r) (lit "anomaly")) eqn:E;
    [|reflexivity].
  apply str_eqb_eq in E. unfold module_of in Hp. rewrite E in Hp.
  now vm_compute in Hp.
Qed.

Lemma analyze_filed (st : Cycle.state) (rs : list pydict) :
  filed st rs ->
  Cycle.modules_active (Cycle.analyze st) = first_seen (map module_of rs)
  /\ Cycle.anomaly_count (Cycle.analyze st)
     = count_if (fun r => str_eqb (type_of r) (lit "anomaly")) rs
  /\ Z.of_nat (List.length (Cycle.priority_violations (Cycle.analyze st)))
     = count_if (fun r => Cycle.flagged r
                          && str_in (module_of r) Constants.MODULE_PRIORITY)
                rs.
Proof.
  intros [Hm Ht Ha Hk Hms Hts].
  unfold Cycle.analyze.
  cbn [Cycle.modules_active Cycle.anomaly_count Cycle.priority_violations].
  split; [exact Hk|]. split; [now rewrite Ha|].
  unfold count_if. f_equal.
  rewrite <- length_by_module
    by (unfold Constants.MODULE_PRIORITY; distinct_keys).
  rewrite !flat_map_concat_map, !length_concat. f_equal.
  rewrite !map_map. apply map_ext. intros m. rewrite Hm.
  destruct (filter (fun r => str_eqb (module_of r) m) rs) eqn:E;
    [reflexivity|].
  cbn [module_group Cycle.receipts]. now rewrite length_map.
Qed.

Lemma emit_cycle_receipt_fields (cycle_id : pystr) (m : Cycle.metrics)
      (w : World) :
  exists receipt,
    Cycle.emit_cycle_receipt cycle_id m w
    = (mkWorld (S (clock w)) (stdout w ++ [dumps false (PDict receipt)]),
       Ok receipt)
    /\ lookup receipt (lit "cycle_id") = Some (PStr cycle_id)
    /\ lookup receipt (lit "receipts_processed")
       = Some (PInt (Cycle.receipts_processed m))
    /\ lookup receipt (lit "modules_active")
       = Some (PList (map PStr (Cycle.modules_active
                                  (Cycle.metrics_analysis m))))
    /\ lookup receipt (lit "anomalies_detected")
       = Some (PInt (Cycle.anomaly_count (Cycle.metrics_analysis m)))
    /\ lookup receipt (lit "priority_violations")
       = Some (PInt (Z.of_nat
                       (List.length (Cycle.priority_violations
                                       (Cycle.metrics_analysis m))))).
Proof.
  unfold Cycle.emit_cycle_receipt. rewrite cycle_payload.
  match goal with
  | |- context [emit_receipt ?t ?d] =>
      destruct (emit_receipt_run t d w) as [_ Erun]
  end.
  eexists. rewrite Erun. split; [reflexivity|].
  rewrite !lookup_dict_of_app by distinct_keys.
  repeat split.
Qed.

Lemma run_cycle_fields (receipts : option (list pydict))
      (cycle_id : option pystr) (w : World) (st : Cycle.state) :
  Cycle.sense (passed receipts) = Ok st ->
  exists receipt w',
    Cycle.run_cycle receipts cycle_id w = (w', Ok receipt)
    /\ lookup receipt (lit "modules_active")
       = Some (PList (map PStr (Cycle.modules_active (Cycle.analyze st))))
    /\ lookup receipt (lit "anomalies_detected")
       = Some (PInt (Cycle.anomaly_count (Cycle.analyze st)))
    /\ lookup receipt (lit "priority_violations")
       = Some (PInt (Z.of_nat
                       (List.length (Cycle.priority_violations
                                       (Cycle.analyze st))))).
Proof.
  intros Est.
  unfold Cycle.run_cycle. rewrite run_cycle_receipts.
  destruct cycle_id as [[|c cid]|];
    unfold bind, ret, read_clock, lift; cbn [clock stdout];
    try (destruct (cycle_id_ok (time_time (clock w))) as [h ->]);
    rewrite Est;
    match goal with
    | |- context [Cycle.emit_cycle_receipt ?c ?m ?w'] =>
        destruct (emit_cycle_receipt_fields c m w')
          as (receipt & Erun & _ & _ & Hma & Had & Hpv)
    end;
    rewrite Erun; exists receipt; eexists;
    (split; [reflexivity|]); cbn [Cycle.metrics_analysis] in *; auto.
Qed.

End Counts.

(** X5. On receipts whose [receipt_type], when present, is a text,
    [sense] files every receipt exactly once under its module and once
    under its type. The entry of a module holds the receipts of that
    module in their order, with their number as its count, and there is
    no entry for a module without a receipt; the same holds of the types;
    [anomalies] are the receipts of type ["anomaly"]; the counts of the
    modules, and those of the types, add up to [total_receipts], the
    length of the list. *)
Theorem sense_files_each_receipt_once `{Runtime} (rs : list pydict) :
  forallb typed_receipt rs = true ->
  exists st,
    Cycle.sense rs = Ok st
    /\ Cycle.total_receipts st = Z.of_nat (List.length rs)
    /\ (forall m,
          lookup (Cycle.by_module st) m
          = module_group (filter (fun r => str_eqb (module_of r) m) rs))
    /\ (forall t,
          lookup (Cycle.by_type st) t
          = type_tally (filter (fun r => str_eqb (type_of r) t) rs))
    /\ Cycle.anomalies st
       = filter (fun r => str_eqb (type_of r) (lit "anomaly")) rs
    /\ sum_of Cycle.count (Cycle.by_module st) = Cycle.total_receipts st
    /\ sum_of (fun n => n) (Cycle.by_type st) = Cycle.total_receipts st.
Proof.
  intros Hrs. destruct (sense_filed rs Hrs) as (st & Est & Et & Hst).
  exists st. destruct Hst. rewrite Et. repeat split; assumption.
Qed.

(** X5 at the three receipts of the repository's test: two of them are
    filed under ["tariff"]. *)
Lemma sense_files_each_receipt_once_witness :
  exists st md,
    @Cycle.sense plain_runtime
      [[(lit "receipt_type", PStr (lit "tariff_ingest"))];
       [(lit "receipt_type", PStr (lit "tariff_allocation"))];
       [(lit "receipt_type", PStr (lit "detention"))]] = Ok st
    /\ lookup (Cycle.by_module st) (lit "tariff") = Some md
    /\ Cycle.count md = 2%Z
    /\ Cycle.total_receipts st = 3%Z.
Proof.
  destruct (@sense_files_each_receipt_once plain_runtime
              [[(lit "receipt_type", PStr (lit "tariff_ingest"))];
               [(lit "receipt_type", PStr (lit "tariff_allocation"))];
               [(lit "receipt_type", PStr (lit "detention"))]] eq_refl)
    as (st & Est & Et & Hm & _).
  exists st. eexists. split; [exact Est|].
  split; [rewrite Hm; reflexivity|].
  split; [reflexivity | exact Et].
Defined.

(** X6. What the cycle receipt counts. On receipts whose [receipt_type],
    when present, is a text: [modules_active] lists the modules of the
    receipts in the order of their first occurrence; [anomalies_detected]
    is the number of receipts of type ["anomaly"]; and
    [priority_violations] is the number of receipts that are flagged (a
    true [violation], [exceeds_threshold], [excessive] or
    [favoritism_detected]) and whose module is one of the five of
    [MODULE_PRIORITY]: a flagged receipt filed under ["loop"] or
    ["unknown"] is not counted. No receipt of type ["anomaly"] is a
    priority violation, so that the two counts together never exceed the
    number of receipts. *)
Theorem run_cycle_counts `{Runtime}
        (receipts : option (list pydict)) (cycle_id : option pystr)
        (w : World) :
  forallb typed_receipt (passed receipts) = true ->
  exists receipt,
    snd (Cycle.run_cycle receipts cycle_id w) = Ok receipt
    /\ lookup receipt (lit "modules_active")
       = Some (PList (map PStr (first_seen
                                  (map module_of (passed receipts)))))
    /\ lookup receipt (lit "anomalies_detected")
       = Some (PInt (count_if
                       (fun r => str_eqb (type_of r) (lit "anomaly"))
                       (passed receipts)))
    /\ lookup receipt (lit "priority_violations")
       = Some (PInt (count_if
                       (fun r => Cycle.flagged r
                                 && str_in (module_of r)
                                           Constants.MODULE_PRIORITY)
                       (passed receipts)))
    /\ (count_if (fun r => Cycle.flagged r
                           && str_in (module_of r)
                                     Constants.MODULE_PRIORITY)
                 (passed receipts)
        + count_if (fun r => str_eqb (type_of r) (lit "anomaly"))
                   (passed receipts)
        <= Z.of_nat (List.length (passed receipts)))%Z.
Proof.
  intros Hrs. destruct (sense_filed _ Hrs) as (st & Est & _ & Hst).
  destruct (run_cycle_fields receipts cycle_id w st Est)
    as (receipt & w' & Erun & Hma & Had & Hpv).
  destruct (analyze_filed st _ Hst) as (Am & Aa & Ap).
  exists receipt. rewrite Erun. split; [reflexivity|].
  rewrite <- Am, <- Aa, <- Ap. do 3 (split; [assumption|]).
  rewrite Aa, Ap. apply count_if_disjoint. intros r Hr.
  apply andb_true_iff in Hr as [_ Hp]. now apply anomaly_not_priority.
Qed.

(** X6 at a flagged detention receipt and a flagged anomaly receipt: one
    priority violation, one anomaly. *)
Lemma run_cycle_counts_witness :
  exists receipt,
    snd (@Cycle.run_cycle plain_runtime
           (Some [[(lit "receipt_type", PStr (lit "detention"));
                   (lit "violation", PBool true)];
                  [(lit "receipt_type", PStr (lit "anomaly"));
                   (lit "violation", PBool true)]])
           None world0) = Ok receipt
    /\ lookup receipt (lit "modules_active")
       = Some (PList [PStr (lit "border"); PStr (lit "unknown")])
    /\ lookup receipt (lit "anomalies_detected") = Some (PInt 1)
    /\ lookup receipt (lit "priority_violations") = Some (PInt 1).
Proof.
  destruct (@run_cycle_counts plain_runtime
              (Some [[(lit "receipt_type", PStr (lit "detention"));
                      (lit "violation", PBool true)];
                     [(lit "receipt_type", PStr (lit "anomaly"));
                      (lit "violation", PBool true)]])
              None world0 eq_refl)
    as (receipt & Erun & Hm & Ha & Hp & _).
  exists receipt. repeat split; assumption.
Defined.

(** X7. When some receipt of the list holds a [receipt_type] that is not
    a text, [run_cycle] raises [AttributeError], whatever the other
    receipts are and wherever that receipt stands, and nothing is written
    to the ledger: no cycle receipt is emitted for the receipts that were
    well formed. *)
Theorem run_cycle_aborts_on_untyped_receipt `{Runtime}
        (receipts : option (list pydict)) (cycle_id : option pystr)
        (w : World) :
  forallb typed_receipt (passed receipts) = false ->
  exists w',
    Cycle.run_cycle receipts cycle_id w = (w', Raise AttributeError)
    /\ stdout w' = stdout w.
Proof.
  intros Hrs.
  assert (Est : Cycle.sense (passed receipts) = Raise AttributeError)
    by (now apply sense_untyped).
  unfold Cycle.run_cycle. rewrite run_cycle_receipts.
  destruct cycle_id as [[|c cid]|];
    unfold bind, ret, read_clock, lift; cbn [clock stdout];
    try (destruct (cycle_id_ok (time_time (clock w))) as [h ->]);
    rewrite Est; eexists; split; reflexivity.
Qed.

(** X7 at a well-formed receipt followed by one whose type is the
    number 7. *)
Lemma run_cycle_aborts_on_untyped_receipt_witness :
  exists w',
    @Cycle.run_cycle plain_runtime
      (Some [[(lit "receipt_type", PStr (lit "detention"))];
             [(lit "receipt_type", PInt 7)]])
      None world0 = (w', Raise AttributeError)
    /\ stdout w' = [].
Proof.
  apply (@run_cycle_aborts_on_untyped_receipt plain_runtime
           (Some [[(lit "receipt_type", PStr (lit "detention"))];
                  [(lit "receipt_type", PInt 7)]])
           None world0).
  reflexivity.
Defined.

(** X8. The identifier of a cycle. A [cycle_id] that is a non-empty text
    is the [cycle_id] of the receipt, as given. Without one, and also
    when the empty text is given, the identifier is made of the first
    sixteen characters of [dual_hash] of the text of the clock's first
    reading: sixteen lower-case hexadecimal digits, the head of the
    SHA-256 side. *)
Theorem run_cycle_identifier `{Runtime}
        (receipts : option (list pydict)) (cycle_id : option pystr)
        (w : World) :
  forallb typed_receipt (passed receipts) = true ->
  exists receipt id,
    snd (Cycle.run_cycle receipts cycle_id w) = Ok receipt
    /\ lookup receipt (lit "cycle_id") = Some (PStr id)
    /\ match cycle_id with
       | Some (c :: given) => id = c :: given
       | _ =>
           exists h,
             dual_hash (OfStr (str (PFloat (time_time (clock w))))) = Ok h
             /\ id = firstn 16 h
             /\ List.length id = 16%nat
             /\ forallb is_lower_hex id = true
       end.
Proof.
  intros Hrs. destruct (sense_filed _ Hrs) as (st & Est & _ & _).
  assert (Hid : forall t,
             exists raw,
               encode (str (PFloat t)) = Ok raw
               /\ dual_hash (OfStr (str (PFloat t)))
                  = Ok (Sha256.hexdigest raw ++ colon ::
                        (if HAS_BLAKE3 then hex (blake3_digest raw)
                         else Sha256.hexdigest raw))).
  { intros t.
    destruct (encode_no_surrogate (str (PFloat t))
                (narrow_no_surrogate _ (narrow_float_str t))) as [raw E].
    exists raw. split; [exact E|].
    now rewrite (dual_hash_str _ _ E), dual_hash_bytes. }
  assert (Hhex : forall raw rest,
             firstn 16 (Sha256.hexdigest raw ++ rest)
             = firstn 16 (Sha256.hexdigest raw)
             /\ List.length (firstn 16 (Sha256.hexdigest raw)) = 16%nat
             /\ forallb is_lower_hex (firstn 16 (Sha256.hexdigest raw))
                = true).
  { intros raw rest.
    pose proof (sha256_hexdigest_length raw) as Hl.
    pose proof (sha256_hexdigest_lower raw) as Hx.
    split; [|split].
    - rewrite firstn_app, Hl. cbn [Nat.sub firstn]. apply app_nil_r.
    - rewrite length_firstn, Hl. reflexivity.
    - rewrite forallb_forall in *. intros c Hc. apply Hx.
      rewrite <- (firstn_skipn 16). apply in_or_app. now left. }
  unfold Cycle.run_cycle. rewrite run_cycle_receipts.
  destruct cycle_id as [[|c cid]|];
    unfold bind, ret, read_clock, lift; cbn [clock stdout];
    try (destruct (Hid (time_time (clock w))) as (raw & Eraw & Eh);
         rewrite Eh);
    rewrite Est;
    match goal with
    | |- context [Cycle.emit_cycle_receipt ?c ?m ?w'] =>
        destruct (emit_cycle_receipt_fields c m w')
          as (receipt & Erun & Hcid & _)
    end;
    rewrite Erun; exists receipt; eexists;
    (split; [reflexivity|]); (split; [exact Hcid|]);
    try reflexivity;
    (eexists; split; [reflexivity|]);
    destruct (Hhex raw (colon :: (if HAS_BLAKE3 then hex (blake3_digest raw)
                                  else Sha256.hexdigest raw)))
      as (E1 & E2 & E3);
    rewrite E1; auto.
Qed.

(** X8 at [run_cycle([], "")]: the empty identifier is replaced. *)
Lemma run_cycle_identifier_witness :
  exists receipt id,
    snd (@Cycle.run_cycle plain_runtime (Some []) (Some []) world0)
    = Ok receipt
    /\ lookup receipt (lit "cycle_id") = Some (PStr id)
    /\ List.length id = 16%nat.
Proof.
  destruct (@run_cycle_identifier plain_runtime (Some []) (Some []) world0
              eq_refl)
    as (receipt & id & Erun & Hid & h & _ & _ & Hlen & _).
  exists receipt, id. split; [exact Erun|]. split; [exact Hid | exact Hlen].
Defined.

(* ================================================================== *)
(** * trace_money_flow: what it reads and what it totals              *)
(* ================================================================== *)

Section Unrelated.
Context `{Runtime}.

Lemma trace_filter (entity : pystr) (rs : list pydict) :
  forall t,
    for_each rs (CrossDomain.trace_step entity) t
    = for_each
        (filter (fun r => str_in entity (CrossDomain.extract_entities r))
                rs)
        (CrossDomain.trace_step entity) t.
Proof.
  induction rs as [|r rs IH]; intros t; simpl; [reflexivity|].
  destruct (str_in entity (CrossDomain.extract_entities r)) eqn:E.
  - simpl. destruct (CrossDomain.trace_step entity t r); simpl;
      [apply IH | reflexivity].
  - rewrite trace_step_skip by assumption. simpl. apply IH.
Qed.

End Unrelated.

(** X9. [trace_money_flow] looks only at the receipts that name the
    entity, that is, one of whose thirteen entity fields, as a lower-cased
    text, equals the lower-cased identifier. The other receipts change
    nothing, whatever they hold: tracing a list and tracing its receipts
    that name the entity are the same computation, with the same receipt
    or the same exception. A receipt whose recipient merely contains the
    identifier does not name it. *)
Theorem trace_money_flow_ignores_unrelated `{Runtime}
        (entity_id : pystr) (rs : list pydict) (w : World) :
  CrossDomain.trace_money_flow entity_id rs w
  = CrossDomain.trace_money_flow entity_id
      (filter (names_entity entity_id) rs) w.
Proof.
  unfold CrossDomain.trace_money_flow, names_entity.
  now rewrite trace_filter.
Qed.

Section Reconciliation.
Context `{Runtime}.

Lemma trace_step_shape (entity : pystr) (t t' : CrossDomain.trace)
      (r : pydict) :
  CrossDomain.trace_step entity t r = Ok t' ->
  t' = t
  \/ exists flow sum,
       lookup flow (lit "amount") = Some (CrossDomain.flow_amount r)
       /\ gt_zero (CrossDomain.flow_amount r) = Ok true
       /\ ((lookup flow (lit "direction") = Some (PStr (lit "inflow"))
            /\ add (CrossDomain.total_inflow t) (CrossDomain.flow_amount r)
               = Ok sum
            /\ t' = CrossDomain.Trace (CrossDomain.flows t ++ [flow]) sum
                                      (CrossDomain.total_outflow t))
           \/ (lookup flow (lit "direction") = Some (PStr (lit "outflow"))
               /\ add (CrossDomain.total_outflow t)
                      (CrossDomain.flow_amount r) = Ok sum
               /\ t' = CrossDomain.Trace (CrossDomain.flows t ++ [flow])
                                         (CrossDomain.total_inflow t) sum)).
Proof.
  unfold CrossDomain.trace_step.
  destruct (negb (str_in entity (CrossDomain.extract_entities r)));
    [intros [= <-]; now left|].
  destruct (gt_zero (CrossDomain.flow_amount r)) as [[|]|] eqn:Eg;
    cbn [rbind]; [| intros [= <-]; now left | discriminate].
  destruct (Cycle.as_str (get r (lit "receipt_type") (PStr (lit ""))))
    as [s|]; cbn [rbind]; [|discriminate].
  unfold CrossDomain.determine_flow_direction.
  destruct (contains entity _).
  - change (str_eqb (lit "inflow") (lit "inflow")) with true. cbn iota.
    destruct (add (CrossDomain.total_inflow t) (CrossDomain.flow_amount r))
      as [sum|] eqn:E; cbn [rbind]; [|discriminate].
    match goal with
    | |- Ok (CrossDomain.Trace (_ ++ [?f]) _ _) = _ -> _ => set (flow := f)
    end.
    intros [= <-]. right. exists flow, sum.
    split; [reflexivity|]. split; [reflexivity|]. left.
    split; [reflexivity|]. now split.
  - change (str_eqb (lit "outflow") (lit "inflow")) with false. cbn iota.
    destruct (add (CrossDomain.total_outflow t) (CrossDomain.flow_amount r))
      as [sum|] eqn:E; cbn [rbind]; [|discriminate].
    match goal with
    | |- Ok (CrossDomain.Trace (_ ++ [?f]) _ _) = _ -> _ => set (flow := f)
    end.
    intros [= <-]. right. exists flow, sum.
    split; [reflexivity|]. split; [reflexivity|]. right.
    split; [reflexivity|]. now split.
Qed.

Lemma flow_amounts_snoc (direction : pystr) (fl : list pydict)
      (flow : pydict) (d : pystr) (a : pyval) :
  lookup flow (lit "direction") = Some (PStr d) ->
  lookup flow (lit "amount") = Some a ->
  flow_amounts direction (map PDict (fl ++ [flow]))
  = flow_amounts direction (map PDict fl)
    ++ (if str_eqb d direction then [a] else []).
Proof.
  intros Hd Ha. unfold flow_amounts.
  rewrite map_app, flat_map_app. f_equal. cbn [map flat_map flow_direction].
  rewrite Hd, app_nil_r. unfold get. now rewrite Ha.
Qed.

Lemma running_total_snoc (xs : list pyval) (a s : pyval) :
  running_total xs = Ok s -> running_total (xs ++ [a]) = add s a.
Proof.
  intros E. unfold running_total in *. rewrite for_each_app, E.
  cbn [rbind for_each].
  now destruct (add s a).
Qed.

Lemma trace_reconciled (entity : pystr) (rs : list pydict) :
  forall t t',
    for_each rs (CrossDomain.trace_step entity) t = Ok t' ->
    reconciled t -> reconciled t'.
Proof.
  induction rs as [|r rs IH]; intros t t'; simpl.
  - now intros [= <-].
  - destruct (CrossDomain.trace_step entity t r) as [t1|] eqn:E1;
      simpl; [|discriminate].
    intros E Ht. apply (IH _ _ E). clear E IH.
    destruct (trace_step_shape _ _ _ _ E1)
      as [-> | (flow & sum & Ha & Hpos & [(Hd & Es & ->) | (Hd & Es & ->)])];
      [exact Ht | |];
      destruct Ht as (Hi & Ho & Hall); unfold reconciled;
      cbn [CrossDomain.flows CrossDomain.total_inflow
           CrossDomain.total_outflow];
      rewrite !(flow_amounts_snoc _ _ _ _ _ Hd Ha).
    + change (str_eqb (lit "inflow") (lit "inflow")) with true.
      change (str_eqb (lit "inflow") (lit "outflow")) with false.
      cbn iota. rewrite app_nil_r, (running_total_snoc _ _ _ Hi).
      repeat split; try assumption.
      apply Forall_app. split; [exact Hall|]. constructor; [|constructor].
      unfold flow_direction, get. rewrite Hd, Ha. auto.
    + change (str_eqb (lit "outflow") (lit "inflow")) with false.
      change (str_eqb (lit "outflow") (lit "outflow")) with true.
      cbn iota. rewrite app_nil_r, (running_total_snoc _ _ _ Ho).
      repeat split; try assumption.
      apply Forall_app. split; [exact Hall|]. constructor; [|constructor].
      unfold flow_direction, get. rewrite Hd, Ha. auto.
Qed.

(** What [trace_money_flow] returned tells how its loop ended. *)
Lemma trace_money_flow_fields (entity_id : pystr) (rs : list pydict)
      (w : World) (receipt : pydict) :
  snd (CrossDomain.trace_money_flow entity_id rs w) = Ok receipt ->
  exists t net,
    for_each rs (CrossDomain.trace_step (lower entity_id))
             (CrossDomain.Trace [] (PInt 0) (PInt 0)) = Ok t
    /\ sub (CrossDomain.total_inflow t) (CrossDomain.total_outflow t)
       = Ok net
    /\ lookup receipt (lit "total_inflow")
       = Some (CrossDomain.total_inflow t)
    /\ lookup receipt (lit "total_outflow")
       = Some (CrossDomain.total_outflow t)
    /\ lookup receipt (lit "net_flow") = Some net
    /\ lookup receipt (lit "flow_count")
       = Some (PInt (Z.of_nat (List.length (CrossDomain.flows t))))
    /\ lookup receipt (lit "flows")
       = Some (PList (map PDict (CrossDomain.flows t))).
Proof.
  unfold CrossDomain.trace_money_flow.
  destruct (for_each rs (CrossDomain.trace_step (lower entity_id))
                     (CrossDomain.Trace [] (PInt 0) (PInt 0)))
    as [t|e] eqn:Et.
  - rewrite (bind_lift_ok _ _ _ _ _ w eq_refl).
    destruct (sub (CrossDomain.total_inflow t) (CrossDomain.total_outflow t))
      as [net|e] eqn:En.
    + rewrite (bind_lift_ok _ _ _ _ _ w eq_refl).
      rewrite money_flow_payload.
      match goal with
      | |- context [emit_receipt ?ty ?d] =>
          destruct (emit_receipt_run ty d w) as [_ Erun]
      end.
      rewrite Erun. cbn [snd]. intros E. apply ok_inj in E.
      subst receipt. exists t, net.
      split; [reflexivity|]. split; [exact En|].
      rewrite !lookup_dict_of_app by distinct_keys. repeat split.
    + rewrite (bind_lift_raise _ _ _ e _ w eq_refl). discriminate.
  - rewrite (bind_lift_raise _ _ _ e _ w eq_refl). discriminate.
Qed.

Lemma trace_step_raises (entity : pystr) (t : CrossDomain.trace)
      (r : pydict) :
  str_in entity (CrossDomain.extract_entities r) = true ->
  (numeric (CrossDomain.flow_amount r) = false ->
   CrossDomain.trace_step entity t r = Raise TypeError)
  /\ (gt_zero (CrossDomain.flow_amount r) = Ok true ->
      typed_receipt r = false ->
      CrossDomain.trace_step entity t r = Raise AttributeError).
Proof.
  intros Hin. unfold CrossDomain.trace_step. rewrite Hin. cbn [negb].
  split.
  - intros Hn. now destruct (CrossDomain.flow_amount r).
  - intros -> Hty. cbn [rbind]. unfold typed_receipt in Hty. unfold get.
    now destruct (lookup r (lit "receipt_type")) as [[]|].
Qed.

Lemma trace_money_flow_aborts (entity_id : pystr)
      (before after : list pydict) (r : pydict) (t : CrossDomain.trace)
      (e : exn) (w : World) :
  for_each before (CrossDomain.trace_step (lower entity_id))
           (CrossDomain.Trace [] (PInt 0) (PInt 0)) = Ok t ->
  CrossDomain.trace_step (lower entity_id) t r = Raise e ->
  CrossDomain.trace_money_flow entity_id (before ++ r :: after) w
  = (w, Raise e).
Proof.
  intros Eb Er. unfold CrossDomain.trace_money_flow.
  apply bind_lift_raise. rewrite for_each_app, Eb. cbn [rbind for_each].
  now rewrite Er.
Qed.

End Reconciliation.

(** X10. The flow receipt reconciles. When [trace_money_flow] returns,
    [flow_count] is the number of [flows]; every flow is an ["inflow"] or
    an ["outflow"] and has an amount greater than zero; [total_inflow] is
    the running total of the amounts of the inflows, in their order, and
    [total_outflow] that of the outflows; and [net_flow] is their
    difference. *)
Theorem trace_money_flow_reconciles `{Runtime}
        (entity_id : pystr) (rs : list pydict) (w : World)
        (receipt : pydict) :
  snd (CrossDomain.trace_money_flow entity_id rs w) = Ok receipt ->
  exists flows total_inflow total_outflow net_flow,
    lookup receipt (lit "flows") = Some (PList flows)
    /\ lookup receipt (lit "flow_count")
       = Some (PInt (Z.of_nat (List.length flows)))
    /\ lookup receipt (lit "total_inflow") = Some total_inflow
    /\ lookup receipt (lit "total_outflow") = Some total_outflow
    /\ lookup receipt (lit "net_flow") = Some net_flow
    /\ running_total (flow_amounts (lit "inflow") flows) = Ok total_inflow
    /\ running_total (flow_amounts (lit "outflow") flows) = Ok total_outflow
    /\ sub total_inflow total_outflow = Ok net_flow
    /\ Forall (fun f =>
                 exists d,
                   f = PDict d
                   /\ (flow_direction f = lit "inflow"
                       \/ flow_direction f = lit "outflow")
                   /\ gt_zero (get d (lit "amount") PNone) = Ok true)
              flows.
Proof.
  intros Hret.
  destruct (trace_money_flow_fields _ _ _ _ Hret)
    as (t & net & Et & En & Hi & Ho & Hn & Hc & Hf).
  destruct (trace_reconciled _ _ _ _ Et) as (Ri & Ro & Rall).
  { repeat split. constructor. }
  exists (map PDict (CrossDomain.flows t)), (CrossDomain.total_inflow t),
    (CrossDomain.total_outflow t), net.
  rewrite length_map. repeat split; try assumption.
  apply Forall_map. eapply Forall_impl; [|exact Rall].
  intros f [Hd Hp]. now exists f.
Qed.

(** X10 at one payment received and one payment made by ["acme"]. *)
Lemma trace_money_flow_reconciles_witness :
  exists receipt flows,
    snd (@CrossDomain.trace_money_flow plain_runtime (lit "acme")
           [[(lit "recipient_name", PStr (lit "Acme"));
             (lit "amount", PInt 1000)];
            [(lit "source_name", PStr (lit "Acme"));
             (lit "recipient_name", PStr (lit "Vendor"));
             (lit "amount", PInt 300)]]
           world0) = Ok receipt
    /\ lookup receipt (lit "flows") = Some (PList flows)
    /\ lookup receipt (lit "flow_count")
       = Some (PInt (Z.of_nat (List.length flows)))
    /\ running_total (flow_amounts (lit "inflow") flows)
       = Ok (PInt 1000)
    /\ running_total (flow_amounts (lit "outflow") flows)
       = Ok (PInt 300).
Proof.
  destruct (snd (@CrossDomain.trace_money_flow plain_runtime (lit "acme")
                   [[(lit "recipient_name", PStr (lit "Acme"));
                     (lit "amount", PInt 1000)];
                    [(lit "source_name", PStr (lit "Acme"));
                     (lit "recipient_name", PStr (lit "Vendor"));
                     (lit "amount", PInt 300)]]
                   world0)) as [receipt|e] eqn:E.
  - destruct (@trace_money_flow_reconciles plain_runtime _ _ _ _ E)
      as (flows & i & o & n & Hf & Hc & Hi & Ho & _ & Ri & Ro & _).
    exists receipt, flows. split; [reflexivity|]. split; [exact Hf|].
    split; [exact Hc|].
    assert (Hio : i = PInt 1000 /\ o = PInt 300).
    { vm_compute in E. injection E as <-.
      vm_compute in Hi, Ho. injection Hi as <-. injection Ho as <-.
      now split. }
    destruct Hio as [-> ->]. now split.
  - vm_compute in E. discriminate E.
Defined.

(** X11. [trace_money_flow] does not default every field. Let a receipt
    name the entity, after receipts that are traced without an exception.
    If the first of its amount fields that is not empty, zero or absent is
    not a number (a text such as ["1000"], a list, a dict), the call
    raises [TypeError]; if its amount is positive and it holds a
    [receipt_type] that is not a text, the call raises [AttributeError].
    Either way nothing is written to the ledger, whatever receipts
    follow. *)
Theorem trace_money_flow_raises `{Runtime}
        (entity_id : pystr) (before after : list pydict) (r : pydict)
        (w0 w : World) (traced : pydict) :
  snd (CrossDomain.trace_money_flow entity_id before w0) = Ok traced ->
  names_entity entity_id r = true ->
  (numeric (CrossDomain.flow_amount r) = false ->
   CrossDomain.trace_money_flow entity_id (before ++ r :: after) w
   = (w, Raise TypeError))
  /\ (gt_zero (CrossDomain.flow_amount r) = Ok true ->
      typed_receipt r = false ->
      CrossDomain.trace_money_flow entity_id (before ++ r :: after) w
      = (w, Raise AttributeError)).
Proof.
  intros Hb Hin.
  destruct (trace_money_flow_totals _ _ _ _ Hb) as (t & Et & _).
  destruct (trace_step_raises (lower entity_id) t r Hin) as [Hty Hat].
  split.
  - intros Hn. eapply trace_money_flow_aborts; eauto.
  - intros Hp Hu. eapply trace_money_flow_aborts; eauto.
Qed.

(** X11 at a receipt whose amount is the text ["1000"]. *)
Lemma trace_money_flow_raises_witness :
  @CrossDomain.trace_money_flow plain_runtime (lit "acme")
    [[(lit "entity_name", PStr (lit "Acme"));
      (lit "amount", PStr (lit "1000"))]]
    world0
  = (world0, Raise TypeError).
Proof.
  destruct (snd (@CrossDomain.trace_money_flow plain_runtime (lit "acme")
                   [] world0)) as [traced|e] eqn:E.
  - exact (proj1 (@trace_money_flow_raises plain_runtime (lit "acme") [] []
                    [(lit "entity_name", PStr (lit "Acme"));
                     (lit "amount", PStr (lit "1000"))]
                    world0 world0 traced E eq_refl) eq_refl).
  - vm_compute in E. discriminate E.
Defined.

(* ================================================================== *)
(** * Saudi PIF connections                                           *)
(* ================================================================== *)

Section Pif.
Context `{Runtime}.

Lemma pif_connection_payload (a b c d e f g : pyval) :
  dict_of [(lit "tenant_id", a);
           (lit "entity_id", b);
           (lit "entity_name", c);
           (lit "pif_indicators", d);
           (lit "is_pif_connected", e);
           (lit "pif_total_exposure", f);
           (lit "domains", g)]
  = [(lit "tenant_id", a);
     (lit "entity_id", b);
     (lit "entity_name", c);
     (lit "pif_indicators", d);
     (lit "is_pif_connected", e);
     (lit "pif_total_exposure", f);
     (lit "domains", g)].
Proof. reflexivity. Qed.

Lemma flag_pif_connection_run (entity : pydict) (name country : pystr)
      (w : World) :
  get entity (lit "name") (PStr (lit "")) = PStr name ->
  get entity (lit "country") (PStr (lit "")) = PStr country ->
  let connected :=
    occurs_any pif_names (lower name)
    || str_eqb (lower country) (lit "saudi arabia")
       && truthy (por (get entity (lit "is_government") PNone)
                      (get entity (lit "government_ties") PNone)) in
  exists receipt indicators,
    CrossDomain.flag_pif_connection entity w
    = (mkWorld (S (clock w)) (stdout w ++ [dumps false (PDict receipt)]),
       Ok receipt)
    /\ lookup receipt (lit "pif_indicators")
       = Some (PList (map PStr indicators))
    /\ (indicators = [] <-> connected = false)
    /\ lookup receipt (lit "is_pif_connected") = Some (PBool connected)
    /\ lookup receipt (lit "domains")
       = Some (PList (if connected
                      then map PStr [lit "gulf"; lit "golf"; lit "license"]
                      else [])).
Proof.
  intros Hn Hc connected.
  unfold CrossDomain.flag_pif_connection. rewrite Hn, Hc.
  unfold CrossDomain.lower_of. cbn [Cycle.as_str rbind].
  unfold bind at 1, lift at 1. unfold bind at 1, lift at 1.
  match goal with
  | |- context [(lit "pif_indicators", PList (map PStr ?l))] =>
      set (indicators := l)
  end.
  assert (Ec : (0 <? List.length indicators)%nat = connected
               /\ (indicators = [] <-> connected = false)).
  { subst indicators connected.
    unfold occurs_any, pif_names, CrossDomain.pif_entities.
    cbn [map existsb flat_map].
    destruct (contains (lit "pif") (lower name));
      destruct (contains (lit "public investment fund") (lower name));
      destruct (contains (lit "affinity") (lower name));
      destruct (contains (lit "liv golf") (lower name));
      destruct (contains (lit "dar global") (lower name));
      destruct (contains (lit "dar al arkan") (lower name));
      destruct (str_eqb (lower country) (lit "saudi arabia")
                && truthy (por (get entity (lit "is_government") PNone)
                               (get entity (lit "government_ties") PNone)));
      cbn [orb andb app List.length Nat.ltb Nat.leb];
      (split; [reflexivity|]); split; (discriminate || reflexivity). }
  destruct Ec as [Ec Ee]. rewrite Ec. clearbody indicators connected.
  rewrite pif_connection_payload.
  match goal with
  | |- context [emit_receipt ?t ?d] =>
      destruct (emit_receipt_run t d w) as [_ Erun]
  end.
  rewrite Erun. clear Erun. eexists _, indicators. split; [reflexivity|].
  rewrite !lookup_dict_of_app by distinct_keys.
  repeat split; apply Ee.
Qed.

Lemma pif_entity_payload (a b c d e f g : pyval) :
  dict_of [(lit "tenant_id", a);
           (lit "entity_id", b);
           (lit "entity_name", c);
           (lit "domain", d);
           (lit "known_connection", e);
           (lit "is_known_pif_entity", f);
           (lit "pif_investment", g)]
  = [(lit "tenant_id", a);
     (lit "entity_id", b);
     (lit "entity_name", c);
     (lit "domain", d);
     (lit "known_connection", e);
     (lit "is_known_pif_entity", f);
     (lit "pif_investment", g)].
Proof. reflexivity. Qed.

Lemma track_pif_entity_run (entity : pydict) (domain : pyval)
      (name : pystr) (w : World) :
  get entity (lit "name") (PStr (lit "")) = PStr name ->
  exists receipt,
    PifTracker.track_pif_entity entity domain w
    = (mkWorld (S (clock w)) (stdout w ++ [dumps false (PDict receipt)]),
       Ok receipt)
    /\ lookup receipt (lit "is_known_pif_entity")
       = Some (PBool (occurs_any (keys PifTracker.PIF_CONNECTED_ENTITIES)
                                 (lower name)))
    /\ lookup receipt (lit "pif_investment")
       = Some (PInt (if contains (lit "affinity partners") (lower name)
                     then Constants.GULF_PIF_INVESTMENT
                     else if contains (lit "liv golf") (lower name)
                     then Constants.GOLF_LIV_PIF_INVESTMENT
                     else 0))
    /\ lookup receipt (lit "domain") = Some domain.
Proof.
  intros Hn.
  unfold PifTracker.track_pif_entity. rewrite Hn.
  unfold CrossDomain.lower_of. cbn [Cycle.as_str rbind].
  unfold bind at 1, lift at 1.
  rewrite pif_entity_payload.
  match goal with
  | |- context [emit_receipt ?t ?d] =>
      destruct (emit_receipt_run t d w) as [_ Erun]
  end.
  rewrite Erun. clear Erun. eexists. split; [reflexivity|].
  rewrite !lookup_dict_of_app by distinct_keys.
  unfold PifTracker.known_connection, occurs_any,
    PifTracker.PIF_CONNECTED_ENTITIES.
  cbn [keys map fst find existsb].
  destruct (contains (lit "affinity partners") (lower name));
    destruct (contains (lit "liv golf") (lower name));
    destruct (contains (lit "dar global") (lower name));
    destruct (contains (lit "dar al arkan") (lower name));
    repeat split.
Qed.

End Pif.

Lemma starts_with_prefix (p q s : pystr) :
  starts_with (p ++ q) s = true -> starts_with p s = true.
Proof.
  revert s. induction p as [|c p IH]; intros s; [reflexivity|].
  destruct s as [|d s]; simpl; [discriminate|].
  intros E. apply andb_true_iff in E as [E1 E2].
  rewrite E1. now apply IH.
Qed.

Lemma contains_prefix (p q s : pystr) :
  contains (p ++ q) s = true -> contains p s = true.
Proof.
  induction s as [|d s IH]; simpl; intros E.
  - rewrite orb_false_r in *. now apply starts_with_prefix in E.
  - apply orb_true_iff in E as [E | E].
    + apply starts_with_prefix in E.
      change (starts_with p (d :: s) = true) in E.
      rewrite E. reflexivity.
    + apply IH in E. rewrite E. apply orb_true_r.
Qed.

(** X12. The verdict of [flag_pif_connection]. When the [name] and the
    [country] of the entity, where present, are texts, the call returns,
    having emitted one receipt; [is_pif_connected] is true exactly when
    the lower-cased name contains one of ["pif"], ["public investment
    fund"], ["affinity"], ["liv golf"], ["dar global"], ["dar al arkan"],
    or the lower-cased country is ["saudi arabia"] and [is_government] or
    [government_ties] is true; it is true exactly when [pif_indicators]
    is not empty; and [domains] is then gulf, golf, license, and empty
    otherwise. When the [name] or the [country] is present and is not a
    text, the call raises [AttributeError] and emits nothing. *)
Theorem flag_pif_connection_verdict `{Runtime}
        (entity : pydict) (w : World) :
  match get entity (lit "name") (PStr (lit "")),
        get entity (lit "country") (PStr (lit "")) with
  | PStr name, PStr country =>
      let connected :=
        occurs_any pif_names (lower name)
        || str_eqb (lower country) (lit "saudi arabia")
           && truthy (por (get entity (lit "is_government") PNone)
                          (get entity (lit "government_ties") PNone)) in
      exists receipt indicators,
        CrossDomain.flag_pif_connection entity w
        = (mkWorld (S (clock w))
                   (stdout w ++ [dumps false (PDict receipt)]),
           Ok receipt)
        /\ lookup receipt (lit "pif_indicators")
           = Some (PList (map PStr indicators))
        /\ (indicators = [] <-> connected = false)
        /\ lookup receipt (lit "is_pif_connected") = Some (PBool connected)
        /\ lookup receipt (lit "domains")
           = Some (PList (if connected
                          then map PStr [lit "gulf"; lit "golf"; lit "license"]
                          else []))
  | _, _ =>
      CrossDomain.flag_pif_connection entity w = (w, Raise AttributeError)
  end.
Proof.
  destruct (get entity (lit "name") (PStr (lit ""))) as [| | | |name| |] eqn:En;
    try (unfold CrossDomain.flag_pif_connection; rewrite En; reflexivity).
  destruct (get entity (lit "country") (PStr (lit "")))
    as [| | | |country| |] eqn:Ec;
    try (unfold CrossDomain.flag_pif_connection; rewrite En, Ec;
         reflexivity).
  now apply flag_pif_connection_run.
Qed.

(** X13. The verdict of [track_pif_entity]. When the [name] of the
    entity, where present, is a text, the call returns, having emitted one
    receipt; [is_known_pif_entity] is true exactly when the lower-cased
    name contains one of the four keys of [PIF_CONNECTED_ENTITIES]; and
    [pif_investment] is that of the first key of the table that occurs in
    the name: 2,000,000,000 with ["affinity partners"], otherwise
    4,580,000,000 with ["liv golf"], otherwise 0. The [domain] is
    recorded as passed. When the [name] is present and is not a text, the
    call raises [AttributeError] and emits nothing. *)
Theorem track_pif_entity_verdict `{Runtime}
        (entity : pydict) (domain : pyval) (w : World) :
  match get entity (lit "name") (PStr (lit "")) with
  | PStr name =>
      exists receipt,
        PifTracker.track_pif_entity entity domain w
        = (mkWorld (S (clock w))
                   (stdout w ++ [dumps false (PDict receipt)]),
           Ok receipt)
        /\ lookup receipt (lit "is_known_pif_entity")
           = Some (PBool (occurs_any
                            (keys PifTracker.PIF_CONNECTED_ENTITIES)
                            (lower name)))
        /\ lookup receipt (lit "pif_investment")
           = Some (PInt (if contains (lit "affinity partners") (lower name)
                         then Constants.GULF_PIF_INVESTMENT
                         else if contains (lit "liv golf") (lower name)
                         then Constants.GOLF_LIV_PIF_INVESTMENT
                         else 0))
        /\ lookup receipt (lit "domain") = Some domain
  | _ =>
      PifTracker.track_pif_entity entity domain w
      = (w, Raise AttributeError)
  end.
Proof.
  destruct (get entity (lit "name") (PStr (lit ""))) as [| | | |name| |] eqn:En;
    try (unfold PifTracker.track_pif_entity; rewrite En; reflexivity).
  now apply track_pif_entity_run.
Qed.

(** X14. The two PIF checks agree in one direction. An entity that
    [track_pif_entity] reports as a known PIF entity is reported as
    connected by [flag_pif_connection], with the three domains, provided
    its [country], where present, is a text: each key of
    [PIF_CONNECTED_ENTITIES] contains a name that [flag_pif_connection]
    looks for. *)
Theorem known_pif_entity_is_flagged `{Runtime}
        (entity : pydict) (domain : pyval) (country : pystr)
        (w w' : World) (tracked : pydict) :
  snd (PifTracker.track_pif_entity entity domain w) = Ok tracked ->
  lookup tracked (lit "is_known_pif_entity") = Some (PBool true) ->
  get entity (lit "country") (PStr (lit "")) = PStr country ->
  exists flagged,
    snd (CrossDomain.flag_pif_connection entity w') = Ok flagged
    /\ lookup flagged (lit "is_pif_connected") = Some (PBool true)
    /\ lookup flagged (lit "domains")
       = Some (PList (map PStr [lit "gulf"; lit "golf"; lit "license"])).
Proof.
  intros Ht Hk Hc.
  destruct (get entity (lit "name") (PStr (lit ""))) as [| | | |name| |] eqn:En;
    try (unfold PifTracker.track_pif_entity in Ht; rewrite En in Ht;
         discriminate Ht).
  destruct (track_pif_entity_run entity domain name w En)
    as (receipt & Erun & Hknown & _).
  rewrite Erun in Ht. cbn [snd] in Ht. apply ok_inj in Ht. subst receipt.
  rewrite Hknown in Hk. apply (f_equal (fun o => match o with
                                                 | Some (PBool b) => b
                                                 | _ => false
                                                 end)) in Hk.
  cbn beta iota in Hk.
  destruct (flag_pif_connection_run entity name country w' En Hc)
    as (flagged & ind & Frun & _ & _ & Hconn & Hdom).
  assert (Eo : occurs_any pif_names (lower name) = true).
  { unfold occurs_any, PifTracker.PIF_CONNECTED_ENTITIES in Hk.
    cbn [keys map fst existsb] in Hk.
    unfold occurs_any, pif_names. cbn [map existsb].
    repeat match type of Hk with
           | (_ || _) = true => apply orb_true_iff in Hk as [Hk | Hk]
           end.
    - change (lit "affinity partners")
        with (lit "affinity" ++ lit " partners") in Hk.
      apply contains_prefix in Hk. rewrite Hk.
      now rewrite !orb_true_r.
    - rewrite Hk. now rewrite !orb_true_r.
    - rewrite Hk. now rewrite !orb_true_r.
    - rewrite Hk. now rewrite !orb_true_r.
    - discriminate Hk. }
  rewrite Eo in Hconn, Hdom. cbn [orb] in Hconn, Hdom.
  exists flagged. rewrite Frun. now repeat split.
Qed.

(** X14 at the entity [{"name": "LIV Golf", "id": "liv-001"}] of the
    repository's test. *)
Lemma known_pif_entity_is_flagged_witness :
  exists flagged,
    snd (@CrossDomain.flag_pif_connection plain_runtime
           [(lit "name", PStr (lit "LIV Golf"));
            (lit "id", PStr (lit "liv-001"))]
           world0) = Ok flagged
    /\ lookup flagged (lit "is_pif_connected") = Some (PBool true)
    /\ lookup flagged (lit "domains")
       = Some (PList (map PStr [lit "gulf"; lit "golf"; lit "license"])).
Proof.
  destruct (@track_pif_entity_run plain_runtime
              [(lit "name", PStr (lit "LIV Golf"));
               (lit "id", PStr (lit "liv-001"))]
              (PStr (lit "golf")) (lit "LIV Golf") world0 eq_refl)
    as (tracked & Erun & Hknown & _).
  apply (@known_pif_entity_is_flagged plain_runtime
           [(lit "name", PStr (lit "LIV Golf"));
            (lit "id", PStr (lit "liv-001"))]
           (PStr (lit "golf")) (lit "") world0 world0 tracked).
  - now rewrite Erun.
  - exact Hknown.
  - reflexivity.
Defined.

(* ================================================================== *)
(** * The keyword tables                                              *)
(* ================================================================== *)

Lemma lit_unknown (s : string) :
  str_eqb (lit s) (lit "unknown") = false -> lit s = lit "unknown" -> False.
Proof. intros E1 E2. rewrite E2, str_eqb_refl in E1. discriminate. Qed.

Ltac not_unknown H :=
  exfalso; revert H; apply lit_unknown; reflexivity.

(** X15. Of the keyword tables, that of [loop/cycle.py] is the widest.
    A receipt type that [infer_module] of [loop/cycle.py] files under
    ["unknown"] is ["unknown"] to [infer_module] of
    [loop/cross_domain.py] as well, and its lower-cased text is
    ["unknown"] to [infer_domain] of [loop/pif_tracker.py]. *)
Theorem unknown_to_cycle_is_unknown_to_all `{Runtime} (receipt_type : pystr) :
  Cycle.infer_module receipt_type = lit "unknown" ->
  CrossDomain.infer_module receipt_type = lit "unknown"
  /\ PifTracker.infer_domain (lower receipt_type) = lit "unknown".
Proof.
  unfold Cycle.infer_module, CrossDomain.infer_module,
    PifTracker.infer_domain.
  generalize (lower receipt_type). intros s Hs.
  repeat match type of Hs with
         | context [contains ?k s] =>
             destruct (contains k s); cbn [orb] in Hs;
             [not_unknown Hs|]
         end.
  now split.
Qed.

(** X15 at the type ["Audit_Note"]. *)
Lemma unknown_to_cycle_is_unknown_to_all_witness :
  @CrossDomain.infer_module plain_runtime (lit "Audit_Note") = lit "unknown"
  /\ PifTracker.infer_domain (@lower plain_runtime (lit "Audit_Note"))
     = lit "unknown".
Proof.
  apply (@unknown_to_cycle_is_unknown_to_all plain_runtime
           (lit "Audit_Note")).
  reflexivity.
Defined.

(* ================================================================== *)
(** * harvest_violations                                              *)
(* ================================================================== *)

Section HarvestFacts.
Context `{Runtime}.

Lemma harvest_payload (a b c d e f : pyval) :
  dict_of [(lit "tenant_id", a);
           (lit "period", b);
           (lit "total_violations", c);
           (lit "by_module", d);
           (lit "violations", e);
           (lit "harvest_period_days", f)]
  = [(lit "tenant_id", a);
     (lit "period", b);
     (lit "total_violations", c);
     (lit "by_module", d);
     (lit "violations", e);
     (lit "harvest_period_days", f)].
Proof. reflexivity. Qed.

Lemma typed_receipt_module (r : pydict) :
  typed_receipt r = true ->
  exists m, Harvest.infer_module_from_receipt r = Ok m.
Proof.
  unfold typed_receipt, Harvest.infer_module_from_receipt, get.
  destruct (lookup r (lit "receipt_type")) as [[]|];
    try discriminate; intros _;
    cbn [CrossDomain.lower_of Cycle.as_str rbind]; eauto.
Qed.

Lemma group_step_count (by_module : list (pystr * list pydict))
      (v : pydict) :
  typed_receipt v = true ->
  exists by_module',
    Harvest.group_step by_module v = Ok by_module'
    /\ grouped_count by_module' = (grouped_count by_module + 1)%Z.
Proof.
  intros Hv. destruct (typed_receipt_module v Hv) as [m Em].
  unfold Harvest.group_step. rewrite Em. cbn [rbind].
  eexists. split; [reflexivity|].
  unfold grouped_count. rewrite sum_of_set_item.
  unfold has_key. destruct (lookup by_module m) as [vs|] eqn:E.
  - rewrite E, length_app. simpl. lia.
  - rewrite lookup_set_item, str_eqb_refl, sum_of_set_item, E. simpl. lia.
Qed.

Lemma group_loop_count (vs : list pydict) :
  forall by_module,
    forallb typed_receipt vs = true ->
    exists by_module',
      for_each vs Harvest.group_step by_module = Ok by_module'
      /\ grouped_count by_module'
         = (grouped_count by_module + Z.of_nat (List.length vs))%Z.
Proof.
  induction vs as [|v vs IH]; intros bm Hvs; simpl.
  - exists bm. split; [reflexivity | lia].
  - simpl in Hvs. apply andb_true_iff in Hvs as [Hv Hvs].
    destruct (group_step_count bm v Hv) as (bm1 & -> & E1).
    cbn [rbind]. destruct (IH bm1 Hvs) as (bm' & -> & E').
    exists bm'. split; [reflexivity | lia].
Qed.

Lemma flagged_is_violation (r : pydict) :
  Cycle.flagged r = true -> Harvest.is_violation r = true.
Proof.
  unfold Cycle.flagged, Harvest.is_violation, por.
  destruct (truthy (get r (lit "violation") PNone)) eqn:E1;
    cbn iota; rewrite ?E1;
    [intros _; now rewrite !orb_true_r|].
  destruct (truthy (get r (lit "exceeds_threshold") PNone)) eqn:E2;
    cbn iota; rewrite ?E2;
    [intros _; now rewrite !orb_true_r|].
  destruct (truthy (get r (lit "excessive") PNone)) eqn:E3;
    cbn iota; rewrite ?E3;
    [intros _; now rewrite !orb_true_r|].
  intros ->. now rewrite !orb_true_r.
Qed.

End HarvestFacts.

(** X16. [harvest_violations] accounts for every violation once. When
    the harvested receipts hold, for [receipt_type], a text or nothing
    (the receipts that are not harvested may hold anything), the call
    returns, having emitted one receipt; [violations] are the harvested
    receipts in their order and [total_violations] their number; the
    counts of [by_module] add up to [total_violations]; and every receipt
    that [analyze] of [loop/cycle.py] would flag, and every receipt of
    type ["anomaly"], is harvested. *)
Theorem harvest_violations_accounts `{Runtime}
        (receipts : list pydict) (period : option pystr) (w : World) :
  forallb typed_receipt (filter Harvest.is_violation receipts) = true ->
  exists receipt by_module,
    Harvest.harvest_violations receipts period w
    = (mkWorld (S (clock w)) (stdout w ++ [dumps false (PDict receipt)]),
       Ok receipt)
    /\ lookup receipt (lit "violations")
       = Some (PList (map PDict (filter Harvest.is_violation receipts)))
    /\ lookup receipt (lit "total_violations")
       = Some (PInt (count_if Harvest.is_violation receipts))
    /\ lookup receipt (lit "by_module")
       = Some (PDict (map (fun kv => (fst kv, PInt (snd kv))) by_module))
    /\ sum_of (fun n => n) by_module
       = count_if Harvest.is_violation receipts
    /\ forall r,
         In r receipts ->
         Cycle.flagged r = true \/ type_of r = lit "anomaly" ->
         In r (filter Harvest.is_violation receipts).
Proof.
  intros Hty.
  destruct (group_loop_count _ [] Hty) as (bm & Eloop & Ecount).
  unfold Harvest.harvest_violations. rewrite (bind_lift_ok _ _ _ _ _ w Eloop).
  rewrite harvest_payload.
  match goal with
  | |- context [emit_receipt ?t ?d] =>
      destruct (emit_receipt_run t d w) as [_ Erun]
  end.
  rewrite Erun. clear Erun.
  eexists _, (map (fun kv => (fst kv, Z.of_nat (List.length (snd kv)))) bm).
  split; [reflexivity|].
  rewrite !lookup_dict_of_app by distinct_keys.
  split; [reflexivity|]. split; [reflexivity|].
  split; [cbn [lookup]; now rewrite map_map|].
  split.
  - unfold count_if. unfold grouped_count in Ecount. simpl in Ecount.
    rewrite <- Ecount. clear.
    induction bm as [|[k vs] bm IH]; simpl; [reflexivity|].
    now rewrite IH.
  - intros r Hr Hflag. apply filter_In. split; [exact Hr|].
    destruct Hflag as [Hf | Ha]; [now apply flagged_is_violation|].
    unfold Harvest.is_violation. unfold type_of, get in Ha.
    unfold get. destruct (lookup r (lit "receipt_type")) as [[]|];
      try (now vm_compute in Ha). rewrite Ha. reflexivity.
Qed.

(** X16 at the three receipts of the repository's test: two
    violations. *)
Lemma harvest_violations_accounts_witness :
  exists receipt w',
    @Harvest.harvest_violations plain_runtime
      [[(lit "receipt_type", PStr (lit "anomaly"));
        (lit "metric", PStr (lit "test"))];
       [(lit "receipt_type", PStr (lit "test"));
        (lit "violation", PBool true)];
       [(lit "receipt_type", PStr (lit "normal"))]]
      None world0 = (w', Ok receipt)
    /\ lookup receipt (lit "total_violations") = Some (PInt 2).
Proof.
  destruct (@harvest_violations_accounts plain_runtime
              [[(lit "receipt_type", PStr (lit "anomaly"));
                (lit "metric", PStr (lit "test"))];
               [(lit "receipt_type", PStr (lit "test"));
                (lit "violation", PBool true)];
               [(lit "receipt_type", PStr (lit "normal"))]]
              None world0 eq_refl)
    as (receipt & bm & Erun & _ & Ht & _).
  exists receipt. eexists. split; [exact Erun | exact Ht].
Defined.

(* ================================================================== *)
(** * Callers of emit_anomaly                                         *)
(* ================================================================== *)

Section FaraFacts.
Context `{Runtime}.

Lemma bind_ok (A B : Type) (m : M A) (k : A -> M B) (w w1 : World)
      (a : A) :
  m w = (w1, Ok a) -> bind m k w = k a w1.
Proof. intros E. unfold bind. now rewrite E. Qed.

Lemma fara_violation_payload (a b c d e f g h i : pyval) :
  dict_of [(lit "tenant_id", a);
           (lit "entity_id", b);
           (lit "evidence", c);
           (lit "foreign_payments", d);
           (lit "registration_status", e);
           (lit "activities", f);
           (lit "severity", g);
           (lit "special_counsel_requested", h);
           (lit "requesters", i)]
  = [(lit "tenant_id", a);
     (lit "entity_id", b);
     (lit "evidence", c);
     (lit "foreign_payments", d);
     (lit "registration_status", e);
     (lit "activities", f);
     (lit "severity", g);
     (lit "special_counsel_requested", h);
     (lit "requesters", i)].
Proof. reflexivity. Qed.

Lemma severity_cases (evidence : pydict) :
  let payments := get evidence (lit "government_payments") (PInt 0) in
  (numeric payments = false /\ Fara.severity evidence = Raise TypeError)
  \/ (numeric payments = true /\ exists s, Fara.severity evidence = Ok s).
Proof.
  intros payments. unfold Fara.severity. fold payments.
  destruct payments as [| b | n | f | | |];
    cbn [Compare.gt_int rbind numeric];
    try (left; now split); right; (split; [reflexivity|]);
    match goal with
    | |- context [if ?c then _ else _] => destruct c; eauto
    end.
Qed.

End FaraFacts.

(** X17. [flag_violation] of [gulf/fara.py] writes its anomaly first. In
    every case the call emits an anomaly receipt, of classification
    ["violation"] and action ["escalate"], both among the values that
    [emit_anomaly] documents. If [government_payments] (0 when absent) is
    a number, the call then emits and returns the violation receipt, so
    that the ledger gains two lines, with [severity] ["critical"] above
    10,000,000, ["high"] above 1,000,000 and ["medium"] otherwise: for an
    [int] by its value; for a [bool], which counts as 0 or 1, always
    ["medium"]; for a [float] by the comparison of floats with the
    threshold, so that 50,000,000.0 and infinity are ["critical"],
    10,000,000.0 is ["high"], and a NaN, which is above nothing, is
    ["medium"]. If it is not a number, the call raises [TypeError] after
    the anomaly line has been written: the ledger holds an anomaly without
    its violation receipt. *)
Theorem fara_flag_violation_ledger `{Runtime}
        (entity_id : pystr) (evidence : pydict) (w : World) :
  let payments := get evidence (lit "government_payments") (PInt 0) in
  exists anomaly w1,
    emit_anomaly (lit "fara_violation") (PInt 0) (PInt 1)
                 (lit "violation") (lit "escalate") w = (w1, Ok anomaly)
    /\ stdout w1 = stdout w ++ [dumps false (PDict anomaly)]
    /\ In (lit "violation") classifications
    /\ In (lit "escalate") actions
    /\ (numeric payments = false ->
        Fara.flag_violation entity_id evidence w = (w1, Raise TypeError))
    /\ (numeric payments = true ->
        exists receipt w2 severity,
          Fara.flag_violation entity_id evidence w = (w2, Ok receipt)
          /\ stdout w2
             = stdout w ++ [dumps false (PDict anomaly);
                            dumps false (PDict receipt)]
          /\ Fara.severity evidence = Ok severity
          /\ lookup receipt (lit "severity") = Some (PStr severity)
          /\ lookup receipt (lit "foreign_payments") = Some payments)
    /\ (forall n,
          payments = PInt n ->
          Fara.severity evidence
          = Ok (if (10000000 <? n)%Z then lit "critical"
                else if (1000000 <? n)%Z then lit "high"
                else lit "medium"))
    /\ (forall b,
          payments = PBool b -> Fara.severity evidence = Ok (lit "medium"))
    /\ (forall f,
          payments = PFloat f ->
          Fara.severity evidence
          = Ok (if SFltb (Cycle.float_const 10000000) f then lit "critical"
                else if SFltb (Cycle.float_const 1000000) f then lit "high"
                else lit "medium"))
    /\ (payments = PFloat (Cycle.float_const 50000000)
        \/ payments = PFloat (S754_infinity false) ->
        Fara.severity evidence = Ok (lit "critical"))
    /\ (payments = PFloat (Cycle.float_const 10000000) ->
        Fara.severity evidence = Ok (lit "high"))
    /\ (payments = PFloat S754_nan ->
        Fara.severity evidence = Ok (lit "medium")).
Proof.
  intros payments.
  destruct (emit_anomaly_run (lit "fara_violation") (PInt 0) (PInt 1)
              (lit "violation") (lit "escalate") w)
    as (anomaly & Ea & _).
  eexists anomaly, _. split; [exact Ea|]. split; [reflexivity|].
  split; [unfold classifications; cbn [map In]; auto|].
  split; [unfold actions; cbn [map In]; auto|].
  split; [|split; [|split; [|split; [|split; [|split; [|split]]]]]].
  - intros Hn. unfold Fara.flag_violation. rewrite (bind_ok _ _ _ _ _ _ _ Ea).
    destruct (severity_cases evidence) as [[_ Es] | [Hn' _]].
    + now rewrite (bind_lift_raise _ _ _ _ _ _ Es).
    + fold payments in Hn'. congruence.
  - intros Hn. unfold Fara.flag_violation. rewrite (bind_ok _ _ _ _ _ _ _ Ea).
    destruct (severity_cases evidence) as [[Hn' _] | [_ [s Es]]].
    + fold payments in Hn'. congruence.
    + rewrite (bind_lift_ok _ _ _ _ _ _ Es). rewrite fara_violation_payload.
      match goal with
      | |- context [emit_receipt ?t ?d ?w'] =>
          destruct (emit_receipt_run t d w') as [_ Erun]
      end.
      rewrite Erun. clear Erun. eexists _, _, s.
      split; [reflexivity|]. cbn [stdout].
      split; [now rewrite <- app_assoc|]. split; [exact Es|].
      rewrite !lookup_dict_of_app by distinct_keys. now split.
  - intros n Hp. unfold Fara.severity. fold payments. rewrite Hp.
    cbn [Compare.gt_int rbind]. destruct (10000000 <? n)%Z; reflexivity.
  - intros b Hp. unfold Fara.severity. fold payments. rewrite Hp.
    now destruct b.
  - intros f Hp. unfold Fara.severity. fold payments. rewrite Hp.
    cbn [Compare.gt_int rbind].
    destruct (SFltb (Cycle.float_const 10000000) f); reflexivity.
  - intros Hp. unfold Fara.severity. fold payments.
    destruct Hp as [-> | ->]; reflexivity.
  - intros Hp. unfold Fara.severity. fold payments. now rewrite Hp.
  - intros Hp. unfold Fara.severity. fold payments. now rewrite Hp.
Qed.

Section EmolumentFacts.
Context `{Runtime}.

Lemma emolument_payload (a b c d e f g h i j k : pyval) :
  dict_of [(lit "tenant_id", a);
           (lit "payment_id", b);
           (lit "amount", c);
           (lit "source_name", d);
           (lit "source_country", e);
           (lit "is_foreign", f);
           (lit "is_government", g);
           (lit "is_emolument", h);
           (lit "disclosure_threshold", i);
           (lit "exceeds_threshold", j);
           (lit "messitte_standard", k)]
  = [(lit "tenant_id", a);
     (lit "payment_id", b);
     (lit "amount", c);
     (lit "source_name", d);
     (lit "source_country", e);
     (lit "is_foreign", f);
     (lit "is_government", g);
     (lit "is_emolument", h);
     (lit "disclosure_threshold", i);
     (lit "exceeds_threshold", j);
     (lit "messitte_standard", k)].
Proof. reflexivity. Qed.

(** [assess_emolument] on a source whose country is a text and a payment
    whose amount is an [int]. *)
Lemma assess_emolument_run (payment source : pydict) (country : pystr)
      (a : Z) (w : World) :
  get source (lit "country") (PStr (lit "")) = PStr country ->
  get payment (lit "amount") (PInt 0) = PInt a ->
  let foreign := negb (str_in (lower country) domestic) in
  let government :=
    truthy (por (get source (lit "is_government") (PBool false))
           (por (get source (lit "is_state_owned") (PBool false))
                (get source (lit "is_sovereign") (PBool false)))) in
  exists receipt w' is_emolument,
    Emoluments.assess_emolument payment source w = (w', Ok receipt)
    /\ lookup receipt (lit "receipt_type")
       = Some (PStr (lit "emolument_assessment"))
    /\ lookup receipt (lit "is_emolument") = Some is_emolument
    /\ truthy is_emolument = foreign && government && (0 <? a)%Z
    /\ (foreign = false -> is_emolument = PBool false)
    /\ lookup receipt (lit "exceeds_threshold")
       = Some (PBool (10000 <=? a)%Z)
    /\ lookup receipt (lit "violation") = None
    /\ if foreign && government && (10000 <=? a)%Z
       then exists anomaly,
              stdout w' = stdout w ++ [dumps false (PDict anomaly);
                                       dumps false (PDict receipt)]
              /\ lookup anomaly (lit "receipt_type")
                 = Some (PStr (lit "anomaly"))
              /\ lookup anomaly (lit "metric")
                 = Some (PStr (lit "emolument_detected"))
              /\ lookup anomaly (lit "baseline") = Some (PInt 10000)
              /\ lookup anomaly (lit "delta") = Some (PInt (a - 10000))
       else stdout w' = stdout w ++ [dumps false (PDict receipt)].
Proof.
  intros Hc Ha foreign government.
  unfold Emoluments.assess_emolument. rewrite Hc, Ha.
  unfold CrossDomain.lower_of. cbn [Cycle.as_str rbind].
  unfold bind at 1, lift at 1.
  fold domestic. fold foreign.
  set (gov := por (get source (lit "is_government") (PBool false)) _).
  fold gov in government.
  unfold Emoluments.is_emolument. cbn [gt_zero rbind].
  unfold Constants.EMOLUMENTS_DISCLOSURE_THRESHOLD.
  cbn [Compare.ge_int].
  assert (Hpos : (10000 <=? a)%Z = true -> (0 <? a)%Z = true).
  { intros E. apply Z.leb_le in E. apply Z.ltb_lt. lia. }
  destruct foreign; [destruct (truthy gov) eqn:Eg|];
    unfold government; rewrite ?Eg; cbn [andb].
  - (* foreign, government *)
    unfold bind at 1, lift at 1.
    destruct (0 <? a)%Z eqn:E0; cbn [truthy].
    + unfold bind at 1, lift at 1.
      destruct (10000 <=? a)%Z eqn:E1.
      * unfold bind at 1, bind at 1, lift at 1. cbn [sub arith].
        destruct (emit_anomaly_run (lit "emolument_detected") (PInt 10000)
                    (PInt (a - 10000)) (lit "violation") (lit "alert") w)
          as (anomaly & Ea & Hty & Hm & Hb & Hd & _).
        unfold bind at 1. rewrite Ea. unfold ret.
        unfold bind at 1, lift at 1. rewrite emolument_payload.
        match goal with
        | |- context [emit_receipt ?t ?d ?w'] =>
            destruct (emit_receipt_run t d w') as [_ Erun]
        end.
        rewrite Erun. clear Erun. eexists _, _, _.
        split; [reflexivity|].
        rewrite !lookup_dict_of_app by distinct_keys.
        do 3 (split; [reflexivity|]). split; [discriminate|].
        do 2 (split; [reflexivity|]).
        exists anomaly. cbn [stdout]. rewrite <- app_assoc. now repeat split.
      * unfold bind at 1, ret. unfold bind at 1, lift at 1.
        rewrite emolument_payload.
        match goal with
        | |- context [emit_receipt ?t ?d ?w'] =>
            destruct (emit_receipt_run t d w') as [_ Erun]
        end.
        rewrite Erun. clear Erun. eexists _, _, _.
        split; [reflexivity|].
        rewrite !lookup_dict_of_app by distinct_keys.
        now repeat split.
    + unfold bind at 1, lift at 1. unfold bind at 1, ret.
      unfold bind at 1, lift at 1.
      destruct (10000 <=? a)%Z eqn:E1;
        [now specialize (Hpos eq_refl)|].
      rewrite emolument_payload.
      match goal with
      | |- context [emit_receipt ?t ?d ?w'] =>
          destruct (emit_receipt_run t d w') as [_ Erun]
      end.
      rewrite Erun. clear Erun. eexists _, _, _.
      split; [reflexivity|].
      rewrite !lookup_dict_of_app by distinct_keys.
      now repeat split.
  - (* foreign, no government *)
    unfold bind at 1, lift at 1. rewrite Eg.
    unfold bind at 1, lift at 1. unfold bind at 1, ret.
    unfold bind at 1, lift at 1.
    rewrite emolument_payload.
    match goal with
    | |- context [emit_receipt ?t ?d ?w'] =>
        destruct (emit_receipt_run t d w') as [_ Erun]
    end.
    rewrite Erun. clear Erun. eexists _, _, _.
    split; [reflexivity|].
    rewrite !lookup_dict_of_app by distinct_keys.
    split; [reflexivity|]. split; [reflexivity|]. split; [exact Eg|].
    split; [discriminate|]. now repeat split.
  - (* domestic *)
    unfold bind at 1, lift at 1. cbn [truthy].
    unfold bind at 1, lift at 1. unfold bind at 1, ret.
    unfold bind at 1, lift at 1.
    rewrite emolument_payload.
    match goal with
    | |- context [emit_receipt ?t ?d ?w'] =>
        destruct (emit_receipt_run t d w') as [_ Erun]
    end.
    rewrite Erun. clear Erun. eexists _, _, _.
    split; [reflexivity|].
    rewrite !lookup_dict_of_app by distinct_keys.
    now repeat split.
Qed.

End EmolumentFacts.

(** X18. [assess_emolument] on a source whose [country], where present,
    is a text, and a payment whose [amount] is an [int]. The payment is an
    emolument exactly when the source is foreign (its lower-cased country
    is none of ["us"], ["usa"], ["united states"]; an absent country is
    foreign), one of [is_government], [is_state_owned], [is_sovereign] is
    true, and the amount is positive. An anomaly receipt is emitted, before
    the assessment receipt, exactly when the payment is an emolument of
    10,000 or more, with baseline 10,000 and delta the amount less
    10,000. [exceeds_threshold] compares the amount alone with 10,000,
    whoever pays. *)
Theorem assess_emolument_threshold `{Runtime}
        (payment source : pydict) (country : pystr) (a : Z) (w : World) :
  get source (lit "country") (PStr (lit "")) = PStr country ->
  get payment (lit "amount") (PInt 0) = PInt a ->
  let foreign := negb (str_in (lower country) domestic) in
  let government :=
    truthy (por (get source (lit "is_government") (PBool false))
           (por (get source (lit "is_state_owned") (PBool false))
                (get source (lit "is_sovereign") (PBool false)))) in
  exists receipt w' is_emolument,
    Emoluments.assess_emolument payment source w = (w', Ok receipt)
    /\ lookup receipt (lit "is_emolument") = Some is_emolument
    /\ truthy is_emolument = foreign && government && (0 <? a)%Z
    /\ lookup receipt (lit "exceeds_threshold")
       = Some (PBool (10000 <=? a)%Z)
    /\ if foreign && government && (10000 <=? a)%Z
       then exists anomaly,
              stdout w' = stdout w ++ [dumps false (PDict anomaly);
                                       dumps false (PDict receipt)]
              /\ lookup anomaly (lit "receipt_type")
                 = Some (PStr (lit "anomaly"))
              /\ lookup anomaly (lit "metric")
                 = Some (PStr (lit "emolument_detected"))
              /\ lookup anomaly (lit "baseline") = Some (PInt 10000)
              /\ lookup anomaly (lit "delta") = Some (PInt (a - 10000))
       else stdout w' = stdout w ++ [dumps false (PDict receipt)].
Proof.
  intros Hc Ha foreign government.
  destruct (assess_emolument_run payment source country a w Hc Ha)
    as (receipt & w' & e & Erun & _ & He & Ht & _ & Hx & _ & Hout).
  exists receipt, w', e. repeat split; assumption.
Qed.

(** X18 at a payment of 50,000 from a government of Saudi Arabia: the
    anomaly reports a delta of 40,000. *)
Lemma assess_emolument_threshold_witness :
  exists receipt w' anomaly,
    @Emoluments.assess_emolument plain_runtime
      [(lit "amount", PInt 50000)]
      [(lit "country", PStr (lit "Saudi Arabia"));
       (lit "is_government", PBool true)]
      world0 = (w', Ok receipt)
    /\ stdout w' = [@dumps plain_runtime false (PDict anomaly);
                    @dumps plain_runtime false (PDict receipt)]
    /\ lookup anomaly (lit "delta") = Some (PInt 40000).
Proof.
  destruct (@assess_emolument_threshold plain_runtime
              [(lit "amount", PInt 50000)]
              [(lit "country", PStr (lit "Saudi Arabia"));
               (lit "is_government", PBool true)]
              (lit "Saudi Arabia") 50000 world0 eq_refl eq_refl)
    as (receipt & w' & e & Erun & _ & _ & _ & anomaly & Hout & _ & _ & _ & Hd).
  exists receipt, w', anomaly. split; [exact Erun|]. split; assumption.
Defined.

(** X19. An assessment is counted as a violation by its amount alone.
    The receipt that [assess_emolument] returns for a payment of 10,000 or
    more holds a true [exceeds_threshold], whoever pays. So [run_cycle]
    files it under ["golf"] and counts it as a priority violation, and
    [harvest_violations] harvests it, also when the source is domestic:
    then [is_emolument] is [False] and no anomaly has been emitted. *)
Theorem large_payment_counts_as_violation `{Runtime}
        (payment source : pydict) (country : pystr) (a : Z)
        (cycle_id : option pystr) (w w2 : World) :
  get source (lit "country") (PStr (lit "")) = PStr country ->
  get payment (lit "amount") (PInt 0) = PInt a ->
  (10000 <= a)%Z ->
  exists receipt w' cycle,
    Emoluments.assess_emolument payment source w = (w', Ok receipt)
    /\ (str_in (lower country) domestic = true ->
        lookup receipt (lit "is_emolument") = Some (PBool false)
        /\ stdout w' = stdout w ++ [dumps false (PDict receipt)])
    /\ Cycle.flagged receipt = true
    /\ Harvest.is_violation receipt = true
    /\ snd (Cycle.run_cycle (Some [receipt]) cycle_id w2) = Ok cycle
    /\ lookup cycle (lit "modules_active")
       = Some (PList [PStr (lit "golf")])
    /\ lookup cycle (lit "priority_violations") = Some (PInt 1).
Proof.
  intros Hc Ha Hge. apply Z.leb_le in Hge.
  destruct (assess_emolument_run payment source country a w Hc Ha)
    as (receipt & w' & e & Erun & Hty & He & Ht & Hdm & Hx & Hv & Hout).
  rewrite Hge in Hx, Hout.
  assert (Hflag : Cycle.flagged receipt = true).
  { unfold Cycle.flagged, get, por. now rewrite Hv, Hx. }
  assert (Htyped : forallb typed_receipt [receipt] = true).
  { cbn [forallb]. unfold typed_receipt. now rewrite Hty. }
  assert (Emod : module_of receipt = lit "golf").
  { unfold module_of, type_of, get. rewrite Hty. reflexivity. }
  destruct (sense_filed [receipt] Htyped) as (st & Est & _ & Hst).
  destruct (run_cycle_fields (Some [receipt]) cycle_id w2 st Est)
    as (cycle & w3 & Crun & Hma & _ & Hpv).
  destruct (analyze_filed st _ Hst) as (Am & _ & Ap).
  exists receipt, w', cycle. split; [exact Erun|]. split; [|split; [|split]].
  - intros Hdom. rewrite Hdom in Hout. cbn [negb andb] in Hout.
    split; [|exact Hout]. rewrite He, Hdm; [reflexivity|].
    now rewrite Hdom.
  - exact Hflag.
  - now apply flagged_is_violation.
  - rewrite Crun. split; [reflexivity|]. split.
    + rewrite Hma, Am. cbn [passed map]. rewrite Emod. reflexivity.
    + rewrite Hpv. f_equal. rewrite Ap. unfold count_if. cbn [passed filter].
      rewrite Hflag, Emod. reflexivity.
Qed.

(** X19 at a payment of 50,000 from a source in the USA. *)
Lemma large_payment_counts_as_violation_witness :
  exists receipt w' cycle,
    @Emoluments.assess_emolument plain_runtime
      [(lit "amount", PInt 50000)] [(lit "country", PStr (lit "USA"))]
      world0 = (w', Ok receipt)
    /\ lookup receipt (lit "is_emolument") = Some (PBool false)
    /\ stdout w' = [@dumps plain_runtime false (PDict receipt)]
    /\ snd (@Cycle.run_cycle plain_runtime (Some [receipt]) None world0)
       = Ok cycle
    /\ lookup cycle (lit "priority_violations") = Some (PInt 1).
Proof.
  assert (Hge : (10000 <= 50000)%Z) by lia.
  destruct (@large_payment_counts_as_violation plain_runtime
              [(lit "amount", PInt 50000)]
              [(lit "country", PStr (lit "USA"))]
              (lit "USA") 50000 None world0 world0 eq_refl eq_refl Hge)
    as (receipt & w' & cycle & Erun & Hdom & _ & _ & Crun & _ & Hpv).
  destruct (Hdom eq_refl) as [He Hout].
  exists receipt, w', cycle. repeat split; assumption.
Defined.

